(** * Digital-signature subsystem of chat-backend: model and verification

    Shallow embedding of [src/signature/models.py], [key_manager.py],
    [document_signer.py] and [signature_verifier.py].

    - Python [str] is [string], [bytes] is [list byte].
    - Values whose type is only known at run time (what [json.load] returns,
      [Dict[str, Any]]) are [json] values; a Python [dict] is an association
      list in insertion order with distinct keys.
    - The file system, the clock, the entropy source and the key held by a
      [KeyManager] are threaded explicitly through a state-and-exception
      monad [M]; [try ... except Exception] is [try_except].
    - The third-party libraries ([cryptography], [json], [datetime]) are an
      interface, the class [Library], with the laws the proofs rely on in
      [LibraryLaws]; module [Ref] gives an executable instance. *)

From Stdlib Require Import ZArith NArith List Strings.String Strings.Ascii Strings.Byte Lia Bool.
From stdpp Require Import gmap strings list fin_maps.
Import ListNotations.
Open Scope string_scope.
Open Scope list_scope.
Set Warnings "-register-all".

(** ** Python built-ins used by the subsystem *)

Module Py.

(** *** [bytes.hex] and [bytes.fromhex] *)

Definition hex_digit (n : N) : ascii :=
  match n with
  | 0%N => "0" | 1%N => "1" | 2%N => "2" | 3%N => "3" | 4%N => "4"
  | 5%N => "5" | 6%N => "6" | 7%N => "7" | 8%N => "8" | 9%N => "9"
  | 10%N => "a" | 11%N => "b" | 12%N => "c" | 13%N => "d" | 14%N => "e"
  | _ => "f"
  end%char.

(** Value of a hexadecimal digit; [fromhex] accepts both letter cases. *)
Definition hex_value (c : ascii) : option N :=
  let n := N_of_ascii c in
  if ((48 <=? n) && (n <=? 57))%N then Some (n - 48)%N
  else if ((97 <=? n) && (n <=? 102))%N then Some (n - 87)%N
  else if ((65 <=? n) && (n <=? 70))%N then Some (n - 55)%N
  else None.

(** ASCII white space: space, [\t], [\n], [\v], [\f], [\r]. *)
Definition is_space (c : ascii) : bool :=
  let n := N_of_ascii c in ((n =? 32) || ((9 <=? n) && (n <=? 13)))%N.

Definition hex_hi (b : byte) : ascii := hex_digit (Byte.to_N b / 16).
Definition hex_lo (b : byte) : ascii := hex_digit (Byte.to_N b mod 16).

(** [b.hex()]: two lowercase digits per byte. *)
Fixpoint hex (bs : list byte) : string :=
  match bs with
  | [] => EmptyString
  | b :: rest => String (hex_hi b) (String (hex_lo b) (hex rest))
  end.

Definition byte_of_digits (c d : ascii) : option byte :=
  match hex_value c, hex_value d with
  | Some h, Some l => Byte.of_N (16 * h + l)
  | _, _ => None
  end.

(** [bytes.fromhex(s)]: white space is skipped before each pair of digits, a
    pair is never split; [None] stands for the [ValueError] raised on any
    other character or on an odd digit. *)
Fixpoint fromhex (s : string) : option (list byte) :=
  match s with
  | EmptyString => Some []
  | String c rest =>
      if is_space c then fromhex rest
      else match rest with
           | EmptyString => None
           | String d rest' =>
               match byte_of_digits c d, fromhex rest' with
               | Some b, Some bs => Some (b :: bs)
               | _, _ => None
               end
           end
  end.

(** *** [str] methods *)

Definition chars (s : string) : list ascii := list_ascii_of_string s.
Definition str (l : list ascii) : string := string_of_list_ascii l.

Fixpoint is_prefix (p l : list ascii) : bool :=
  match p, l with
  | [], _ => true
  | a :: p', b :: l' => Ascii.eqb a b && is_prefix p' l'
  | _ :: _, [] => false
  end.

(** [s.endswith(suffix)] *)
Definition endswith (s suffix : string) : bool :=
  is_prefix (rev (chars suffix)) (rev (chars s)).

(** [s[:-n]] for a positive literal [n]. *)
Definition drop_last (n : nat) (s : string) : string :=
  str (rev (skipn n (rev (chars s)))).

Definition lower_ascii (c : ascii) : ascii :=
  let n := N_of_ascii c in
  if ((65 <=? n) && (n <=? 90))%N then ascii_of_N (n + 32) else c.

(** [s.lower()], on the ASCII letters; no character outside ASCII lowers to a
    letter of [.txt], [.pdf] or [.zip], the only strings the result is
    compared with. *)
Definition lower (s : string) : string := str (map lower_ascii (chars s)).

(** [s.encode('utf-8')]: strings are kept as their UTF-8 bytes. *)
Definition encode (s : string) : list byte := list_byte_of_string s.

(** Truthiness of an [Optional[str]]: [None] and [''] are false. *)
Definition truthy (o : option string) : bool :=
  match o with
  | Some s => negb (String.eqb s "")
  | None => false
  end.

(** *** [pathlib.PurePosixPath] *)

Definition is_sep (c : ascii) : bool := Ascii.eqb c "/".

(** [path.split('/')] *)
Fixpoint split_sep (l : list ascii) : list (list ascii) :=
  match l with
  | [] => [[]]
  | c :: r =>
      if is_sep c then [] :: split_sep r
      else match split_sep r with
           | h :: t => (c :: h) :: t
           | [] => [[c]]
           end
  end.

(** A component is kept by the path parser unless it is empty or [.]. *)
Definition kept_component (x : list ascii) : bool :=
  match x with
  | [] => false
  | [c] => negb (Ascii.eqb c ".")
  | _ => true
  end.

(** [Path(p).name]: the last kept component, [''] if there is none. *)
Definition name_chars (p : list ascii) : list ascii :=
  List.last (List.filter kept_component (split_sep p)) [].

Definition path_name (p : string) : string := str (name_chars (chars p)).

(** Cuts a reversed name at its first dot: [(reversed extension, reversed stem)]. *)
Fixpoint break_dot (l : list ascii) : option (list ascii * list ascii) :=
  match l with
  | [] => None
  | c :: r =>
      if Ascii.eqb c "." then Some ([], r)
      else match break_dot r with
           | Some (e, s) => Some (c :: e, s)
           | None => None
           end
  end.

(** [Path(p).suffix]: with [i = name.rfind('.')], the text from [i] when
    [0 < i < len(name) - 1], else ['']. *)
Definition suffix_chars (nm : list ascii) : list ascii :=
  match break_dot (rev nm) with
  | Some (e :: e', _ :: _ as stem) => "."%char :: rev (e :: e')
  | _ => []
  end.

Definition path_suffix (p : string) : string :=
  str (suffix_chars (name_chars (chars p))).

End Py.


(** ** Dynamically typed values *)

(** What [json.load] can return and [json.dump] can write (floating-point
    numbers apart). *)
Inductive json :=
| JNull
| JBool (b : bool)
| JNum (n : Z)
| JStr (s : string)
| JList (l : list json)
| JDict (d : list (string * json)).

Abbreviation dict := (list (string * json)).

(** [d.get(k)] as an option. *)
Fixpoint dict_get (k : string) (d : dict) : option json :=
  match d with
  | [] => None
  | (k', v) :: rest => if String.eqb k k' then Some v else dict_get k rest
  end.

(** [d[k] = v]: an existing key keeps its position, a new key goes last. *)
Fixpoint dict_set (k : string) (v : json) (d : dict) : dict :=
  match d with
  | [] => [(k, v)]
  | (k', v') :: rest =>
      if String.eqb k k' then (k', v) :: rest else (k', v') :: dict_set k v rest
  end.

(** [{**d, **extra}] *)
Definition dict_update (d extra : dict) : dict :=
  fold_left (fun acc kv => dict_set (fst kv) (snd kv) acc) extra d.

Fixpoint mem_string (k : string) (l : list string) : bool :=
  match l with
  | [] => false
  | k' :: rest => String.eqb k k' || mem_string k rest
  end.

Fixpoint distinct (l : list string) : bool :=
  match l with
  | [] => true
  | k :: rest => negb (mem_string k rest) && distinct rest
  end.

(** The association list stands for a Python [dict]: at every level the keys
    are pairwise distinct. *)
Fixpoint json_wf (v : json) : bool :=
  match v with
  | JList l => forallb json_wf l
  | JDict d =>
      distinct (map fst d) &&
      (fix all (d : dict) : bool :=
         match d with
         | [] => true
         | (_, x) :: rest => json_wf x && all rest
         end) d
  | _ => true
  end.

Definition dict_wf (d : dict) : bool := json_wf (JDict d).

Definition values_wf (d : dict) : bool := forallb (fun kv => json_wf (snd kv)) d.

(** [bool(v)]: [None], [False], [0], [''], [[]] and [{}] are false. *)
Definition json_truthy (v : json) : bool :=
  match v with
  | JNull => false
  | JBool b => b
  | JNum n => negb (n =? 0)%Z
  | JStr s => negb (String.eqb s "")
  | JList l => match l with [] => false | _ => true end
  | JDict d => match d with [] => false | _ => true end
  end.

(** ** Exceptions *)

(** The exception classes the subsystem can meet; the argument is what
    [str(e)] shows. The wording of the libraries' messages is not modelled. *)
Inductive exn :=
| KeyError (key : string)
| TypeError (msg : string)
| ValueError (msg : string)
| AttributeError (msg : string)
| FileNotFoundError (path : string)
| IsADirectoryError (path : string).

Definition str_exn (e : exn) : string :=
  match e with
  | KeyError k => "'" +:+ k +:+ "'"
  | TypeError m | ValueError m | AttributeError m => m
  | FileNotFoundError p => "[Errno 2] No such file or directory: '" +:+ p +:+ "'"
  | IsADirectoryError p => "[Errno 21] Is a directory: '" +:+ p +:+ "'"
  end.

Inductive outcome (A : Type) :=
| Return (a : A)
| Raise (e : exn).
Arguments Return {A} a.
Arguments Raise {A} e.

Definition obind {A B : Type} (o : outcome A) (k : A -> outcome B) : outcome B :=
  match o with
  | Return a => k a
  | Raise e => Raise e
  end.

(** The value of an outcome that is known to be a return. *)
Definition returned {A : Type} (o : outcome A) (default : A) : A :=
  match o with
  | Return a => a
  | Raise _ => default
  end.

Declare Scope py_scope.
Delimit Scope py_scope with py.
Notation "'let?' x ':=' e 'in' k" := (obind e (fun x => k))
  (at level 10, x name, e at level 100, k at level 200) : py_scope.

(** [v[k]] on a run-time value: only a [dict] can be indexed by a string. *)
Definition subscript (v : json) (k : string) : outcome json :=
  match v with
  | JDict d =>
      match dict_get k d with
      | Some x => Return x
      | None => Raise (KeyError k)
      end
  | JStr _ => Raise (TypeError "string indices must be integers")
  | JList _ => Raise (TypeError "list indices must be integers or slices, not str")
  | _ => Raise (TypeError "object is not subscriptable")
  end.

(** [v.get(k, default)] *)
Definition get_default (v : json) (k : string) (default : json) : outcome json :=
  match v with
  | JDict d =>
      match dict_get k d with
      | Some x => Return x
      | None => Return default
      end
  | _ => Raise (AttributeError "object has no attribute 'get'")
  end.

(** ** The third-party libraries *)

Variant Encoding := PEM | DER.

(** The functions of [cryptography.hazmat.primitives], [json] and
    [datetime] the subsystem calls.
    - [sha256 m]: digest of a [hashes.Hash(hashes.SHA256())] that was fed
      [m], in any number of [update] calls.
    - [rsa_sign sk salt m]: [sk.sign(m, PSS(MGF1(SHA256), MAX_LENGTH), SHA256)]
      with the random salt made explicit.
    - [rsa_verify pk sig m]: [true] when [pk.verify(sig, m, ...)] returns,
      [false] when it raises.
    - [public_bytes enc pk]: [pk.public_bytes(enc, SubjectPublicKeyInfo)].
    - [load_pem_public_key], [load_pem_private_key], [json_load],
      [fromisoformat]: [None] when the call raises.
    - [json_dump v]: the UTF-8 text [json.dump(v, f, indent=2,
      ensure_ascii=False)] writes. *)
Class Library := {
  RSAPrivateKey : Type;
  RSAPublicKey : Type;
  datetime : Type;
  sha256 : list byte -> list byte;
  private_key_public_key : RSAPrivateKey -> RSAPublicKey;
  rsa_sign : RSAPrivateKey -> list byte -> list byte -> list byte;
  rsa_verify : RSAPublicKey -> list byte -> list byte -> bool;
  public_bytes : Encoding -> RSAPublicKey -> list byte;
  load_pem_public_key : list byte -> option RSAPublicKey;
  load_pem_private_key : list byte -> option (list byte) -> option RSAPrivateKey;
  json_dump : json -> list byte;
  json_load : list byte -> option json;
  isoformat : datetime -> string;
  fromisoformat : string -> option datetime
}.

(** What the proofs assume of the libraries: a signature verifies under the
    public key of the key that made it, and [json] and [datetime] read back
    what they wrote. *)
Class LibraryLaws (L : Library) : Prop := {
  rsa_verify_sign : forall (sk : RSAPrivateKey) (salt m : list byte),
    rsa_verify (private_key_public_key sk) (rsa_sign sk salt m) m = true;
  json_load_dump : forall v : json,
    json_wf v = true -> json_load (json_dump v) = Some v;
  fromisoformat_isoformat : forall d : datetime,
    fromisoformat (isoformat d) = Some d
}.

(** ** [models.py] *)

Module models.

Variant DocumentType := TXT | PDF | ZIP.

Definition DocumentType_value (t : DocumentType) : string :=
  match t with
  | TXT => "txt"
  | PDF => "pdf"
  | ZIP => "zip"
  end.

Variant SignatureStatus := VALID | INVALID | TAMPERED | EXPIRED | KEY_MISMATCH.

Definition SignatureStatus_value (s : SignatureStatus) : string :=
  match s with
  | VALID => "valid"
  | INVALID => "invalid"
  | TAMPERED => "tampered"
  | EXPIRED => "expired"
  | KEY_MISMATCH => "key_mismatch"
  end.

Section WithLibrary.
Context `{L : Library}.
Local Open Scope py_scope.

(** The dataclass does not check its fields: what [from_dict] reads from a
    sidecar is stored as it is, so every field but the date is a run-time
    value. *)
Record SignatureMetadata := {
  signer_name : json;
  signer_email : json;
  signature_date : datetime;
  document_hash : json;
  signature_algorithm : json;
  key_fingerprint : json;
  additional_info : json
}.

Definition default_signature_algorithm : json := JStr "RSA-PSS with SHA-256".

Definition to_dict (self : SignatureMetadata) : json :=
  JDict [ ("signer_name", signer_name self);
          ("signer_email", signer_email self);
          ("signature_date", JStr (isoformat (signature_date self)));
          ("document_hash", document_hash self);
          ("signature_algorithm", signature_algorithm self);
          ("key_fingerprint", key_fingerprint self);
          ("additional_info", additional_info self) ].

(** [datetime.fromisoformat(v)] on a run-time value. *)
Definition datetime_fromisoformat (v : json) : outcome datetime :=
  match v with
  | JStr s =>
      match fromisoformat s with
      | Some d => Return d
      | None => Raise (ValueError ("Invalid isoformat string: '" +:+ s +:+ "'"))
      end
  | _ => Raise (TypeError "fromisoformat: argument must be str")
  end.

Definition from_dict (data : json) : outcome SignatureMetadata :=
  let? name := subscript data "signer_name" in
  let? email := subscript data "signer_email" in
  let? date_text := subscript data "signature_date" in
  let? date := datetime_fromisoformat date_text in
  let? hash := subscript data "document_hash" in
  let? algorithm := get_default data "signature_algorithm" default_signature_algorithm in
  let? fingerprint := get_default data "key_fingerprint" JNull in
  let? info := get_default data "additional_info" (JDict []) in
  Return {| signer_name := name;
            signer_email := email;
            signature_date := date;
            document_hash := hash;
            signature_algorithm := algorithm;
            key_fingerprint := fingerprint;
            additional_info := info |}.

Record SignatureResult := {
  success : bool;
  message : string;
  status : option SignatureStatus;
  metadata : option SignatureMetadata;
  signature_data : option (list byte);
  signed_file_path : option string;
  error : option string
}.

(** The fields [signer_name], [signer_email] and [additional_info] of the
    request carry the prefix [req_], the names being taken by the metadata. *)
Record SignatureRequest := {
  document_path : string;
  req_signer_name : string;
  req_signer_email : string;
  output_path : option string;
  req_additional_info : dict
}.

Record VerificationRequest := {
  signed_document_path : string;
  original_document_path : option string;
  public_key_path : option string
}.

End WithLibrary.
End models.
Import models.

(** ** The world around the objects *)

Section Runtime.
Context `{L : Library}.

(** A path names a regular file with its content, or a directory. Two
    different strings are two different paths, and the empty string names
    nothing: a world has no entry for it. *)
Inductive node :=
| File (data : list byte)
| Dir.

(** Ghost trace of the routines that ran, oldest first: one event at each
    entry of [_calculate_document_hash], [_create_signature],
    [_verify_signature] and [load_public_key]. The source keeps no such
    trace; it is there to state which routines a call does not reach. *)
Variant event :=
| EvHash (path : string)
| EvSign (document_hash : string)
| EvVerify (document_hash : string)
| EvLoadPublicKey (path : string).

(** [clock] and [entropy] are what the system clock and the random source
    will answer; [ticks] and [draws] count the answers already used. *)
Record World := {
  files : gmap string node;
  clock : nat -> datetime;
  ticks : nat;
  entropy : nat -> list byte;
  draws : nat;
  calls : list event
}.

(** A method of an object of type [Self]: it may change the object and the
    world, and returns or raises. *)
Definition M (Self A : Type) : Type := Self * World -> outcome A * (Self * World).

Definition ret {Self A} (a : A) : M Self A := fun s => (Return a, s).

Definition raise {Self A} (e : exn) : M Self A := fun s => (Raise e, s).

Definition bind {Self A B} (m : M Self A) (k : A -> M Self B) : M Self B :=
  fun s =>
    match m s with
    | (Return a, s') => k a s'
    | (Raise e, s') => (Raise e, s')
    end.

(** [try: body except Exception as e: handler] *)
Definition try_except {Self A} (body : M Self A) (handler : exn -> M Self A) : M Self A :=
  fun s =>
    match body s with
    | (Return a, s') => (Return a, s')
    | (Raise e, s') => handler e s'
    end.

Definition lift {Self A} (o : outcome A) : M Self A := fun s => (o, s).

Definition get_self {Self} : M Self Self := fun s => (Return (fst s), s).

Definition put_self {Self} (x : Self) : M Self unit := fun s => (Return tt, (x, snd s)).

(** Runs a method of a component [C] of the object. *)
Definition on {Self C A} (get : Self -> C) (set : C -> Self -> Self) (m : M C A) : M Self A :=
  fun s =>
    let '(r, (c', w')) := m (get (fst s), snd s) in (r, (set c' (fst s), w')).

Definition set_files (f : gmap string node) (w : World) : World :=
  {| files := f; clock := clock w; ticks := ticks w;
     entropy := entropy w; draws := draws w; calls := calls w |}.

Definition set_ticks (n : nat) (w : World) : World :=
  {| files := files w; clock := clock w; ticks := n;
     entropy := entropy w; draws := draws w; calls := calls w |}.

Definition set_draws (n : nat) (w : World) : World :=
  {| files := files w; clock := clock w; ticks := ticks w;
     entropy := entropy w; draws := n; calls := calls w |}.

Definition set_calls (c : list event) (w : World) : World :=
  {| files := files w; clock := clock w; ticks := ticks w;
     entropy := entropy w; draws := draws w; calls := c |}.

(** [os.path.exists(path)] *)
Definition os_path_exists {Self} (path : string) : M Self bool :=
  fun s => (Return (bool_decide (is_Some (files (snd s) !! path))), s).

(** [open(path, 'rb')] or [open(path, 'r')] followed by reading: the content
    at the time of the call. *)
Definition read_file {Self} (path : string) : M Self (list byte) :=
  fun s =>
    match files (snd s) !! path with
    | Some (File data) => (Return data, s)
    | Some Dir => (Raise (IsADirectoryError path), s)
    | None => (Raise (FileNotFoundError path), s)
    end.

(** [open(path, 'w')] followed by writing [data]: creates or replaces the
    file; a directory cannot be opened. *)
Definition write_file {Self} (path : string) (data : list byte) : M Self unit :=
  fun s =>
    match files (snd s) !! path with
    | Some Dir => (Raise (IsADirectoryError path), s)
    | _ => (Return tt, (fst s, set_files (<[path := File data]> (files (snd s))) (snd s)))
    end.

(** [datetime.now()] *)
Definition now {Self} : M Self datetime :=
  fun s => (Return (clock (snd s) (ticks (snd s))),
            (fst s, set_ticks (S (ticks (snd s))) (snd s))).

(** The random bytes a signature draws for its salt. *)
Definition urandom {Self} : M Self (list byte) :=
  fun s => (Return (entropy (snd s) (draws (snd s))),
            (fst s, set_draws (S (draws (snd s))) (snd s))).

Definition record_call {Self} (e : event) : M Self unit :=
  fun s => (Return tt, (fst s, set_calls (calls (snd s) ++ [e]) (snd s))).

End Runtime.

Notation "x <- e ;; k" := (bind e (fun x => k))
  (at level 100, e at next level, right associativity) : py_scope.
Notation "e ;; k" := (bind e (fun _ => k))
  (at level 100, right associativity) : py_scope.

(** ** [key_manager.py] *)

Module KeyManager.
Section WithLibrary.
Context `{L : Library}.
Local Open Scope py_scope.

(** The attributes of a [KeyManager] object. *)
Record t := {
  key_size : Z;
  private_key : option RSAPrivateKey;
  public_key : option RSAPublicKey
}.

Definition set_public_key (pk : RSAPublicKey) (self : t) : t :=
  {| key_size := key_size self; private_key := private_key self; public_key := Some pk |}.

Definition set_key_pair (sk : RSAPrivateKey) (self : t) : t :=
  {| key_size := key_size self;
     private_key := Some sk;
     public_key := Some (private_key_public_key sk) |}.

Definition __init__ (key_size : Z) : outcome t :=
  if existsb (Z.eqb key_size) [2048; 3072; 4096]%Z
  then Return {| key_size := key_size; private_key := None; public_key := None |}
  else Raise (ValueError "El tamaño de clave debe ser 2048, 3072 o 4096 bits").

(** [KeyManager()], with the default key size. *)
Definition default : t :=
  {| key_size := 2048; private_key := None; public_key := None |}.

(** The assignments to [self.private_key] and [self.public_key] come after
    the parser returned: when it raises, the keys held before stay. *)
Definition load_private_key (filepath : string) (password : option (list byte))
  : M t (option RSAPrivateKey) :=
  try_except
    (found <- os_path_exists filepath ;;
     if negb found then ret None
     else
       pem_data <- read_file filepath ;;
       match load_pem_private_key pem_data password with
       | None => raise (ValueError "Could not deserialize key data")
       | Some sk =>
           self <- get_self ;;
           put_self (set_key_pair sk self) ;;
           ret (Some sk)
       end)
    (fun _ => ret None).

Definition load_public_key (filepath : string) : M t (option RSAPublicKey) :=
  record_call (EvLoadPublicKey filepath) ;;
  try_except
    (found <- os_path_exists filepath ;;
     if negb found then ret None
     else
       pem_data <- read_file filepath ;;
       match load_pem_public_key pem_data with
       | None => raise (ValueError "Could not deserialize key data")
       | Some pk =>
           self <- get_self ;;
           put_self (set_public_key pk self) ;;
           ret (Some pk)
       end)
    (fun _ => ret None).

(** The key is serialised with [Encoding.PEM] and that text is hashed. The
    serialisation and the hash of a loaded key do not raise, so the
    [except] branch of the source has no counterpart. *)
Definition get_public_key_fingerprint : M t (option string) :=
  self <- get_self ;;
  match public_key self with
  | None => ret None
  | Some pk =>
      let pem := public_bytes PEM pk in
      let fingerprint := sha256 pem in
      ret (Some (Py.hex fingerprint))
  end.

Definition verify_key_files_exist {Self} (private_key_path public_key_path : string)
  : M Self bool :=
  a <- os_path_exists private_key_path ;;
  if a then os_path_exists public_key_path else ret false.

End WithLibrary.
End KeyManager.

(** ** Hashing a document, shared by signer and verifier *)

Section Hashing.
Context `{L : Library}.
Local Open Scope py_scope.

Definition CHUNK : nat := Z.to_nat 8192.

(** [while chunk := f.read(CHUNK): hash_obj.update(chunk)]. [f] is what is
    left to read, [hash_obj] what the hash object was fed so far. Every
    round consumes at least one byte: [S (length f)] rounds are enough. *)
Fixpoint read_chunks (fuel : nat) (f hash_obj : list byte) : list byte :=
  match fuel with
  | O => hash_obj
  | S fuel' =>
      match firstn CHUNK f with
      | [] => hash_obj
      | chunk => read_chunks fuel' (skipn CHUNK f) (hash_obj ++ chunk)
      end
  end.

Definition calculate_document_hash {Self} (file_path : string) : M Self string :=
  record_call (EvHash file_path) ;;
  f <- read_file file_path ;;
  let hash_obj := read_chunks (S (length f)) f [] in
  ret (Py.hex (sha256 hash_obj)).

End Hashing.

(** ** [document_signer.py] *)

Module DocumentSigner.
Section WithLibrary.
Context `{L : Library}.
Local Open Scope py_scope.

Record t := {
  key_manager : KeyManager.t;
  private_key_path : string;
  public_key_path : string
}.

Definition set_key_manager (k : KeyManager.t) (self : t) : t :=
  {| key_manager := k;
     private_key_path := private_key_path self;
     public_key_path := public_key_path self |}.

(** [self.key_manager.method(...)] *)
Definition on_key_manager {A} (m : M KeyManager.t A) : M t A :=
  on key_manager set_key_manager m.

Definition _calculate_document_hash (file_path : string) : M t string :=
  calculate_document_hash file_path.

Definition _create_signature (document_hash : string) : M t (list byte) :=
  record_call (EvSign document_hash) ;;
  self <- get_self ;;
  match KeyManager.private_key (key_manager self) with
  | None => raise (AttributeError "'NoneType' object has no attribute 'sign'")
  | Some sk =>
      salt <- urandom ;;
      ret (rsa_sign sk salt (Py.encode document_hash))
  end.

Definition _get_signature_file_path (document_path : string) : string :=
  document_path +:+ ".sig".

Definition _detect_document_type (file_path : string) : option DocumentType :=
  let extension := Py.lower (Py.path_suffix file_path) in
  if String.eqb extension ".txt" then Some TXT
  else if String.eqb extension ".pdf" then Some PDF
  else if String.eqb extension ".zip" then Some ZIP
  else None.

(** The [dict] that [_save_signature] writes. *)
Definition signature_package (signature_data : list byte) (metadata : SignatureMetadata)
  : json :=
  JDict [ ("signature", JStr (Py.hex signature_data));
          ("metadata", to_dict metadata) ].

Definition _save_signature (signature_file_path : string) (signature_data : list byte)
    (metadata : SignatureMetadata) : M t unit :=
  write_file signature_file_path (json_dump (signature_package signature_data metadata)).

(** Lines 186-198: the metadata of a new signature. *)
Definition new_metadata (request : SignatureRequest) (doc_type : DocumentType)
    (document_hash : string) (date : datetime) (fingerprint : option string)
  : SignatureMetadata :=
  {| signer_name := JStr (req_signer_name request);
     signer_email := JStr (req_signer_email request);
     signature_date := date;
     document_hash := JStr document_hash;
     signature_algorithm := default_signature_algorithm;
     key_fingerprint := match fingerprint with Some f => JStr f | None => JNull end;
     additional_info :=
       JDict (dict_update
                [ ("document_type", JStr (DocumentType_value doc_type));
                  ("document_name", JStr (Py.path_name (document_path request))) ]
                (req_additional_info request)) |}.

(** Lines 203-207: [request.output_path] when it is given and not empty,
    else the default sidecar path. *)
Definition signature_file_path_of (request : SignatureRequest) : string :=
  if Py.truthy (output_path request)
  then match output_path request with
       | Some p => p
       | None => _get_signature_file_path (document_path request)
       end
  else _get_signature_file_path (document_path request).

Definition sign_document (request : SignatureRequest) : M t SignatureResult :=
  try_except
    (found <- os_path_exists (document_path request) ;;
     if negb found then
       ret {| success := false;
              message := "Documento no encontrado";
              status := None;
              metadata := None;
              signature_data := None;
              signed_file_path := None;
              error := Some ("El archivo " +:+ document_path request +:+ " no existe") |}
     else
       match _detect_document_type (document_path request) with
       | None =>
           ret {| success := false;
                  message := "Tipo de documento no soportado";
                  status := None;
                  metadata := None;
                  signature_data := None;
                  signed_file_path := None;
                  error := Some "Solo se soportan archivos .txt, .pdf y .zip" |}
       | Some doc_type =>
           document_hash <- _calculate_document_hash (document_path request) ;;
           date <- now ;;
           fingerprint <- on_key_manager KeyManager.get_public_key_fingerprint ;;
           let metadata := new_metadata request doc_type document_hash date fingerprint in
           signature_data <- _create_signature document_hash ;;
           let signature_file_path := signature_file_path_of request in
           _save_signature signature_file_path signature_data metadata ;;
           ret {| success := true;
                  message := "Documento firmado exitosamente";
                  status := Some VALID;
                  metadata := Some metadata;
                  signature_data := Some signature_data;
                  signed_file_path := Some signature_file_path;
                  error := None |}
       end)
    (fun e =>
       ret {| success := false;
              message := "Error al firmar documento";
              status := None;
              metadata := None;
              signature_data := None;
              signed_file_path := None;
              error := Some (str_exn e) |}).

(** The [for] loop of [sign_batch]: [results] is the list built so far. *)
Fixpoint sign_loop (document_paths : list string) (signer_name signer_email : string)
    (results : list SignatureResult) : M t (list SignatureResult) :=
  match document_paths with
  | [] => ret results
  | doc_path :: rest =>
      let request :=
        {| document_path := doc_path;
           req_signer_name := signer_name;
           req_signer_email := signer_email;
           output_path := None;
           req_additional_info := [] |} in
      result <- sign_document request ;;
      sign_loop rest signer_name signer_email (results ++ [result])
  end.

Definition sign_batch (document_paths : list string) (signer_name signer_email : string)
  : M t (list SignatureResult) :=
  sign_loop document_paths signer_name signer_email [].

End WithLibrary.
End DocumentSigner.

(** ** [signature_verifier.py] *)

Module SignatureVerifier.
Section WithLibrary.
Context `{L : Library}.
Local Open Scope py_scope.

Record t := {
  key_manager : KeyManager.t;
  public_key_path : option string
}.

Definition set_key_manager (k : KeyManager.t) (self : t) : t :=
  {| key_manager := k; public_key_path := public_key_path self |}.

Definition on_key_manager {A} (m : M KeyManager.t A) : M t A :=
  on key_manager set_key_manager m.

(** The body of the constructor, run on the object with a fresh
    [KeyManager()]. *)
Definition __init__ (public_key_path : option string) : M t unit :=
  match public_key_path with
  | Some p =>
      if Py.truthy (Some p) then
        found <- os_path_exists p ;;
        if found then on_key_manager (KeyManager.load_public_key p) ;; ret tt
        else ret tt
      else ret tt
  | None => ret tt
  end.

(** [SignatureVerifier(public_key_path)] *)
Definition new (path : option string) (w : World) : t * World :=
  snd (__init__ path ({| key_manager := KeyManager.default; public_key_path := path |}, w)).

Definition _load_signature_file (signature_file_path : string) : M t (option json) :=
  try_except
    (found <- os_path_exists signature_file_path ;;
     if negb found then ret None
     else
       text <- read_file signature_file_path ;;
       match json_load text with
       | Some signature_package => ret (Some signature_package)
       | None => raise (ValueError "Expecting value")
       end)
    (fun _ => ret None).

Definition _calculate_document_hash (file_path : string) : M t string :=
  calculate_document_hash file_path.

(** A missing key makes the attribute access raise, which the routine
    catches like any failure of the check. *)
Definition _verify_signature (document_hash : string) (signature_data : list byte)
  : M t bool :=
  record_call (EvVerify document_hash) ;;
  self <- get_self ;;
  match KeyManager.public_key (key_manager self) with
  | Some pk => ret (rsa_verify pk signature_data (Py.encode document_hash))
  | None => ret false
  end.

(** [bytes.fromhex(v)] on a run-time value. *)
Definition bytes_fromhex (v : json) : outcome (list byte) :=
  match v with
  | JStr s =>
      match Py.fromhex s with
      | Some b => Return b
      | None => Raise (ValueError "non-hexadecimal number found in fromhex() arg")
      end
  | _ => Raise (TypeError "fromhex() argument must be str")
  end.

(** [not signature_package] *)
Definition package_missing (signature_package : option json) : bool :=
  match signature_package with
  | Some v => negb (json_truthy v)
  | None => true
  end.

(** [current_hash != metadata.document_hash] *)
Definition hash_differs (current_hash : string) (recorded : json) : bool :=
  match recorded with
  | JStr h => negb (String.eqb current_hash h)
  | _ => true
  end.

(** Lines 141-147: the sidecar path and the path of the document. *)
Definition locate (request : VerificationRequest) : string * string :=
  if Py.endswith (signed_document_path request) ".sig" then
    let signature_file_path := signed_document_path request in
    let document_path :=
      if Py.truthy (original_document_path request)
      then match original_document_path request with Some p => p | None => "" end
      else Py.drop_last 4 (signed_document_path request) in
    (signature_file_path, document_path)
  else
    let document_path := signed_document_path request in
    let signature_file_path := document_path +:+ ".sig" in
    (signature_file_path, document_path).

Definition failure (message : string) (status : SignatureStatus)
    (metadata : option SignatureMetadata) (error : string) : SignatureResult :=
  {| success := false;
     message := message;
     status := Some status;
     metadata := metadata;
     signature_data := None;
     signed_file_path := None;
     error := Some error |}.

(** Lines 191-221: hash check, then the cryptographic check. *)
Definition check_hash_and_signature (document_path : string)
    (signature_data : list byte) (metadata : SignatureMetadata) : M t SignatureResult :=
  current_hash <- _calculate_document_hash document_path ;;
  if hash_differs current_hash (document_hash metadata) then
    ret (failure "El documento ha sido modificado después de la firma" TAMPERED
           (Some metadata) "El hash del documento no coincide con el hash firmado")
  else
    is_valid <- _verify_signature current_hash signature_data ;;
    if is_valid then
      ret {| success := true;
             message := "Firma válida - El documento es auténtico y no ha sido modificado";
             status := Some VALID;
             metadata := Some metadata;
             signature_data := None;
             signed_file_path := None;
             error := None |}
    else
      ret (failure "Firma inválida" INVALID (Some metadata)
             "La firma digital no pudo ser verificada").

(** Lines 172-189, then the checks: the key named by the request is loaded
    into the key manager, and a key must be held before anything is hashed. *)
Definition resolve_key_and_check (request : VerificationRequest) (document_path : string)
    (signature_data : list byte) (metadata : SignatureMetadata) : M t SignatureResult :=
  loaded <-
    (if Py.truthy (models.public_key_path request) then
       match models.public_key_path request with
       | Some p =>
           k <- on_key_manager (KeyManager.load_public_key p) ;;
           ret (match k with Some _ => true | None => false end)
       | None => ret true
       end
     else ret true) ;;
  if negb loaded then
    ret (failure "No se pudo cargar la clave pública" KEY_MISMATCH None
           "Error al cargar la clave pública proporcionada")
  else
    self <- get_self ;;
    match KeyManager.public_key (key_manager self) with
    | None =>
        ret (failure "No hay clave pública disponible" KEY_MISMATCH None
               "Se requiere una clave pública para verificar la firma")
    | Some _ => check_hash_and_signature document_path signature_data metadata
    end.

Definition verify_document (request : VerificationRequest) : M t SignatureResult :=
  try_except
    (found <- os_path_exists (signed_document_path request) ;;
     if negb found then
       ret (failure "Documento firmado no encontrado" INVALID None
              ("El archivo " +:+ signed_document_path request +:+ " no existe"))
     else
       let '(signature_file_path, document_path) := locate request in
       found <- os_path_exists document_path ;;
       if negb found then
         ret (failure "Documento original no encontrado" INVALID None
                ("El archivo " +:+ document_path +:+ " no existe"))
       else
         signature_package <- _load_signature_file signature_file_path ;;
         if package_missing signature_package then
           ret (failure "No se pudo cargar el archivo de firma" INVALID None
                  "El archivo de firma es inválido o está corrupto")
         else
           let package := match signature_package with Some v => v | None => JNull end in
           signature_hex <- lift (subscript package "signature") ;;
           signature_data <- lift (bytes_fromhex signature_hex) ;;
           metadata_dict <- lift (subscript package "metadata") ;;
           metadata <- lift (from_dict metadata_dict) ;;
           resolve_key_and_check request document_path signature_data metadata)
    (fun e =>
       ret (failure "Error al verificar documento" INVALID None (str_exn e))).

(** The [for] loop of [verify_batch]. *)
Fixpoint verify_loop (document_paths : list string) (results : list SignatureResult)
  : M t (list SignatureResult) :=
  match document_paths with
  | [] => ret results
  | doc_path :: rest =>
      let request :=
        {| signed_document_path := doc_path;
           original_document_path := None;
           models.public_key_path := None |} in
      result <- verify_document request ;;
      verify_loop rest (results ++ [result])
  end.

Definition verify_batch (document_paths : list string) : M t (list SignatureResult) :=
  verify_loop document_paths [].

End WithLibrary.
End SignatureVerifier.

(** ** Creating directories: [pathlib.Path.mkdir] *)

Module Pathlib.

(** The root of a POSIX path: [/] for one leading slash or for three and
    more, [//] for exactly two, nothing for a relative path. *)
Definition anchor (p : list ascii) : list ascii :=
  match p with
  | c1 :: rest =>
      if Py.is_sep c1 then
        match rest with
        | c2 :: rest' =>
            if Py.is_sep c2 then
              match rest' with
              | c3 :: _ => if Py.is_sep c3 then ["/"%char] else ["/"%char; "/"%char]
              | [] => ["/"%char; "/"%char]
              end
            else ["/"%char]
        | [] => ["/"%char]
        end
      else []
  | [] => []
  end.

(** [Path(p).parts] without the root. *)
Definition parts (p : list ascii) : list (list ascii) :=
  List.filter Py.kept_component (Py.split_sep p).

(** ['/'.join(parts)] *)
Fixpoint join_sep (l : list (list ascii)) : list ascii :=
  match l with
  | [] => []
  | [x] => x
  | x :: rest => x ++ "/"%char :: join_sep rest
  end.

(** [str(path)] for a path given by its root and parts: [.] when it has
    neither. *)
Definition render (root : list ascii) (l : list (list ascii)) : string :=
  match root, l with
  | [], [] => "."
  | _, _ => Py.str (root ++ join_sep l)
  end.

(** [path.mkdir(parents=True, exist_ok=True)] on the files of a world, for
    the path with root [root] and parts [rev rev_parts]. A directory that
    exists is left alone, a missing one is created once its parent is
    there, and a regular file in the way makes the call raise an [OSError]
    ([FileExistsError] or [NotADirectoryError]), which is [None] here. The
    root and [.] exist. *)
Fixpoint mkdir_parents (root : list ascii) (rev_parts : list (list ascii))
    (fs : gmap string node) : option (gmap string node) :=
  match rev_parts with
  | [] => Some fs
  | _ :: above =>
      let path := render root (rev rev_parts) in
      match fs !! path with
      | Some Dir => Some fs
      | Some (File _) => None
      | None =>
          match mkdir_parents root above fs with
          | Some fs' => Some (<[path := Dir]> fs')
          | None => None
          end
      end
  end.

Section WithLibrary.
Context `{L : Library}.

(** [Path(filepath).parent.mkdir(parents=True, exist_ok=True)]: [false]
    stands for the [OSError] the call raises; its callers catch every
    exception. *)
Definition mkdir_parent {Self} (filepath : string) : M Self bool :=
  fun s =>
    let p := Py.chars filepath in
    match mkdir_parents (anchor p) (tl (rev (parts p))) (files (snd s)) with
    | Some fs => (Return true, (fst s, set_files fs (snd s)))
    | None => (Return false, s)
    end.

End WithLibrary.
End Pathlib.

(** ** Generating and serialising private keys *)

(** The functions of [cryptography] that create a key and write a private
    key.
    - [generate_private_key e n seed]: [rsa.generate_private_key(e, n)], the
      random choices made explicit.
    - [private_bytes sk password salt]: [sk.private_bytes(PEM, PKCS8, enc)]
      with [enc = NoEncryption()] for [None] and
      [BestAvailableEncryption(password)] otherwise, [salt] being the
      random bytes the encryption draws. *)
Class KeyLibrary (L : Library) := {
  generate_private_key : Z -> Z -> list byte -> RSAPrivateKey;
  private_bytes : RSAPrivateKey -> option (list byte) -> list byte -> list byte
}.

(** A key reads back from its PEM text: the private key under the password
    it was written with ([None] for an unencrypted key), the public key of a
    private key from its SubjectPublicKeyInfo. *)
Class KeyLibraryLaws (L : Library) (K : KeyLibrary L) : Prop := {
  load_private_bytes : forall (sk : RSAPrivateKey) (password : option (list byte))
      (salt : list byte),
    password <> Some [] ->
    load_pem_private_key (private_bytes sk password salt) password = Some sk;
  load_public_bytes : forall sk : RSAPrivateKey,
    load_pem_public_key (public_bytes PEM (private_key_public_key sk))
    = Some (private_key_public_key sk)
}.

(** ** [key_manager.py]: creating and storing keys *)

Module KeyStore.
Section WithLibrary.
Context `{L : Library} `{K : !KeyLibrary L}.
Local Open Scope py_scope.

(** [bool(password)] for an [Optional[bytes]]. *)
Definition password_given (password : option (list byte)) : bool :=
  match password with
  | Some (_ :: _) => true
  | _ => false
  end.

Definition generate_key_pair : M KeyManager.t (RSAPrivateKey * RSAPublicKey) :=
  self <- get_self ;;
  seed <- urandom ;;
  let sk := generate_private_key 65537 (KeyManager.key_size self) seed in
  put_self (KeyManager.set_key_pair sk self) ;;
  ret (sk, private_key_public_key sk).

Definition save_private_key (filepath : string) (password : option (list byte))
  : M KeyManager.t bool :=
  self <- get_self ;;
  match KeyManager.private_key self with
  | None => ret false
  | Some sk =>
      try_except
        (made <- Pathlib.mkdir_parent filepath ;;
         if negb made then ret false
         else
           pem <- (if password_given password
                   then salt <- urandom ;; ret (private_bytes sk password salt)
                   else ret (private_bytes sk None [])) ;;
           write_file filepath pem ;;
           ret true)
        (fun _ => ret false)
  end.

Definition save_public_key (filepath : string) : M KeyManager.t bool :=
  self <- get_self ;;
  match KeyManager.public_key self with
  | None => ret false
  | Some pk =>
      try_except
        (made <- Pathlib.mkdir_parent filepath ;;
         if negb made then ret false
         else
           let pem := public_bytes PEM pk in
           write_file filepath pem ;;
           ret true)
        (fun _ => ret false)
  end.

(** Runs a method on a local object, which is dropped afterwards. *)
Definition with_object {Self C A} (c : C) (m : M C A) : M Self A :=
  on (fun _ => c) (fun _ self => self) m.

(** The static method: [manager] is a local [KeyManager(key_size)]. *)
Definition generate_and_save_keys {Self} (private_key_path public_key_path : string)
    (key_size : Z) (password : option (list byte)) : M Self bool :=
  try_except
    (manager <- lift (KeyManager.__init__ key_size) ;;
     with_object manager
       (generate_key_pair ;;
        saved <- save_private_key private_key_path password ;;
        if negb saved then ret false
        else
          saved <- save_public_key public_key_path ;;
          if negb saved then ret false
          else ret true))
    (fun _ => ret false).

End WithLibrary.
End KeyStore.

(** ** [document_signer.py]: the constructor *)

Module SignerSetup.
Section WithLibrary.
Context `{L : Library} `{K : !KeyLibrary L}.
Local Open Scope py_scope.

Definition _load_keys (password : option (list byte)) : M DocumentSigner.t bool :=
  self <- get_self ;;
  found <- KeyManager.verify_key_files_exist
             (DocumentSigner.private_key_path self) (DocumentSigner.public_key_path self) ;;
  generated <-
    (if negb found then
       KeyStore.generate_and_save_keys
         (DocumentSigner.private_key_path self) (DocumentSigner.public_key_path self)
         2048 password
     else ret true) ;;
  if negb generated then ret false
  else
    loaded <- DocumentSigner.on_key_manager
                (KeyManager.load_private_key (DocumentSigner.private_key_path self) password) ;;
    match loaded with
    | None => ret false
    | Some _ => ret true
    end.

(** The body of the constructor, run on the object with a fresh
    [KeyManager()] and the two paths. *)
Definition __init__ (password : option (list byte)) : M DocumentSigner.t unit :=
  loaded <- _load_keys password ;;
  if negb loaded then raise (ValueError "No se pudieron cargar las claves de firma")
  else ret tt.

(** [DocumentSigner(private_key_path, public_key_path, password)]: the new
    object, or the exception the constructor raised. *)
Definition new (private_key_path public_key_path : string)
    (password : option (list byte)) (w : World) : outcome DocumentSigner.t * World :=
  let run := __init__ password
               ({| DocumentSigner.key_manager := KeyManager.default;
                   DocumentSigner.private_key_path := private_key_path;
                   DocumentSigner.public_key_path := public_key_path |}, w) in
  (match fst run with
   | Return _ => Return (fst (snd run))
   | Raise e => Raise e
   end, snd (snd run)).

End WithLibrary.
End SignerSetup.

(** ** [signature_verifier.py]: reading a sidecar without verifying *)

Module SignatureInfo.

(** A byte that continues a UTF-8 character. *)
Definition is_continuation (c : ascii) : bool :=
  let n := N_of_ascii c in ((128 <=? n) && (n <? 192))%N.

(** [s[:n]]: the first [n] characters of a string kept as UTF-8. *)
Fixpoint take_chars (n : nat) (s : string) : string :=
  match s with
  | EmptyString => EmptyString
  | String c rest =>
      if is_continuation c then String c (take_chars n rest)
      else match n with
           | O => EmptyString
           | S n' => String c (take_chars n' rest)
           end
  end.

(** [v[:16] + '...'] on a run-time value: a string is cut; a list is
    sliced but cannot be added to a string; nothing else can be sliced (a
    [dict] raises [KeyError] instead from Python 3.12 on). *)
Definition hash_preview (v : json) : outcome json :=
  match v with
  | JStr s => Return (JStr (take_chars 16 s +:+ "..."))
  | JList _ => Raise (TypeError "can only concatenate list (not 'str') to list")
  | JDict _ => Raise (TypeError "unhashable type: 'slice'")
  | _ => Raise (TypeError "object is not subscriptable")
  end.

Section WithLibrary.
Context `{L : Library}.
Local Open Scope py_scope.

Definition extract_metadata_from_signature {Self} (signature_file_path : string)
  : M Self (option SignatureMetadata) :=
  try_except
    (text <- read_file signature_file_path ;;
     match json_load text with
     | None => raise (ValueError "Expecting value")
     | Some signature_package =>
         metadata_dict <- lift (subscript signature_package "metadata") ;;
         metadata <- lift (from_dict metadata_dict) ;;
         ret (Some metadata)
     end)
    (fun _ => ret None).

(** The summary of a parsed sidecar, lines 317-325; no [try] surrounds it. *)
Definition summary (metadata : SignatureMetadata) : outcome json :=
  let? preview := hash_preview (document_hash metadata) in
  Return (JDict [ ("has_signature", JBool true);
                  ("signer_name", signer_name metadata);
                  ("signer_email", signer_email metadata);
                  ("signature_date", JStr (isoformat (signature_date metadata)));
                  ("algorithm", signature_algorithm metadata);
                  ("document_hash", preview);
                  ("additional_info", additional_info metadata) ]).

Definition get_signature_info {Self} (document_path : string) : M Self json :=
  let signature_file_path := document_path +:+ ".sig" in
  found <- os_path_exists signature_file_path ;;
  if negb found then
    ret (JDict [ ("has_signature", JBool false);
                 ("message", JStr "No se encontró archivo de firma") ])
  else
    metadata <- extract_metadata_from_signature signature_file_path ;;
    match metadata with
    | None =>
        ret (JDict [ ("has_signature", JBool true);
                     ("is_valid", JBool false);
                     ("message", JStr "Archivo de firma corrupto") ])
    | Some metadata => lift (summary metadata)
    end.

End WithLibrary.
End SignatureInfo.

(** ** An executable instance of the libraries

    SHA-256 (FIPS 180-4), Base64 and the DER and PEM forms of an RSA
    SubjectPublicKeyInfo are the real encodings. The signature scheme is
    hash-then-RSA on two small fixed keys, a JSON value is written in a
    self-delimiting binary form, and a date is its ISO text: enough to run
    the subsystem on concrete inputs. *)

Module Ref.

Local Open Scope N_scope.

(** *** SHA-256 *)

Definition mask32 (x : N) : N := N.land x 0xffffffff.
Definition add32 (x y : N) : N := mask32 (x + y).
Definition rotr (n x : N) : N := mask32 (N.lor (N.shiftr x n) (N.shiftl x (32 - n))).
Definition not32 (x : N) : N := N.lxor x 0xffffffff.

Definition Ch (x y z : N) : N := N.lxor (N.land x y) (N.land (not32 x) z).
Definition Maj (x y z : N) : N :=
  N.lxor (N.lxor (N.land x y) (N.land x z)) (N.land y z).
Definition Sigma0 (x : N) : N := N.lxor (N.lxor (rotr 2 x) (rotr 13 x)) (rotr 22 x).
Definition Sigma1 (x : N) : N := N.lxor (N.lxor (rotr 6 x) (rotr 11 x)) (rotr 25 x).
Definition sigma0 (x : N) : N := N.lxor (N.lxor (rotr 7 x) (rotr 18 x)) (N.shiftr x 3).
Definition sigma1 (x : N) : N := N.lxor (N.lxor (rotr 17 x) (rotr 19 x)) (N.shiftr x 10).

(** The round constants and the initial hash value are the first 32 bits
    of the fractional parts of the cube roots of the first 64 primes and of
    the square roots of the first 8. *)

Definition is_prime (n : nat) : bool :=
  (1 <? n)%nat && forallb (fun d => negb (n mod d =? 0)%nat) (seq 2 (n - 2)).

Definition first_primes (count : nat) : list N :=
  map N.of_nat (firstn count (List.filter is_prime (seq 2 400))).

(** The largest [r] below [2 ^ bits] with [r ^ k <= x]. *)
Fixpoint int_root (k : N) (bits : nat) (x r : N) : N :=
  match bits with
  | O => r
  | S b =>
      let r' := r + N.shiftl 1 (N.of_nat b) in
      int_root k b x (if r' ^ k <=? x then r' else r)
  end.

Definition frac_root (k : N) (p : N) : N :=
  mask32 (int_root k 40 (N.shiftl p (32 * k)) 0).

Definition K256 : list N := Eval vm_compute in map (frac_root 3) (first_primes 64).

Definition H256 : list N := Eval vm_compute in map (frac_root 2) (first_primes 8).

(** Big-endian bytes of [x], [n] of them. *)
Fixpoint be_bytes (n : nat) (x : N) : list N :=
  match n with
  | O => []
  | S n' => be_bytes n' (x / 256) ++ [x mod 256]
  end.

Definition be_value (l : list N) : N := fold_left (fun acc b => acc * 256 + b) l 0.

(** The message, the bit 1, zeros up to 56 modulo 64, the bit length. *)
Definition pad (m : list N) : list N :=
  let len := N.of_nat (length m) in
  let zeros := N.to_nat ((55 + 64 - len mod 64) mod 64) in
  m ++ [0x80] ++ repeat 0 zeros ++ be_bytes 8 (8 * len).

Fixpoint groups {A} (size count : nat) (l : list A) : list (list A) :=
  match count with
  | O => []
  | S c => firstn size l :: groups size c (skipn size l)
  end.

Definition blocks (m : list N) : list (list N) :=
  map (fun b => map be_value (groups 4 16 b)) (groups 64 (length m / 64) m).

Fixpoint schedule (n : nat) (w : list N) : list N :=
  match n with
  | O => w
  | S n' =>
      let t := length w in
      let at_ (i : nat) := nth (t - i) w 0 in
      schedule n' (w ++ [add32 (add32 (sigma1 (at_ 2%nat)) (at_ 7%nat))
                               (add32 (sigma0 (at_ 15%nat)) (at_ 16%nat))])
  end.

Definition round (h : list N) (kw : N * N) : list N :=
  match h with
  | [a; b; c; d; e; f; g; hh] =>
      let t1 := add32 (add32 (add32 hh (Sigma1 e)) (add32 (Ch e f g) (fst kw))) (snd kw) in
      let t2 := add32 (Sigma0 a) (Maj a b c) in
      [add32 t1 t2; a; b; c; add32 d t1; e; f; g]
  | _ => h
  end.

Definition compress (h block : list N) : list N :=
  let w := schedule 48 block in
  let h' := fold_left round (combine K256 w) h in
  map (fun p => add32 (fst p) (snd p)) (combine h h').

Definition to_byte (n : N) : byte :=
  match Byte.of_N n with
  | Some b => b
  | None => x00%byte
  end.

Definition sha256 (m : list byte) : list byte :=
  let h := fold_left compress (blocks (pad (map Byte.to_N m))) H256 in
  map to_byte (flat_map (be_bytes 4) h).

(** *** Base64 and PEM *)

Definition b64_alphabet : list ascii :=
  Py.chars "ABCDEFGHIJKLMNOPQRSTUVWXYZabcdefghijklmnopqrstuvwxyz0123456789+/".

Definition b64_char (i : N) : N := N_of_ascii (nth (N.to_nat i) b64_alphabet "="%char).

Fixpoint b64_encode (l : list N) : list N :=
  match l with
  | a :: b :: c :: rest =>
      let x := a * 65536 + b * 256 + c in
      [b64_char (x / 262144); b64_char (x / 4096 mod 64);
       b64_char (x / 64 mod 64); b64_char (x mod 64)] ++ b64_encode rest
  | [a; b] =>
      let x := a * 65536 + b * 256 in
      [b64_char (x / 262144); b64_char (x / 4096 mod 64); b64_char (x / 64 mod 64); 61]
  | [a] =>
      let x := a * 65536 in
      [b64_char (x / 262144); b64_char (x / 4096 mod 64); 61; 61]
  | [] => []
  end.

Definition b64_value (c : N) : option N :=
  if (65 <=? c) && (c <=? 90) then Some (c - 65)
  else if (97 <=? c) && (c <=? 122) then Some (c - 71)
  else if (48 <=? c) && (c <=? 57) then Some (c + 4)
  else if c =? 43 then Some 62
  else if c =? 47 then Some 63
  else None.

Fixpoint b64_decode (l : list N) : option (list N) :=
  match l with
  | [] => Some []
  | a :: b :: c :: d :: rest =>
      match b64_value a, b64_value b with
      | Some va, Some vb =>
          if (c =? 61) && (d =? 61) then
            match rest with
            | [] => Some [(va * 64 + vb) / 16]
            | _ => None
            end
          else
            match b64_value c with
            | None => None
            | Some vc =>
                if d =? 61 then
                  match rest with
                  | [] => let x := (va * 64 + vb) * 64 + vc in Some [x / 1024; x / 4 mod 256]
                  | _ => None
                  end
                else
                  match b64_value d, b64_decode rest with
                  | Some vd, Some bs =>
                      let x := ((va * 64 + vb) * 64 + vc) * 64 + vd in
                      Some (x / 65536 :: x / 256 mod 256 :: x mod 256 :: bs)
                  | _, _ => None
                  end
            end
      | _, _ => None
      end
  | _ => None
  end.

Definition ascii_codes (s : string) : list N := map N_of_ascii (Py.chars s).

Fixpoint wrap_lines (fuel width : nat) (l : list N) : list N :=
  match fuel with
  | O => []
  | S fuel' =>
      match l with
      | [] => []
      | _ => (firstn width l ++ [10] ++ wrap_lines fuel' width (skipn width l))%list
      end
  end.

Definition pem_begin : list N := ascii_codes "-----BEGIN PUBLIC KEY-----".
Definition pem_end : list N := ascii_codes "-----END PUBLIC KEY-----".

Definition pem_encode (der : list N) : list N :=
  let body := b64_encode der in
  (pem_begin ++ [10] ++ wrap_lines (length body) 64 body ++ pem_end ++ [10])%list.

Fixpoint split_lines (l : list N) : list (list N) :=
  match l with
  | [] => [[]]
  | c :: r =>
      if c =? 10 then [] :: split_lines r
      else match split_lines r with
           | h :: t => (c :: h) :: t
           | [] => [[c]]
           end
  end.

Definition same_codes (a b : list N) : bool :=
  (length a =? length b)%nat && forallb (fun p => fst p =? snd p) (combine a b).

Fixpoint pem_body (lines : list (list N)) : option (list N) :=
  match lines with
  | [] => None
  | line :: rest =>
      if same_codes line pem_end then Some []
      else match pem_body rest with
           | Some b => Some (line ++ b)%list
           | None => None
           end
  end.

Definition pem_decode (text : list N) : option (list N) :=
  match split_lines text with
  | first :: rest =>
      if same_codes first pem_begin then
        match pem_body rest with
        | Some body => b64_decode body
        | None => None
        end
      else None
  | [] => None
  end.

(** *** DER of an RSA SubjectPublicKeyInfo *)

Record public_key := { modulus : N; exponent : N }.

Definition der_length (n : N) : list N :=
  if n <? 128 then [n]
  else if n <? 256 then [0x81; n]
  else [0x82; n / 256; n mod 256].

Definition der_tlv (tag : N) (content : list N) : list N :=
  (tag :: der_length (N.of_nat (length content)) ++ content)%list.

Definition der_integer (x : N) : list N :=
  let size := Nat.max 1 ((N.to_nat (N.size x) + 7) / 8) in
  let body := be_bytes size x in
  match body with
  | b :: _ => if 128 <=? b then 0 :: body else body
  | [] => [0]
  end.

(** AlgorithmIdentifier: OID 1.2.840.113549.1.1.1 (rsaEncryption), NULL. *)
Definition rsa_algorithm : list N :=
  [0x06; 0x09; 0x2a; 0x86; 0x48; 0x86; 0xf7; 0x0d; 0x01; 0x01; 0x01; 0x05; 0x00].

Definition der_spki (k : public_key) : list N :=
  der_tlv 0x30
    (der_tlv 0x30 rsa_algorithm ++
     der_tlv 0x03 (0 :: der_tlv 0x30 (der_tlv 0x02 (der_integer (modulus k)) ++
                                      der_tlv 0x02 (der_integer (exponent k)))))%list.

Definition parse_length (l : list N) : option (nat * list N) :=
  match l with
  | n :: r =>
      if n <? 128 then Some (N.to_nat n, r)
      else if n =? 0x81 then
        match r with
        | a :: r' => Some (N.to_nat a, r')
        | [] => None
        end
      else if n =? 0x82 then
        match r with
        | a :: b :: r' => Some (N.to_nat (a * 256 + b), r')
        | _ => None
        end
      else None
  | [] => None
  end.

(** One tag-length-value: the content and what follows it. *)
Definition parse_tlv (tag : N) (l : list N) : option (list N * list N) :=
  match l with
  | t :: r =>
      if t =? tag then
        match parse_length r with
        | Some (n, r') =>
            if (n <=? length r')%nat then Some (firstn n r', skipn n r') else None
        | None => None
        end
      else None
  | [] => None
  end.

Definition parse_spki (der : list N) : option public_key :=
  match parse_tlv 0x30 der with
  | Some (spki, []) =>
      match parse_tlv 0x30 spki with
      | Some (algorithm, r1) =>
          if same_codes algorithm rsa_algorithm then
            match parse_tlv 0x03 r1 with
            | Some (0 :: key, []) =>
                match parse_tlv 0x30 key with
                | Some (fields, []) =>
                    match parse_tlv 0x02 fields with
                    | Some (n, r2) =>
                        match parse_tlv 0x02 r2 with
                        | Some (e, []) =>
                            Some {| modulus := be_value n; exponent := be_value e |}
                        | _ => None
                        end
                    | None => None
                    end
                | _ => None
                end
            | _ => None
            end
          else None
      | None => None
      end
  | _ => None
  end.

Definition public_bytes (enc : Encoding) (k : public_key) : list byte :=
  match enc with
  | DER => map to_byte (der_spki k)
  | PEM => map to_byte (pem_encode (der_spki k))
  end.

Definition load_pem_public_key (data : list byte) : option public_key :=
  match pem_decode (map Byte.to_N data) with
  | Some der => parse_spki der
  | None => None
  end.

(** *** Hash-then-RSA on two fixed keys *)

(** [KeyA]: p = 61, q = 53; [KeyB]: p = 47, q = 59; both with e = 17. *)
Variant private_key := KeyA | KeyB.

Definition key_modulus (sk : private_key) : N :=
  match sk with KeyA => 3233 | KeyB => 2773 end.

Definition key_private_exponent (sk : private_key) : N :=
  match sk with KeyA => 2753 | KeyB => 157 end.

Definition private_key_public_key (sk : private_key) : public_key :=
  {| modulus := key_modulus sk; exponent := 17 |}.

Fixpoint pow_mod_pos (b : N) (e : positive) (m : N) : N :=
  match e with
  | xH => b mod m
  | xO e' => let r := pow_mod_pos b e' m in (r * r) mod m
  | xI e' => let r := pow_mod_pos b e' m in (r * r * b) mod m
  end.

Definition pow_mod (b e m : N) : N :=
  match e with
  | N0 => 1 mod m
  | Npos p => pow_mod_pos b p m
  end.

Definition digest_value (m : list byte) : N := be_value (map Byte.to_N (sha256 m)).

(** The signature of the residue [x] as two bytes. *)
Definition sign_residue (sk : private_key) (x : N) : list byte :=
  map to_byte (be_bytes 2 (pow_mod x (key_private_exponent sk) (key_modulus sk))).

Definition verify_residue (pk : public_key) (signature : list byte) (x : N) : bool :=
  let s := be_value (map Byte.to_N signature) in
  (s <? modulus pk) && (pow_mod s (exponent pk) (modulus pk) =? x).

(** Every residue below the modulus is signed and verified. *)
Definition residues_ok (sk : private_key) : bool :=
  forallb (fun x => verify_residue (private_key_public_key sk) (sign_residue sk x) x)
          (map N.of_nat (seq 0 (N.to_nat (key_modulus sk)))).

(** The salt plays no part in this scheme. *)
Definition rsa_sign (sk : private_key) (salt m : list byte) : list byte :=
  sign_residue sk (digest_value m mod key_modulus sk).

Definition rsa_verify (pk : public_key) (signature m : list byte) : bool :=
  verify_residue pk signature (digest_value m mod modulus pk).

(** Private keys are stored under their name. *)
Definition load_pem_private_key (data : list byte) (password : option (list byte))
  : option private_key :=
  if String.eqb (string_of_list_byte data) "KeyA" then Some KeyA
  else if String.eqb (string_of_list_byte data) "KeyB" then Some KeyB
  else None.

(** *** A binary rendering of JSON values *)

Fixpoint enc_pos (p : positive) : list byte :=
  match p with
  | xH => [x00]
  | xO p' => x01 :: enc_pos p'
  | xI p' => x02 :: enc_pos p'
  end%byte.

Definition enc_Z (z : Z) : list byte :=
  match z with
  | Z0 => [x00]
  | Zpos p => x01 :: enc_pos p
  | Zneg p => x02 :: enc_pos p
  end%byte.

Fixpoint enc_string (s : string) : list byte :=
  match s with
  | EmptyString => [x00]
  | String c rest => x01 :: byte_of_ascii c :: enc_string rest
  end%byte.

(** [x01] before every item, [x00] after the last. *)
Definition frame (items : list (list byte)) : list byte :=
  (flat_map (fun e => x01%byte :: e) items ++ [x00%byte])%list.

Fixpoint enc (v : json) : list byte :=
  match v with
  | JNull => [x00]
  | JBool false => [x01]
  | JBool true => [x02]
  | JNum z => x03 :: enc_Z z
  | JStr s => x04 :: enc_string s
  | JList l => x05 :: frame (map enc l)
  | JDict d => x06 :: frame (map (fun '(k, v) => (enc_string k ++ enc v)%list) d)
  end%byte.

Fixpoint dec_pos (b : list byte) : option (positive * list byte) :=
  match b with
  | x00 :: r => Some (xH, r)
  | x01 :: r => match dec_pos r with Some (p, r') => Some (xO p, r') | None => None end
  | x02 :: r => match dec_pos r with Some (p, r') => Some (xI p, r') | None => None end
  | _ => None
  end%byte.

Definition dec_Z (b : list byte) : option (Z * list byte) :=
  match b with
  | x00 :: r => Some (Z0, r)
  | x01 :: r => match dec_pos r with Some (p, r') => Some (Zpos p, r') | None => None end
  | x02 :: r => match dec_pos r with Some (p, r') => Some (Zneg p, r') | None => None end
  | _ => None
  end%byte.

Fixpoint dec_string (b : list byte) : option (string * list byte) :=
  match b with
  | x00 :: r => Some (EmptyString, r)
  | x01 :: c :: r =>
      match dec_string r with
      | Some (s, r') => Some (String (ascii_of_byte c) s, r')
      | None => None
      end
  | _ => None
  end%byte.

(** Reads framed items with [one], at most [n] of them. *)
Fixpoint dec_seq {A} (one : list byte -> option (A * list byte)) (n : nat)
    (b : list byte) : option (list A * list byte) :=
  match n with
  | O => None
  | S n' =>
      match b with
      | x00 :: r => Some ([], r)
      | x01 :: r =>
          match one r with
          | Some (a, r') =>
              match dec_seq one n' r' with
              | Some (l, r'') => Some (a :: l, r'')
              | None => None
              end
          | None => None
          end
      | _ => None
      end
  end%byte.

Definition dec_entry (value : list byte -> option (json * list byte)) (b : list byte)
  : option ((string * json) * list byte) :=
  match dec_string b with
  | Some (k, r) =>
      match value r with
      | Some (v, r') => Some ((k, v), r')
      | None => None
      end
  | None => None
  end.

Fixpoint dec (fuel : nat) (b : list byte) : option (json * list byte) :=
  match fuel with
  | O => None
  | S fuel' =>
      match b with
      | x00 :: r => Some (JNull, r)
      | x01 :: r => Some (JBool false, r)
      | x02 :: r => Some (JBool true, r)
      | x03 :: r => match dec_Z r with Some (z, r') => Some (JNum z, r') | None => None end
      | x04 :: r => match dec_string r with Some (s, r') => Some (JStr s, r') | None => None end
      | x05 :: r =>
          match dec_seq (dec fuel') fuel' r with
          | Some (l, r') => Some (JList l, r')
          | None => None
          end
      | x06 :: r =>
          match dec_seq (dec_entry (dec fuel')) fuel' r with
          | Some (d, r') => Some (JDict d, r')
          | None => None
          end
      | _ => None
      end
  end%byte.

Definition json_dump (v : json) : list byte := enc v.

Definition json_load (text : list byte) : option json :=
  match dec (S (length text)) text with
  | Some (v, []) => Some v
  | _ => None
  end.

(** *** The instance *)

#[export] Instance library : Library :=
  Build_Library private_key public_key string
    sha256 private_key_public_key rsa_sign rsa_verify public_bytes
    load_pem_public_key load_pem_private_key json_dump json_load
    (fun d => d) (fun s => Some s).

End Ref.


(** ** The instance: two stored keys *)

Module RefKeys.

(** The generator picks one of the two keys; a private key is written as
    its name, with or without a password. *)
Definition generate_private_key (public_exponent key_size : Z) (seed : list byte)
  : Ref.private_key :=
  match seed with
  | [] => Ref.KeyA
  | _ :: _ => Ref.KeyB
  end.

Definition private_bytes (sk : Ref.private_key) (password : option (list byte))
    (salt : list byte) : list byte :=
  Py.encode (match sk with Ref.KeyA => "KeyA" | Ref.KeyB => "KeyB" end).

#[export] Instance key_library : KeyLibrary Ref.library :=
  Build_KeyLibrary Ref.library generate_private_key private_bytes.

End RefKeys.


(** ** Vocabulary of the statements *)

Section Vocabulary.
Context `{L : Library}.

(** Whenever [m] returns, the value satisfies [P]. *)
Definition yields {Self A} (m : M Self A) (P : A -> Prop) : Prop :=
  forall s a s', m s = (Return a, s') -> P a.

(** [m] always returns, never raises, and the value satisfies [P]. *)
Definition returns {Self A} (m : M Self A) (P : A -> Prop) : Prop :=
  forall s, exists a s', m s = (Return a, s') /\ P a.

(** A result that reports a failure says why. *)
Definition structured (r : SignatureResult) : Prop :=
  success r = false -> message r <> "" /\ is_Some (error r).

(** [SignatureRequest(document_path, signer_name, signer_email)], the other
    fields at their defaults: the request [sign_batch] makes for a path. *)
Definition plain_request (doc_path signer_name signer_email : string) : SignatureRequest :=
  {| document_path := doc_path;
     req_signer_name := signer_name;
     req_signer_email := signer_email;
     output_path := None;
     req_additional_info := [] |}.

(** [batch_run paths name email s results s']: signing the paths one after
    the other from state [s], each call returning, gives [results] in that
    order and ends in [s']. *)
Inductive batch_run (signer_name signer_email : string) :
  list string -> DocumentSigner.t * World -> list SignatureResult ->
  DocumentSigner.t * World -> Prop :=
| batch_done s : batch_run signer_name signer_email [] s [] s
| batch_step doc_path rest s r s1 results s' :
    DocumentSigner.sign_document (plain_request doc_path signer_name signer_email) s
      = (Return r, s1) ->
    batch_run signer_name signer_email rest s1 results s' ->
    batch_run signer_name signer_email (doc_path :: rest) s (r :: results) s'.

(** The key a PEM file at [path] holds, if there is such a file and it
    parses. *)
Definition key_at (w : World) (path : string) : option RSAPublicKey :=
  match files w !! path with
  | Some (File data) => load_pem_public_key data
  | _ => None
  end.

(** The key the verifier holds once lines 172-189 are through: the key
    read from the path of the request when there is one, else the key it
    held; [None] when that leaves no usable key. *)
Definition resolved_key (request : VerificationRequest)
    (s : SignatureVerifier.t * World) : option RSAPublicKey :=
  if Py.truthy (models.public_key_path request) then
    match models.public_key_path request with
    | Some p => key_at (snd s) p
    | None => None
    end
  else KeyManager.public_key (SignatureVerifier.key_manager (fst s)).

(** Every run-time field of the metadata is a well-formed value. *)
Definition metadata_wf (m : SignatureMetadata) : bool :=
  json_wf (signer_name m) && json_wf (signer_email m) && json_wf (document_hash m) &&
  json_wf (signature_algorithm m) && json_wf (key_fingerprint m) &&
  json_wf (additional_info m).

(** What the sidecar of a request holds, once located and parsed. *)
Definition parsed_sidecar (request : VerificationRequest) (w : World)
    (signature_data : list byte) (metadata : SignatureMetadata) : Prop :=
  exists text package signature_hex metadata_dict,
    files w !! fst (SignatureVerifier.locate request) = Some (File text) /\
    json_load text = Some package /\
    json_truthy package = true /\
    subscript package "signature" = Return signature_hex /\
    SignatureVerifier.bytes_fromhex signature_hex = Return signature_data /\
    subscript package "metadata" = Return metadata_dict /\
    from_dict metadata_dict = Return metadata.

(** Hex SHA-256 of the PEM text of the public key held, if any. *)
Definition fingerprint_of (k : KeyManager.t) : option string :=
  match KeyManager.public_key k with
  | Some pk => Some (Py.hex (sha256 (public_bytes PEM pk)))
  | None => None
  end.

(** The world a successful signature leaves: the sidecar written at [path],
    one clock reading and one salt used, two routines traced. *)
Definition signed_world (w : World) (document_path document_hash path : string)
    (text : list byte) : World :=
  {| files := <[path := File text]> (files w);
     clock := clock w;
     ticks := S (ticks w);
     entropy := entropy w;
     draws := S (draws w);
     calls := calls w ++ [EvHash document_path; EvSign document_hash] |}.

(** The two shapes of a result of [sign_document]. *)
Definition sign_shape (r : SignatureResult) : Prop :=
  (success r = true /\ status r = Some VALID /\ error r = None /\
   is_Some (metadata r) /\ is_Some (signed_file_path r)) \/
  (success r = false /\ status r = None /\ is_Some (error r) /\ message r <> "").

(** The shapes of a result of [verify_document]. *)
Definition verify_shape (r : SignatureResult) : Prop :=
  (success r = true /\ status r = Some VALID /\ error r = None /\ is_Some (metadata r)) \/
  (success r = false /\ is_Some (error r) /\ message r <> "" /\
   (status r = Some INVALID \/ status r = Some TAMPERED \/ status r = Some KEY_MISMATCH)).

(** The routine traced when lines 172-180 load the key of the request. *)
Definition key_loading_calls (request : VerificationRequest) : list event :=
  if Py.truthy (models.public_key_path request)
  then match models.public_key_path request with
       | Some p => [EvLoadPublicKey p]
       | None => []
       end
  else [].


(** The verdict on a document with the given content, for a sidecar that
    holds [signature_data] and [metadata], under the resolved key. *)
Definition verdict (key : option RSAPublicKey) (content signature_data : list byte)
    (metadata : SignatureMetadata) : SignatureStatus :=
  match key with
  | None => KEY_MISMATCH
  | Some pk =>
      let current_hash := Py.hex (sha256 content) in
      if SignatureVerifier.hash_differs current_hash (document_hash metadata) then TAMPERED
      else if rsa_verify pk signature_data (Py.encode current_hash) then VALID
      else INVALID
  end.

(** The routines such a verification runs, in order. *)
Definition verification_calls (request : VerificationRequest)
    (key : option RSAPublicKey) (content : list byte) (metadata : SignatureMetadata)
  : list event :=
  let document_path := snd (SignatureVerifier.locate request) in
  let current_hash := Py.hex (sha256 content) in
  key_loading_calls request ++
  match key with
  | None => []
  | Some _ =>
      EvHash document_path ::
      (if SignatureVerifier.hash_differs current_hash (document_hash metadata) then []
       else [EvVerify current_hash])
  end.

(** [verify_document], run from [s] on a request whose document has the
    given content and whose sidecar parsed, returned [r] and left [s']. *)
Definition verified (request : VerificationRequest) (s : SignatureVerifier.t * World)
    (content signature_data : list byte) (metadata : SignatureMetadata)
    (r : SignatureResult) (s' : SignatureVerifier.t * World) : Prop :=
  let key := resolved_key request s in
  let held := KeyManager.public_key (SignatureVerifier.key_manager (fst s)) in
  status r = Some (verdict key content signature_data metadata) /\
  success r = match verdict key content signature_data metadata with
              | VALID => true
              | _ => false
              end /\
  (is_Some key -> models.metadata r = Some metadata) /\
  files (snd s') = files (snd s) /\
  KeyManager.public_key (SignatureVerifier.key_manager (fst s')) =
    match key with Some pk => Some pk | None => held end /\
  calls (snd s') = (calls (snd s) ++ verification_calls request key content metadata)%list.

Definition not_expired (r : SignatureResult) : Prop := status r <> Some EXPIRED.

End Vocabulary.

(** ** Vocabulary of the further properties *)

Section FurtherVocabulary.
Context `{L : Library}.

(** [m] at most reads the world: the files, and how much of the clock and
    of the entropy was used, are as before. *)
Definition reads_only {Self A} (m : M Self A) : Prop :=
  forall s,
    files (snd (snd (m s))) = files (snd s) /\
    ticks (snd (snd (m s))) = ticks (snd s) /\
    draws (snd (snd (m s))) = draws (snd s).

(** The private key a PEM file at [path] holds under [password]. *)
Definition private_key_at (w : World) (path : string) (password : option (list byte))
  : option RSAPrivateKey :=
  match files w !! path with
  | Some (File data) => load_pem_private_key data password
  | _ => None
  end.

(** [VerificationRequest(path)], the other fields at their defaults: the
    request [verify_batch] makes for a path. *)
Definition plain_vrequest (path : string) : VerificationRequest :=
  {| signed_document_path := path;
     original_document_path := None;
     models.public_key_path := None |}.

(** [m] sees of the world only its files: run on the same object in two
    worlds with the same files, it gives the same outcome and the same
    object, and leaves the same files. *)
Definition sees_files_only {Self A} (m : M Self A) : Prop :=
  forall (self : Self) (w w' : World),
    files w = files w' ->
    fst (m (self, w)) = fst (m (self, w')) /\
    fst (snd (m (self, w))) = fst (snd (m (self, w'))) /\
    files (snd (snd (m (self, w)))) = files (snd (snd (m (self, w')))).

End FurtherVocabulary.

Section SidecarVocabulary.
Context `{L : Library}.

(** The sidecar of a request cannot be used: there is no regular file at
    its path, or the file is not JSON, or the JSON value is one that Python
    takes for false ([null], [false], [0], [''], [[]], [{}]). *)
Definition sidecar_unusable (request : VerificationRequest) (w : World) : Prop :=
  match files w !! fst (SignatureVerifier.locate request) with
  | Some (File text) =>
      match json_load text with
      | Some package => json_truthy package = false
      | None => True
      end
  | _ => True
  end.

End SidecarVocabulary.

(** [fs'] is [fs] with directories added at paths that named nothing. *)
Definition grown (fs fs' : gmap string node) : Prop :=
  forall path, fs' !! path = fs !! path \/ (fs !! path = None /\ fs' !! path = Some Dir).

(** [fs'] is [fs] after [data] was stored at [filepath]: directories were
    added, then the file was created or replaced. *)
Definition stored (fs fs' : gmap string node) (filepath : string) (data : list byte)
  : Prop :=
  exists fs1, grown fs fs1 /\ fs1 !! filepath <> Some Dir /\
              fs' = <[filepath := File data]> fs1.

Section KeyVocabulary.
Context `{L : Library} `{K : !KeyLibrary L}.

(** The key [generate_and_save_keys] makes in world [w]. *)
Definition generated_key (w : World) (key_size : Z) : RSAPrivateKey :=
  generate_private_key 65537 key_size (entropy w (draws w)).

(** A signer that holds the private key [sk] and its public key. *)
Definition signer_with (sk : RSAPrivateKey) (private_key_path public_key_path : string)
  : DocumentSigner.t :=
  {| DocumentSigner.key_manager :=
       {| KeyManager.key_size := 2048;
          KeyManager.private_key := Some sk;
          KeyManager.public_key := Some (private_key_public_key sk) |};
     DocumentSigner.private_key_path := private_key_path;
     DocumentSigner.public_key_path := public_key_path |}.

(** The encryption [save_private_key] asks for: the password when it is
    given and not empty, else none. *)
Definition encryption_of (password : option (list byte)) : option (list byte) :=
  if KeyStore.password_given password then password else None.

(** What the constructor of a signer answers once the key files are there:
    a signer that holds the key of the private key file, or [ValueError]. *)
Definition signer_of_key_file (w : World) (private_key_path public_key_path : string)
    (password : option (list byte)) : outcome DocumentSigner.t :=
  match private_key_at w private_key_path password with
  | Some sk => Return (signer_with sk private_key_path public_key_path)
  | None => Raise (ValueError "No se pudieron cargar las claves de firma")
  end.

End KeyVocabulary.

Section InfoVocabulary.
Context `{L : Library}.
Local Open Scope py_scope.

(** The metadata the signature file at [path] holds, if there is such a
    file, it is JSON, and its [metadata] entry is accepted by
    [from_dict]. *)
Definition sidecar_metadata (w : World) (path : string) : option SignatureMetadata :=
  match files w !! path with
  | Some (File text) =>
      match json_load text with
      | Some package =>
          match (let? metadata_dict := subscript package "metadata" in
                 from_dict metadata_dict) with
          | Return metadata => Some metadata
          | Raise _ => None
          end
      | None => None
      end
  | _ => None
  end.

(** What [get_signature_info] answers for a document in world [w]. *)
Definition signature_info (w : World) (document_path : string) : outcome json :=
  match files w !! (document_path +:+ ".sig") with
  | None =>
      Return (JDict [ ("has_signature", JBool false);
                      ("message", JStr "No se encontró archivo de firma") ])
  | Some _ =>
      match sidecar_metadata w (document_path +:+ ".sig") with
      | None =>
          Return (JDict [ ("has_signature", JBool true);
                          ("is_valid", JBool false);
                          ("message", JStr "Archivo de firma corrupto") ])
      | Some metadata => SignatureInfo.summary metadata
      end
  end.

End InfoVocabulary.

(** [d.get(k, default)] on a [dict]. *)
Definition dict_get_default (k : string) (d : dict) (default : json) : json :=
  match dict_get k d with
  | Some v => v
  | None => default
  end.

(** ** A concrete scenario

    The document [doc.txt] holds the three bytes [abc]; Ada signs it with
    [KeyA]; the public keys of [KeyA] and [KeyB] are stored as PEM files. *)

Module Scenario.

Definition document : string := "doc.txt".
Definition sidecar : string := "doc.txt.sig".
Definition key_file : string := "keys/public.pem".
Definition other_key_file : string := "keys/other.pem".

Definition key_a : Ref.public_key := Ref.private_key_public_key Ref.KeyA.
Definition key_b : Ref.public_key := Ref.private_key_public_key Ref.KeyB.

Definition world0 : World :=
  @Build_World Ref.library
    (<[document := File (Py.encode "abc")]>
       (<["report.pdf" := File (Py.encode "%PDF-1.7")]>
          (<[key_file := File (Ref.public_bytes PEM key_a)]>
             (<[other_key_file := File (Ref.public_bytes PEM key_b)]> ∅))))
    (fun _ => "2025-11-19T10:00:00") 0
    (fun _ => []) 0
    [].

Definition signer : DocumentSigner.t :=
  {| DocumentSigner.key_manager :=
       KeyManager.set_key_pair (L := Ref.library) Ref.KeyA KeyManager.default;
     DocumentSigner.private_key_path := "keys/private.pem";
     DocumentSigner.public_key_path := key_file |}.

Definition request : SignatureRequest :=
  {| document_path := document;
     req_signer_name := "Ada";
     req_signer_email := "ada@example.com";
     output_path := None;
     req_additional_info := [] |}.

(** The world once Ada has signed. *)
Definition world1 : World :=
  snd (snd (DocumentSigner.sign_document request (signer, world0))).

(** The same world after [x] was appended to the document. *)
Definition tampered : World :=
  set_files (<[document := File (Py.encode "abcx")]> (files world1)) world1.

(** A verifier built with the key file, and one built with no key. *)
Definition verifier : SignatureVerifier.t :=
  fst (SignatureVerifier.new (L := Ref.library) (Some key_file) world0).

Definition keyless : SignatureVerifier.t :=
  fst (SignatureVerifier.new (L := Ref.library) None world0).

Definition vrequest : VerificationRequest :=
  {| signed_document_path := document;
     original_document_path := None;
     models.public_key_path := None |}.

(** A request that names another key file. *)
Definition vrequest_other_key : VerificationRequest :=
  {| signed_document_path := document;
     original_document_path := None;
     models.public_key_path := Some other_key_file |}.

(** A request that names a key file that does not exist. *)
Definition vrequest_missing_key : VerificationRequest :=
  {| signed_document_path := document;
     original_document_path := None;
     models.public_key_path := Some "keys/missing.pem" |}.


(** What Ada's signature recorded. *)
Definition signed_hash : string := Py.hex (Ref.sha256 (Py.encode "abc")).

Definition signed_metadata : SignatureMetadata :=
  DocumentSigner.new_metadata (L := Ref.library) request TXT signed_hash
    "2025-11-19T10:00:00"
    (fingerprint_of (L := Ref.library) (DocumentSigner.key_manager signer)).

Definition signed_signature : list byte :=
  Ref.rsa_sign Ref.KeyA [] (Py.encode signed_hash).

(** The result of a concrete run. *)
Definition result_of {S : Type} (run : outcome SignatureResult * S) : SignatureResult :=
  returned (fst run) (SignatureVerifier.failure (L := Ref.library) "" INVALID None "").

(** A 2048-bit public key. *)
Definition rsa2048 : Ref.public_key :=
  {| Ref.modulus := 0xb61ac00328ee5436d1e4b6c45f6c7c9d21bb6b5dd24630efc44b42a900c0cb38963fcab072ab796b941b3f7ad35c246830ecd8ef83e0e985fa35aea907a845194b2ed9ade4b8b89df15f82a588eb8b3858453e90d3f1d633defceaf4f80fead2e4bd679589fa0739b4a708eb9515dc139a2763691aaa6548dddb84f3aef8f39f7f29a93f8e570def91b16af2cf2f808fc8dd91c41df62f7fa3beff6c0cee671be7a5c3ff6e9e540279ee7e7c55c2c93742c701ae32627a7abf845d9e346cc24f55ae6289a647ba04bc99b16d645753fcae8ce6e1dee956882cc92e205412d8e7b556bcc107f78428908fa7fe596c0c0d2332f7e3db639143cf0fe2bb513095c7%N;
     Ref.exponent := 65537%N |}.

(** A key manager that holds the 2048-bit key. *)
Definition key_manager_2048 : KeyManager.t :=
  KeyManager.set_public_key (L := Ref.library) rsa2048 KeyManager.default.

(** Requests to sign a path that does not exist and a key file. *)
Definition request_missing : SignatureRequest :=
  plain_request "notes.docx" "Ada" "ada@example.com".


End Scenario.

(** ** The scenario, continued

    A server starts in a directory that holds the document and an old
    private key but no public key; and Ada's signed document is copied to
    another directory. *)

Module Setup.

Definition private_key_file : string := "keys/signature_private.pem".
Definition public_key_file : string := "keys/signature_public.pem".

(** Before the first start: [KeyA] is stored as the private key, there is
    no public key file, and the random source answers one byte. *)
Definition cold : World :=
  @Build_World Ref.library
    (<[Scenario.document := File (Py.encode "abc")]>
       (<[private_key_file := File (RefKeys.private_bytes Ref.KeyA None [])]> ∅))
    (fun _ => "2025-11-19T10:00:00") 0
    (fun _ => [x2a]%byte) 0
    [].

(** Both key files are there, for [KeyA] and for the public key of [KeyB]. *)
Definition warm : World :=
  set_files (<[public_key_file := File (Ref.public_bytes PEM Scenario.key_b)]> (files cold))
            cold.

(** Whether a run returned. *)
Definition constructed {A S : Type} (run : outcome A * S) : bool :=
  match fst run with
  | Return _ => true
  | Raise _ => false
  end.

(** A request whose output path is the document itself. *)
Definition request_over_document : SignatureRequest :=
  {| document_path := Scenario.document;
     req_signer_name := "Ada";
     req_signer_email := "ada@example.com";
     output_path := Some Scenario.document;
     req_additional_info := [] |}.

(** Ada's document and its signature file, copied to another directory of
    a world that holds nothing else but the key file. *)
Definition copy : string := "signed_documents/doc_signed.txt".

Definition node_at (w : World (L := Ref.library)) (path : string) : node :=
  match files w !! path with
  | Some n => n
  | None => Dir
  end.

Definition copied : World :=
  @Build_World Ref.library
    (<[copy := node_at Scenario.world1 Scenario.document]>
       (<[copy +:+ ".sig" := node_at Scenario.world1 Scenario.sidecar]>
          (<[Scenario.key_file := File (Ref.public_bytes PEM Scenario.key_a)]> ∅)))
    (fun _ => "2025-11-20T09:00:00") 0
    (fun _ => []) 0
    [].

(** A signature file whose recorded hash is a number, next to a document. *)
Definition odd_sidecar : json :=
  JDict [ ("signature", JStr "00");
          ("metadata",
           JDict [ ("signer_name", JStr "Ada");
                   ("signer_email", JStr "ada@example.com");
                   ("signature_date", JStr "2025-11-19T10:00:00");
                   ("document_hash", JNum 7) ]) ].

Definition odd : World :=
  set_files (<[Scenario.sidecar := File (Ref.json_dump odd_sidecar)]> (files Scenario.world0))
            Scenario.world0.

End Setup.

(** * Verification *)

(** ** Python built-ins *)

Section PyFacts.

Lemma hex_digits_of_byte (b : byte) :
  Py.is_space (Py.hex_hi b) = false /\
  Py.byte_of_digits (Py.hex_hi b) (Py.hex_lo b) = Some b.
Proof. destruct b; vm_compute; split; reflexivity. Qed.

(** [bytes.fromhex(b.hex()) == b] *)
Lemma fromhex_hex (bs : list byte) : Py.fromhex (Py.hex bs) = Some bs.
Proof.
  induction bs as [|b bs IH]; [reflexivity|].
  destruct (hex_digits_of_byte b) as [Hsp Hd].
  cbn [Py.hex Py.fromhex]. rewrite Hsp, Hd, IH. reflexivity.
Qed.

Lemma chars_append (s t : string) : Py.chars (s +:+ t) = (Py.chars s ++ Py.chars t)%list.
Proof.
  unfold Py.chars. induction s as [|c s IH]; [reflexivity|].
  simpl. f_equal. exact IH.
Qed.

Lemma str_chars (s : string) : Py.str (Py.chars s) = s.
Proof. apply string_of_list_ascii_of_string. Qed.

Lemma chars_str (l : list ascii) : Py.chars (Py.str l) = l.
Proof. apply list_ascii_of_string_of_list_ascii. Qed.

Lemma is_prefix_app (p l : list ascii) : Py.is_prefix p (p ++ l) = true.
Proof.
  induction p as [|a p IH]; [reflexivity|].
  cbn. now rewrite Ascii.eqb_refl, IH.
Qed.

Lemma is_prefix_split (p l : list ascii) :
  Py.is_prefix p l = true -> exists r, l = (p ++ r)%list.
Proof.
  revert l. induction p as [|a p IH]; intros l H.
  - now exists l.
  - destruct l as [|b l]; [discriminate|].
    cbn in H. apply andb_prop in H as [Hab Hp].
    apply Ascii.eqb_eq in Hab as ->.
    destruct (IH _ Hp) as [r ->]. now exists r.
Qed.

Lemma endswith_append (s suffix : string) : Py.endswith (s +:+ suffix) suffix = true.
Proof.
  unfold Py.endswith. rewrite chars_append, rev_app_distr. apply is_prefix_app.
Qed.

Lemma drop_last_append (s suffix : string) :
  Py.drop_last (String.length suffix) (s +:+ suffix) = s.
Proof.
  unfold Py.drop_last. rewrite chars_append, rev_app_distr.
  replace (String.length suffix) with (length (rev (Py.chars suffix))).
  - rewrite skipn_app, Nat.sub_diag, skipn_all. cbn [app skipn].
    rewrite skipn_O, rev_involutive. apply str_chars.
  - rewrite length_rev. unfold Py.chars.
    induction suffix as [|c t IH]; cbn; [reflexivity | now rewrite IH].
Qed.

(** A path that ends in [.sig] is cut as [pre ++ ".sig"]. *)
Lemma endswith_sig_chars (p : string) :
  Py.endswith p ".sig" = true ->
  exists pre, Py.chars p = (pre ++ Py.chars ".sig")%list.
Proof.
  unfold Py.endswith. intros H.
  apply is_prefix_split in H as [r Hr].
  exists (rev r).
  rewrite <- (rev_involutive (Py.chars p)), Hr, rev_app_distr, rev_involutive.
  reflexivity.
Qed.

Lemma split_sep_nonempty (l : list ascii) : Py.split_sep l <> [].
Proof.
  destruct l as [|c r]; cbn; [discriminate|].
  destruct (Py.is_sep c); [discriminate|].
  destruct (Py.split_sep r); discriminate.
Qed.

(** Appending characters that are not separators extends the last piece. *)
Lemma split_sep_app (pre x : list ascii) :
  forallb (fun c => negb (Py.is_sep c)) x = true ->
  exists front piece,
    Py.split_sep (pre ++ x) = (front ++ [piece ++ x])%list.
Proof.
  intros Hx. induction pre as [|c r IH].
  - exists [], []. cbn [app].
    induction x as [|a x IHx]; [reflexivity|].
    cbn in Hx. apply andb_prop in Hx as [Ha Hx].
    cbn. apply negb_true_iff in Ha. rewrite Ha, (IHx Hx). reflexivity.
  - destruct IH as (front & piece & E).
    cbn [app Py.split_sep]. rewrite E.
    destruct (Py.is_sep c).
    + exists ([] :: front), piece. reflexivity.
    + destruct front as [|h t]; cbn [app].
      * exists [], (c :: piece). reflexivity.
      * exists ((c :: h) :: t), piece. reflexivity.
Qed.

Lemma last_snoc {A} (l : list A) (x d : A) : List.last (l ++ [x]) d = x.
Proof. apply last_last. Qed.

(** The name of a path that ends in [.sig] ends in [.sig]. *)
Lemma name_chars_sig (pre : list ascii) :
  exists piece, Py.name_chars (pre ++ Py.chars ".sig") = (piece ++ Py.chars ".sig")%list.
Proof.
  destruct (split_sep_app pre (Py.chars ".sig") eq_refl) as (front & piece & E).
  exists piece. unfold Py.name_chars. rewrite E, List.filter_app.
  cbn [List.filter].
  replace (Py.kept_component (piece ++ Py.chars ".sig")) with true.
  - apply last_snoc.
  - destruct piece as [|a [|b q]]; reflexivity.
Qed.

Lemma break_dot_sig (piece : list ascii) :
  Py.suffix_chars (piece ++ Py.chars ".sig") = [] \/
  Py.suffix_chars (piece ++ Py.chars ".sig") = Py.chars ".sig".
Proof.
  unfold Py.suffix_chars. rewrite rev_app_distr. cbn.
  destruct (rev piece); [left | right]; reflexivity.
Qed.

Lemma path_suffix_sig (p : string) :
  Py.endswith p ".sig" = true ->
  Py.path_suffix p = "" \/ Py.path_suffix p = ".sig".
Proof.
  intros H. destruct (endswith_sig_chars p H) as [pre Hp].
  unfold Py.path_suffix. rewrite Hp.
  destruct (name_chars_sig pre) as [piece ->].
  destruct (break_dot_sig piece) as [-> | ->]; [left | right]; reflexivity.
Qed.

End PyFacts.

Lemma hex_inj (a b : list byte) : Py.hex a = Py.hex b -> a = b.
Proof.
  intros H. pose proof (fromhex_hex a) as Ha.
  rewrite H, fromhex_hex in Ha. now inversion Ha.
Qed.

(** A document of a supported type is never taken for a sidecar. *)
Lemma detect_document_type_sig (p : string) :
  Py.endswith p ".sig" = true -> DocumentSigner._detect_document_type p = None.
Proof.
  intros H. unfold DocumentSigner._detect_document_type.
  destruct (path_suffix_sig p H) as [-> | ->]; reflexivity.
Qed.

Lemma supported_not_sig (p : string) (t : DocumentType) :
  DocumentSigner._detect_document_type p = Some t -> Py.endswith p ".sig" = false.
Proof.
  intros H. destruct (Py.endswith p ".sig") eqn:E; [|reflexivity].
  rewrite (detect_document_type_sig p E) in H. discriminate.
Qed.

(** ** Dictionaries *)

Lemma json_wf_dict (d : dict) :
  json_wf (JDict d) = distinct (map fst d) && values_wf d.
Proof.
  cbn [json_wf]. f_equal.
  induction d as [|[k v] d IH]; [reflexivity|].
  cbn [values_wf forallb snd]. f_equal. exact IH.
Qed.

Lemma mem_string_dict_set (k k' : string) (v : json) (d : dict) :
  mem_string k' (map fst (dict_set k v d)) =
  String.eqb k' k || mem_string k' (map fst d).
Proof.
  induction d as [|[k0 v0] d IH]; cbn.
  - now rewrite orb_false_r.
  - destruct (String.eqb k k0) eqn:E; cbn.
    + apply String.eqb_eq in E as ->.
      destruct (String.eqb k' k0); reflexivity.
    + rewrite IH. destruct (String.eqb k' k0), (String.eqb k' k); reflexivity.
Qed.

Lemma distinct_dict_set (k : string) (v : json) (d : dict) :
  distinct (map fst d) = true -> distinct (map fst (dict_set k v d)) = true.
Proof.
  induction d as [|[k0 v0] d IH]; cbn; [reflexivity|].
  intros H. apply andb_prop in H as [Hk0 Hd].
  destruct (String.eqb k k0) eqn:E; cbn.
  - now rewrite Hk0, Hd.
  - rewrite mem_string_dict_set, (IH Hd), andb_true_r.
    apply negb_true_iff in Hk0. rewrite Hk0, orb_false_r.
    rewrite String.eqb_sym, E. reflexivity.
Qed.

Lemma values_wf_dict_set (k : string) (v : json) (d : dict) :
  json_wf v = true -> values_wf d = true -> values_wf (dict_set k v d) = true.
Proof.
  intros Hv. induction d as [|[k0 v0] d IH]; cbn.
  - now rewrite Hv.
  - intros H. apply andb_prop in H as [H0 Hd].
    destruct (String.eqb k k0); cbn.
    + now rewrite Hv, Hd.
    + rewrite H0. exact (IH Hd).
Qed.

(** Merging a dictionary of well-formed values into a well-formed one. *)
Lemma dict_update_wf (d extra : dict) :
  dict_wf d = true -> values_wf extra = true -> dict_wf (dict_update d extra) = true.
Proof.
  unfold dict_wf, dict_update. revert d.
  induction extra as [|[k v] extra IH]; intros d Hd Hx; [exact Hd|].
  cbn in Hx. apply andb_prop in Hx as [Hv Hx].
  cbn [fold_left fst snd]. apply IH; [|exact Hx].
  rewrite json_wf_dict in *. apply andb_prop in Hd as [H1 H2].
  now rewrite distinct_dict_set, values_wf_dict_set.
Qed.

Lemma dict_wf_values (d : dict) : dict_wf d = true -> values_wf d = true.
Proof.
  unfold dict_wf. rewrite json_wf_dict. intros H.
  now apply andb_prop in H as [_ H].
Qed.

(** ** Reading a file in chunks *)

Section HashingFacts.
Context `{L : Library}.

Lemma CHUNK_pos : 0 < CHUNK.
Proof. unfold CHUNK. lia. Qed.

Lemma firstn_nil_inv {A} (n : nat) (l : list A) : 0 < n -> firstn n l = [] -> l = [].
Proof. destruct n, l; cbn; intros; (lia || congruence). Qed.

(** The loop feeds the hash object the whole content, whatever the chunk
    size, and stops. *)
Lemma read_chunks_all (fuel : nat) (f hash_obj : list byte) :
  length f < fuel -> read_chunks fuel f hash_obj = (hash_obj ++ f)%list.
Proof.
  revert f hash_obj. induction fuel as [|fuel IH]; intros f h Hlen; [lia|].
  cbn [read_chunks].
  destruct (firstn CHUNK f) as [|b chunk] eqn:E.
  - apply firstn_nil_inv in E; [|apply CHUNK_pos]. subst. now rewrite app_nil_r.
  - rewrite IH.
    + rewrite <- E, <- app_assoc, firstn_skipn. reflexivity.
    + assert (f <> []) by (intros ->; now rewrite firstn_nil in E).
      rewrite length_skipn. pose proof CHUNK_pos.
      destruct f; [congruence|]. cbn [length] in *. lia.
Qed.

Lemma calculate_document_hash_file {Self} (path : string) (data : list byte)
    (self : Self) (w : World) :
  files w !! path = Some (File data) ->
  calculate_document_hash path (self, w) =
  (Return (Py.hex (sha256 data)), (self, set_calls (calls w ++ [EvHash path]) w)).
Proof.
  intros H. unfold calculate_document_hash, bind, record_call, read_file, ret.
  cbn [fst snd set_calls files]. rewrite H.
  rewrite read_chunks_all by lia. reflexivity.
Qed.

End HashingFacts.

(** ** Rules for [yields] and [returns] *)

Section Rules.
Context `{L : Library}.
Context {Self : Type}.

Lemma yields_ret {A} (a : A) (P : A -> Prop) : P a -> yields (ret (Self := Self) a) P.
Proof. intros H s a' s' E. inversion E. now subst. Qed.

Lemma yields_raise {A} (e : exn) (P : A -> Prop) : yields (raise (Self := Self) e) P.
Proof. intros s a s' E. inversion E. Qed.

Lemma yields_lift {A} (o : outcome A) (P : A -> Prop) :
  (forall a, o = Return a -> P a) -> yields (lift (Self := Self) o) P.
Proof. intros H s a s' E. inversion E. now apply H. Qed.

Lemma yields_bind {A B} (m : M Self A) (k : A -> M Self B) (P : B -> Prop) :
  (forall a, yields (k a) P) -> yields (bind m k) P.
Proof.
  intros H s b s' E. unfold bind in E.
  destruct (m s) as [[a|e] s1]; [|discriminate].
  exact (H a s1 b s' E).
Qed.

Lemma yields_try_except {A} (body : M Self A) (handler : exn -> M Self A)
    (P : A -> Prop) :
  yields body P -> (forall e, yields (handler e) P) ->
  yields (try_except body handler) P.
Proof.
  intros Hb Hh s a s' E. unfold try_except in E.
  destruct (body s) as [[a0|e] s1] eqn:Eb.
  - inversion E; subst. exact (Hb s a s' Eb).
  - exact (Hh e s1 a s' E).
Qed.

Lemma returns_ret {A} (a : A) (P : A -> Prop) : P a -> returns (ret (Self := Self) a) P.
Proof. intros H s. now exists a, s. Qed.

(** A [try] whose handler returns cannot raise. *)
Lemma returns_try_except {A} (body : M Self A) (handler : exn -> M Self A)
    (P : A -> Prop) :
  yields body P -> (forall e, returns (handler e) P) ->
  returns (try_except body handler) P.
Proof.
  intros Hb Hh s. unfold try_except.
  destruct (body s) as [[a|e] s1] eqn:Eb.
  - exists a, s1. split; [reflexivity | exact (Hb s a s1 Eb)].
  - apply Hh.
Qed.

Lemma returns_bind {A B} (m : M Self A) (k : A -> M Self B)
    (Q : A -> Prop) (P : B -> Prop) :
  returns m Q -> (forall a, Q a -> returns (k a) P) -> returns (bind m k) P.
Proof.
  intros Hm Hk s. destruct (Hm s) as (a & s1 & E & Ha).
  unfold bind. rewrite E. exact (Hk a Ha s1).
Qed.

Lemma returns_weaken {A} (m : M Self A) (P Q : A -> Prop) :
  returns m P -> (forall a, P a -> Q a) -> returns m Q.
Proof.
  intros H HPQ s. destruct (H s) as (a & s' & E & Ha). exists a, s'. auto.
Qed.

End Rules.

(** Walks through a method, one construct at a time, down to the values it
    returns. *)
Ltac yields_step :=
  lazymatch goal with
  | |- yields (ret _) _ => apply yields_ret
  | |- yields (raise _) _ => apply yields_raise
  | |- yields (bind _ _) _ => apply yields_bind; intros ?
  | |- yields (try_except _ _) _ => apply yields_try_except; [|intros ?]
  | |- yields (if ?b then _ else _) _ => destruct b
  | |- yields (match ?x with _ => _ end) _ => destruct x
  end.

Ltac yields_walk := repeat yields_step.

(** ** The shape of every result *)

Section Shapes.
Context `{L : Library}.

Lemma sign_document_shape (request : SignatureRequest) :
  returns (DocumentSigner.sign_document request) sign_shape.
Proof.
  unfold DocumentSigner.sign_document.
  apply returns_try_except.
  - yields_walk; unfold sign_shape; cbn;
      solve [ left; repeat split; eauto | right; repeat split; eauto; discriminate ].
  - intros e. apply returns_ret. right. cbn. repeat split; eauto; discriminate.
Qed.

Lemma check_hash_and_signature_shape document_path signature_data metadata :
  yields (SignatureVerifier.check_hash_and_signature document_path signature_data metadata)
         verify_shape.
Proof.
  unfold SignatureVerifier.check_hash_and_signature.
  yields_walk; unfold verify_shape, SignatureVerifier.failure; cbn;
    solve [ left; repeat split; eauto
          | right; repeat split; eauto; discriminate ].
Qed.

Lemma resolve_key_and_check_shape request document_path signature_data metadata :
  yields (SignatureVerifier.resolve_key_and_check request document_path
            signature_data metadata) verify_shape.
Proof.
  unfold SignatureVerifier.resolve_key_and_check.
  yields_walk; try apply check_hash_and_signature_shape;
    unfold verify_shape, SignatureVerifier.failure; cbn;
    right; repeat split; eauto; discriminate.
Qed.

Lemma verify_document_shape (request : VerificationRequest) :
  returns (SignatureVerifier.verify_document request) verify_shape.
Proof.
  unfold SignatureVerifier.verify_document.
  apply returns_try_except.
  - yields_walk; try apply resolve_key_and_check_shape;
      unfold verify_shape, SignatureVerifier.failure; cbn;
      right; repeat split; eauto; discriminate.
  - intros e. apply returns_ret. right. cbn. repeat split; eauto; discriminate.
Qed.

End Shapes.

(** ** Running the methods *)

Ltac unfold_monad :=
  unfold bind, ret, raise, try_except, lift, get_self, put_self, on,
    os_path_exists, read_file, write_file, now, urandom, record_call in *.

Ltac simpl_state :=
  cbn [fst snd files clock ticks entropy draws calls
       set_files set_ticks set_draws set_calls
       KeyManager.public_key KeyManager.private_key KeyManager.key_size
       KeyManager.set_public_key KeyManager.set_key_pair
       DocumentSigner.key_manager DocumentSigner.set_key_manager
       DocumentSigner.private_key_path DocumentSigner.public_key_path
       SignatureVerifier.key_manager SignatureVerifier.set_key_manager
       SignatureVerifier.public_key_path negb] in *.

Lemma run_eq_inv {A S : Type} (a r : A) (s1 s' : S) :
  (Return a, s1) = (Return r, s') -> a = r /\ s1 = s'.
Proof. intros E. inversion E. split; reflexivity. Qed.

Lemma returned_run {A S : Type} (run : outcome A * S) (a : A) (s : S) :
  run = (Return a, s) -> a = returned (fst run) a.
Proof. intros ->. reflexivity. Qed.

Ltac success_absurd E :=
  apply run_eq_inv in E as [<- <-]; cbn [success] in *; discriminate.


Section SignerRuns.
Context `{L : Library}.

Lemma exists_true (w : World) (path : string) (n : node) :
  files w !! path = Some n -> bool_decide (is_Some (files w !! path)) = true.
Proof. intros H. apply bool_decide_eq_true. eauto. Qed.


Lemma get_public_key_fingerprint_run (k : KeyManager.t) (w : World) :
  KeyManager.get_public_key_fingerprint (k, w) = (Return (fingerprint_of k), (k, w)).
Proof.
  unfold KeyManager.get_public_key_fingerprint, fingerprint_of.
  unfold_monad. simpl_state. destruct (KeyManager.public_key k); reflexivity.
Qed.

(** The invariant of a signer: a private key that was loaded comes with
    its public key. *)
Lemma load_private_key_run (path : string) (password : option (list byte))
    (k : KeyManager.t) (w : World) (data : list byte) (sk : RSAPrivateKey) :
  files w !! path = Some (File data) ->
  load_pem_private_key data password = Some sk ->
  KeyManager.load_private_key path password (k, w) =
  (Return (Some sk), (KeyManager.set_key_pair sk k, w)).
Proof.
  intros Hfile Hkey. unfold KeyManager.load_private_key. unfold_monad. simpl_state.
  rewrite (exists_true _ _ _ Hfile). simpl_state. rewrite Hfile, Hkey. reflexivity.
Qed.



Lemma sign_document_success (request : SignatureRequest) (self : DocumentSigner.t)
    (w : World) (content : list byte) (doc_type : DocumentType) (sk : RSAPrivateKey) :
  files w !! document_path request = Some (File content) ->
  DocumentSigner._detect_document_type (document_path request) = Some doc_type ->
  KeyManager.private_key (DocumentSigner.key_manager self) = Some sk ->
  files w !! DocumentSigner.signature_file_path_of request <> Some Dir ->
  let document_hash := Py.hex (sha256 content) in
  let metadata :=
    DocumentSigner.new_metadata request doc_type document_hash (clock w (ticks w))
      (fingerprint_of (DocumentSigner.key_manager self)) in
  let signature := rsa_sign sk (entropy w (draws w)) (Py.encode document_hash) in
  let path := DocumentSigner.signature_file_path_of request in
  DocumentSigner.sign_document request (self, w) =
  (Return {| success := true;
             message := "Documento firmado exitosamente";
             status := Some VALID;
             metadata := Some metadata;
             signature_data := Some signature;
             signed_file_path := Some path;
             error := None |},
   (self, signed_world w (document_path request) document_hash path
            (json_dump (DocumentSigner.signature_package signature metadata)))).
Proof.
  intros Hdoc Ht Hsk Hdir. cbv zeta.
  unfold DocumentSigner.sign_document, DocumentSigner._calculate_document_hash,
    DocumentSigner._create_signature, DocumentSigner._save_signature,
    DocumentSigner.on_key_manager.
  unfold try_except at 1. unfold bind at 1. unfold os_path_exists. simpl_state.
  rewrite (exists_true _ _ _ Hdoc), Ht. simpl_state.
  unfold bind at 1. rewrite (calculate_document_hash_file _ _ _ _ Hdoc).
  unfold bind at 1. unfold now. simpl_state.
  unfold bind at 1. unfold on. simpl_state.
  rewrite get_public_key_fingerprint_run.
  unfold_monad. simpl_state. rewrite Hsk. simpl_state.
  destruct (files w !! DocumentSigner.signature_file_path_of request) as [[data|]|] eqn:E;
    try congruence; destruct self as [k a b]; simpl_state;
    unfold signed_world; rewrite <- app_assoc; reflexivity.
Qed.

(** A signature succeeds only along the path of [sign_document_success]. *)
Lemma sign_document_success_inv (request : SignatureRequest)
    (self : DocumentSigner.t) (w : World) (r : SignatureResult)
    (s' : DocumentSigner.t * World) :
  DocumentSigner.sign_document request (self, w) = (Return r, s') ->
  success r = true ->
  exists content doc_type sk,
    files w !! document_path request = Some (File content) /\
    DocumentSigner._detect_document_type (document_path request) = Some doc_type /\
    KeyManager.private_key (DocumentSigner.key_manager self) = Some sk /\
    files w !! DocumentSigner.signature_file_path_of request <> Some Dir.
Proof.
  intros E Hok.
  unfold DocumentSigner.sign_document, DocumentSigner._calculate_document_hash,
    calculate_document_hash, DocumentSigner._create_signature,
    DocumentSigner._save_signature, DocumentSigner.on_key_manager,
    KeyManager.get_public_key_fingerprint in E.
  unfold_monad. simpl_state.
  destruct (bool_decide (is_Some (files w !! document_path request)));
    simpl_state; [|success_absurd E].
  destruct (DocumentSigner._detect_document_type (document_path request)) as [doc_type|];
    simpl_state; [|success_absurd E].
  destruct (files w !! document_path request) as [[data|]|];
    simpl_state; [|success_absurd E|success_absurd E].
  destruct self as [k a b]. simpl_state.
  exists data, doc_type.
  destruct (KeyManager.public_key k); simpl_state;
    (destruct (KeyManager.private_key k) as [sk|]; simpl_state; [|success_absurd E]);
    (destruct (files w !! DocumentSigner.signature_file_path_of request) as [[old|]|];
     simpl_state; [| success_absurd E |]);
    exists sk; repeat split; discriminate.
Qed.


(** The loop returns the results gathered so far followed by one result per
    path, in order. *)
Lemma sign_loop_run (paths : list string) (signer_name signer_email : string)
    (acc : list SignatureResult) (s : DocumentSigner.t * World) :
  exists results s',
    DocumentSigner.sign_loop paths signer_name signer_email acc s =
      (Return (acc ++ results)%list, s') /\
    batch_run signer_name signer_email paths s results s'.
Proof.
  revert acc s. induction paths as [|doc_path rest IH]; intros acc s.
  - exists [], s. rewrite app_nil_r. split; [reflexivity | constructor].
  - cbn [DocumentSigner.sign_loop]. unfold bind at 1.
    destruct (sign_document_shape
                (plain_request doc_path signer_name signer_email) s)
      as (r & s1 & E & _).
    unfold plain_request in E. rewrite E.
    destruct (IH (acc ++ [r])%list s1) as (results & s' & E' & Hrun).
    exists (r :: results), s'. split.
    + rewrite E', <- app_assoc. reflexivity.
    + econstructor; eassumption.
Qed.


Lemma batch_run_shape signer_name signer_email paths s results s' (P : SignatureResult -> Prop) :
  (forall request, returns (DocumentSigner.sign_document request) P) ->
  batch_run signer_name signer_email paths s results s' ->
  Forall P results.
Proof.
  intros HP. induction 1 as [|doc_path rest s r s1 results s' E _ IH]; constructor.
  - destruct (HP (plain_request doc_path signer_name signer_email) s)
      as (r' & s1' & E' & Hr). rewrite E in E'. now inversion E'; subst.
  - exact IH.
Qed.

End SignerRuns.

Section VerifierRuns.
Context `{L : Library}.

(** Lines 191-221 on a document that is a regular file. *)
Lemma check_hash_and_signature_run (document_path : string)
    (content signature_data : list byte) (metadata : SignatureMetadata)
    (self : SignatureVerifier.t) (w : World) (pk : RSAPublicKey) :
  files w !! document_path = Some (File content) ->
  KeyManager.public_key (SignatureVerifier.key_manager self) = Some pk ->
  exists r w',
    SignatureVerifier.check_hash_and_signature document_path signature_data metadata
      (self, w) = (Return r, (self, w')) /\
    status r = Some (verdict (Some pk) content signature_data metadata) /\
    success r = match verdict (Some pk) content signature_data metadata with
                | VALID => true
                | _ => false
                end /\
    models.metadata r = Some metadata /\
    files w' = files w /\
    calls w' =
      (calls w ++
       EvHash document_path ::
       (if SignatureVerifier.hash_differs (Py.hex (sha256 content)) (document_hash metadata)
        then [] else [EvVerify (Py.hex (sha256 content))]))%list.
Proof.
  intros Hdoc Hpk.
  unfold SignatureVerifier.check_hash_and_signature,
    SignatureVerifier._calculate_document_hash, SignatureVerifier._verify_signature,
    verdict.
  unfold bind at 1. rewrite (calculate_document_hash_file _ _ _ _ Hdoc).
  destruct (SignatureVerifier.hash_differs (Py.hex (sha256 content))
              (document_hash metadata)).
  - unfold ret. do 2 eexists. split; [reflexivity|]. simpl_state.
    cbn [status success models.metadata SignatureVerifier.failure]. auto.
  - unfold_monad. simpl_state. rewrite Hpk.
    destruct (rsa_verify pk signature_data (Py.encode (Py.hex (sha256 content))));
      do 2 eexists; (split; [reflexivity|]); simpl_state;
      cbn [status success models.metadata SignatureVerifier.failure];
      rewrite <- app_assoc; auto.
Qed.

(** [load_public_key] returns the key read at the path and holds it from
    then on; when nothing can be read, the key manager is left as it was. *)
Lemma load_public_key_run (path : string) (k : KeyManager.t) (w : World) :
  KeyManager.load_public_key path (k, w) =
  (Return (key_at w path),
   (match key_at w path with
    | Some pk => KeyManager.set_public_key pk k
    | None => k
    end,
    set_calls (calls w ++ [EvLoadPublicKey path]) w)).
Proof.
  unfold KeyManager.load_public_key, key_at. unfold_monad. simpl_state.
  destruct (files w !! path) as [[data|]|] eqn:E.
  - rewrite bool_decide_eq_true_2 by eauto. simpl_state. rewrite E.
    destruct (load_pem_public_key data); reflexivity.
  - rewrite bool_decide_eq_true_2 by eauto. simpl_state. rewrite E. reflexivity.
  - rewrite bool_decide_eq_false_2 by (now intros [? ?]). reflexivity.
Qed.

Lemma resolved_key_truthy (request : VerificationRequest)
    (s : SignatureVerifier.t * World) (p : string) :
  models.public_key_path request = Some p ->
  Py.truthy (Some p) = true ->
  resolved_key request s = key_at (snd s) p.
Proof. intros Hp Ht. unfold resolved_key. now rewrite Hp, Ht. Qed.

Lemma resolved_key_falsy (request : VerificationRequest)
    (s : SignatureVerifier.t * World) :
  Py.truthy (models.public_key_path request) = false ->
  resolved_key request s = KeyManager.public_key (SignatureVerifier.key_manager (fst s)).
Proof. intros Ht. unfold resolved_key. now rewrite Ht. Qed.

(** Lines 172-221 on a document that is a regular file. *)
Lemma resolve_key_and_check_run (request : VerificationRequest)
    (content signature_data : list byte) (metadata : SignatureMetadata)
    (s : SignatureVerifier.t * World) :
  files (snd s) !! snd (SignatureVerifier.locate request) = Some (File content) ->
  exists r s',
    SignatureVerifier.resolve_key_and_check request
      (snd (SignatureVerifier.locate request)) signature_data metadata s = (Return r, s') /\
    verified request s content signature_data metadata r s'.
Proof.
  destruct s as [self w]. cbn [snd]. intros Hdoc.
  unfold SignatureVerifier.resolve_key_and_check, verified, verification_calls,
    key_loading_calls.
  destruct (Py.truthy (models.public_key_path request)) eqn:Ht.
  - destruct (models.public_key_path request) as [p|] eqn:Hp; [|discriminate].
    rewrite (resolved_key_truthy request _ p Hp Ht). cbn [fst snd].
    unfold bind at 1. unfold bind at 1. unfold SignatureVerifier.on_key_manager, on.
    cbn [fst snd]. rewrite load_public_key_run.
    destruct (key_at w p) as [pk|] eqn:Hk.
    + unfold ret at 1. cbn [negb]. unfold bind at 1. unfold get_self. simpl_state.
      destruct (check_hash_and_signature_run
                  (snd (SignatureVerifier.locate request)) content signature_data metadata
                  (SignatureVerifier.set_key_manager
                     (KeyManager.set_public_key pk (SignatureVerifier.key_manager self)) self)
                  (set_calls (calls w ++ [EvLoadPublicKey p]) w) pk Hdoc eq_refl)
        as (r & w' & E & Hst & Hsu & Hmd & Hf & Hc).
      rewrite E. exists r. eexists. split; [reflexivity|]. simpl_state.
      rewrite Hc. cbn [calls set_calls]. rewrite <- app_assoc.
      repeat split; auto.
    + unfold ret. cbn [negb]. do 2 eexists. split; [reflexivity|]. simpl_state.
      cbn [status success models.metadata SignatureVerifier.failure verdict].
      repeat split; auto. intros [? ?]; discriminate.
  - rewrite (resolved_key_falsy request _ Ht). cbn [fst snd].
    unfold bind at 1. unfold ret at 1. cbn [negb].
    unfold bind at 1. unfold get_self. simpl_state.
    destruct (KeyManager.public_key (SignatureVerifier.key_manager self)) as [pk|] eqn:Hk.
    + destruct (check_hash_and_signature_run
                  (snd (SignatureVerifier.locate request)) content signature_data metadata
                  self w pk Hdoc Hk)
        as (r & w' & E & Hst & Hsu & Hmd & Hf & Hc).
      rewrite E. exists r. eexists. split; [reflexivity|]. simpl_state.
      rewrite Hc, Hk. repeat split; auto.
    + unfold ret. do 2 eexists. split; [reflexivity|]. simpl_state.
      cbn [status success models.metadata SignatureVerifier.failure verdict].
      rewrite app_nil_r. repeat split; auto. intros [? ?]; discriminate.
Qed.

(** [verify_document] on a request whose document is a regular file and
    whose sidecar parses: the checks of lines 172-221 decide. *)
Lemma verify_document_parsed (request : VerificationRequest)
    (content signature_data : list byte) (metadata : SignatureMetadata)
    (s : SignatureVerifier.t * World) :
  is_Some (files (snd s) !! signed_document_path request) ->
  files (snd s) !! snd (SignatureVerifier.locate request) = Some (File content) ->
  parsed_sidecar request (snd s) signature_data metadata ->
  exists r s',
    SignatureVerifier.verify_document request s = (Return r, s') /\
    verified request s content signature_data metadata r s'.
Proof.
  intros Hsigned Hdoc (text & package & sh & md & Hside & Hload & Htruthy & Hs1 & Hs2 & Hm1 & Hm2).
  destruct (resolve_key_and_check_run request content signature_data metadata s Hdoc)
    as (r & s' & E & Hv).
  exists r, s'. split; [|exact Hv].
  destruct s as [self w]. cbn [snd] in *.
  unfold SignatureVerifier.verify_document, SignatureVerifier._load_signature_file.
  destruct (SignatureVerifier.locate request) as [sp D]. cbn [fst snd] in *.
  unfold try_except at 1. unfold bind at 1. unfold os_path_exists at 1. cbn [snd].
  rewrite (bool_decide_eq_true_2 _ Hsigned). cbn [negb].
  unfold bind at 1. unfold os_path_exists at 1. cbn [snd].
  rewrite (exists_true _ _ _ Hdoc). cbn [negb].
  unfold bind at 1. unfold try_except at 1. unfold bind at 1.
  unfold os_path_exists at 1. cbn [snd].
  rewrite (exists_true _ _ _ Hside). cbn [negb].
  unfold bind at 1. unfold read_file. cbn [snd]. rewrite Hside, Hload.
  unfold ret at 1. unfold SignatureVerifier.package_missing. rewrite Htruthy. cbn [negb].
  unfold bind at 1. unfold lift at 1. rewrite Hs1.
  unfold bind at 1. unfold lift at 1. rewrite Hs2.
  unfold bind at 1. unfold lift at 1. rewrite Hm1.
  unfold bind at 1. unfold lift at 1. rewrite Hm2.
  rewrite E. reflexivity.
Qed.

End VerifierRuns.

(** ** From a signature to its verification *)

Section RoundTrip.
Context `{L : Library} `{!LibraryLaws L}.

(** [SignatureMetadata.from_dict(m.to_dict()) == m] *)
Lemma from_dict_to_dict (m : SignatureMetadata) : from_dict (to_dict m) = Return m.
Proof.
  unfold from_dict, to_dict. cbn.
  rewrite fromisoformat_isoformat. cbn. destruct m; reflexivity.
Qed.

Lemma signature_package_wf (signature_data : list byte) (m : SignatureMetadata) :
  metadata_wf m = true ->
  json_wf (DocumentSigner.signature_package signature_data m) = true.
Proof.
  unfold metadata_wf. intros H.
  repeat (apply andb_prop in H as [H ?]).
  unfold DocumentSigner.signature_package, to_dict. cbn.
  repeat (apply andb_true_intro; split); auto.
Qed.

Lemma new_metadata_wf request doc_type document_hash date fingerprint :
  values_wf (req_additional_info request) = true ->
  metadata_wf (DocumentSigner.new_metadata request doc_type document_hash date fingerprint)
  = true.
Proof.
  intros H. unfold metadata_wf, DocumentSigner.new_metadata.
  cbn [signer_name signer_email models.document_hash signature_algorithm
       key_fingerprint additional_info].
  replace (json_wf (JDict _)) with true.
  - destruct fingerprint; reflexivity.
  - symmetry. apply dict_update_wf; [reflexivity | exact H].
Qed.

(** A sidecar written by [_save_signature] is read back as what was
    written. *)
Lemma saved_sidecar_parses (request : VerificationRequest) (w : World)
    (signature_data : list byte) (m : SignatureMetadata) :
  metadata_wf m = true ->
  files w !! fst (SignatureVerifier.locate request) =
    Some (File (json_dump (DocumentSigner.signature_package signature_data m))) ->
  parsed_sidecar request w signature_data m.
Proof.
  intros Hwf Hfile. unfold parsed_sidecar.
  exists (json_dump (DocumentSigner.signature_package signature_data m)),
         (DocumentSigner.signature_package signature_data m),
         (JStr (Py.hex signature_data)), (to_dict m).
  split; [exact Hfile|].
  split; [apply json_load_dump, signature_package_wf, Hwf|].
  split; [reflexivity|]. split; [reflexivity|].
  split; [unfold SignatureVerifier.bytes_fromhex; now rewrite fromhex_hex|].
  split; [reflexivity | apply from_dict_to_dict].
Qed.

End RoundTrip.

Section Locate.
Context `{L : Library}.

(** A request that names the document looks for [<document>.sig]. *)
Lemma locate_document (document : string) (t : DocumentType)
    (original key : option string) :
  DocumentSigner._detect_document_type document = Some t ->
  SignatureVerifier.locate
    {| signed_document_path := document;
       original_document_path := original;
       models.public_key_path := key |}
  = (DocumentSigner._get_signature_file_path document, document).
Proof.
  intros H. unfold SignatureVerifier.locate. cbn [signed_document_path].
  now rewrite (supported_not_sig _ _ H).
Qed.

(** A request that names the default sidecar finds the document. *)
Lemma locate_sidecar (document : string) (key : option string) :
  SignatureVerifier.locate
    {| signed_document_path := DocumentSigner._get_signature_file_path document;
       original_document_path := None;
       models.public_key_path := key |}
  = (DocumentSigner._get_signature_file_path document, document).
Proof.
  unfold SignatureVerifier.locate, DocumentSigner._get_signature_file_path.
  cbn [signed_document_path original_document_path Py.truthy].
  rewrite endswith_append.
  pose proof (drop_last_append document ".sig") as Hd. cbn [String.length] in Hd.
  now rewrite Hd.
Qed.

(** The path a request names is the sidecar or the document. *)
Lemma locate_signed (request : VerificationRequest) :
  signed_document_path request = fst (SignatureVerifier.locate request) \/
  signed_document_path request = snd (SignatureVerifier.locate request).
Proof.
  unfold SignatureVerifier.locate.
  destruct (Py.endswith (signed_document_path request) ".sig"); [left | right]; reflexivity.
Qed.

End Locate.

(** ** The instance meets the laws *)

Module RefFacts.

Import Ref.

Lemma json_ind_nested (P : json -> Prop) :
  P JNull -> (forall b, P (JBool b)) -> (forall n, P (JNum n)) -> (forall s, P (JStr s)) ->
  (forall l, Forall P l -> P (JList l)) ->
  (forall d, Forall (fun kv => P (snd kv)) d -> P (JDict d)) ->
  forall v, P v.
Proof.
  intros Hnull Hbool Hnum Hstr Hlist Hdict.
  fix IH 1. intros [| b | n | s | l | d].
  - exact Hnull.
  - apply Hbool.
  - apply Hnum.
  - apply Hstr.
  - apply Hlist.
    exact ((fix go (l : list json) : Forall P l :=
              match l with
              | [] => List.Forall_nil P
              | v :: r => @List.Forall_cons _ P v r (IH v) (go r)
              end) l).
  - apply Hdict.
    exact ((fix go (d : dict) : Forall (fun kv => P (snd kv)) d :=
              match d with
              | [] => List.Forall_nil _
              | kv :: r => @List.Forall_cons _ _ kv r (IH (snd kv)) (go r)
              end) d).
Qed.

Lemma dec_pos_enc (p : positive) (rest : list byte) :
  dec_pos (enc_pos p ++ rest) = Some (p, rest).
Proof. induction p as [p IH | p IH |]; cbn; rewrite ?IH; reflexivity. Qed.

Lemma dec_Z_enc (z : Z) (rest : list byte) : dec_Z (enc_Z z ++ rest) = Some (z, rest).
Proof. destruct z; cbn; rewrite ?dec_pos_enc; reflexivity. Qed.

Lemma dec_string_enc (s : string) (rest : list byte) :
  dec_string (enc_string s ++ rest) = Some (s, rest).
Proof.
  induction s as [|c s IH]; cbn; [reflexivity|].
  now rewrite IH, ascii_of_byte_of_ascii.
Qed.

Lemma frame_cons (e : list byte) (items : list (list byte)) :
  frame (e :: items) = (x01%byte :: e ++ frame items)%list.
Proof. unfold frame. cbn. now rewrite <- app_assoc. Qed.

Lemma frame_length_items (items : list (list byte)) : length items < length (frame items).
Proof.
  induction items as [|e items IH]; [cbn; lia|].
  rewrite frame_cons. cbn [length]. rewrite length_app. lia.
Qed.

Lemma frame_length_item (e : list byte) (items : list (list byte)) :
  In e items -> length e < length (frame items).
Proof.
  induction items as [|e' items IH]; [intros []|].
  rewrite frame_cons. cbn [length]. rewrite length_app.
  intros [-> | H]; [lia | specialize (IH H); lia].
Qed.

(** Framed items are read back one by one. *)
Lemma dec_seq_frame {A} (write : A -> list byte)
    (one : list byte -> option (A * list byte)) (l : list A) :
  (forall a, In a l -> forall rest, one (write a ++ rest) = Some (a, rest)) ->
  forall n rest, length l < n ->
    dec_seq one n (frame (map write l) ++ rest) = Some (l, rest).
Proof.
  induction l as [|a l IH]; intros Hone n rest Hn.
  - destruct n; [lia | reflexivity].
  - destruct n as [|n]; [cbn in Hn; lia|].
    cbn [map]. rewrite frame_cons. cbn [app dec_seq].
    rewrite <- app_assoc, (Hone a (or_introl eq_refl)).
    rewrite IH; [reflexivity | | cbn in Hn; lia].
    intros a' Ha'. apply Hone. now right.
Qed.

Lemma dec_enc (v : json) :
  forall fuel rest, length (enc v) <= fuel -> dec fuel (enc v ++ rest) = Some (v, rest).
Proof.
  induction v as [| b | n | s | l IH | d IH] using json_ind_nested;
    intros fuel rest Hfuel;
    (destruct fuel as [|fuel]; [try destruct b; cbn in Hfuel; lia|]).
  - reflexivity.
  - destruct b; reflexivity.
  - cbn. now rewrite dec_Z_enc.
  - cbn. now rewrite dec_string_enc.
  - cbn [enc app dec]. cbn [enc length] in Hfuel.
    rewrite (dec_seq_frame enc); [reflexivity | |].
    + intros a Ha rest'. rewrite List.Forall_forall in IH. apply (IH a Ha).
      pose proof (frame_length_item (enc a) (map enc l) (in_map enc l a Ha)). lia.
    + pose proof (frame_length_items (map enc l)). rewrite length_map in *. lia.
  - cbn [enc app dec]. cbn [enc length] in Hfuel.
    set (write := fun '(k, v) => (enc_string k ++ enc v)%list) in *.
    rewrite (dec_seq_frame write); [reflexivity | |].
    + intros [k v] Ha rest'. rewrite List.Forall_forall in IH.
      unfold dec_entry, write. rewrite <- app_assoc, dec_string_enc.
      rewrite (IH (k, v) Ha); [reflexivity|]. cbn [snd].
      pose proof (frame_length_item (write (k, v)) (map write d)
                    (in_map write d (k, v) Ha)) as Hlen.
      unfold write at 1 in Hlen. rewrite length_app in Hlen. lia.
    + pose proof (frame_length_items (map write d)). rewrite length_map in *. lia.
Qed.

Lemma json_load_dump (v : json) : Ref.json_load (Ref.json_dump v) = Some v.
Proof.
  unfold Ref.json_load, Ref.json_dump.
  rewrite <- (app_nil_r (enc v)) at 2.
  rewrite dec_enc; [reflexivity | lia].
Qed.

Lemma residues_checked (sk : private_key) : residues_ok sk = true.
Proof. destruct sk; vm_compute; reflexivity. Qed.

Lemma verify_sign_residue (sk : private_key) (x : N) :
  (x < key_modulus sk)%N ->
  verify_residue (private_key_public_key sk) (sign_residue sk x) x = true.
Proof.
  intros Hx. pose proof (residues_checked sk) as H.
  unfold residues_ok in H. rewrite forallb_forall in H. apply H.
  apply in_map_iff. exists (N.to_nat x). split; [apply N2Nat.id|].
  apply in_seq. lia.
Qed.

Lemma rsa_verify_sign (sk : private_key) (salt m : list byte) :
  Ref.rsa_verify (private_key_public_key sk) (Ref.rsa_sign sk salt m) m = true.
Proof.
  unfold Ref.rsa_verify, Ref.rsa_sign.
  apply verify_sign_residue. apply N.mod_lt. destruct sk; discriminate.
Qed.

#[export] Instance laws : LibraryLaws Ref.library.
Proof.
  constructor.
  - exact rsa_verify_sign.
  - intros v _. exact (json_load_dump v).
  - reflexivity.
Qed.

End RefFacts.

(** * The claims *)

Section RoundTripClaims.
Context `{L : Library} `{!LibraryLaws L}.

(** What holds after a signature succeeded, for any later verification of
    the same document through the sidecar that was written. *)
Lemma verify_after_sign (request : SignatureRequest) (signer : DocumentSigner.t)
    (w : World) (content : list byte) (doc_type : DocumentType) (sk : RSAPrivateKey) :
  files w !! document_path request = Some (File content) ->
  DocumentSigner._detect_document_type (document_path request) = Some doc_type ->
  KeyManager.private_key (DocumentSigner.key_manager signer) = Some sk ->
  values_wf (req_additional_info request) = true ->
  files w !! DocumentSigner.signature_file_path_of request <> Some Dir ->
  exists r1 s1 m1 signature,
    DocumentSigner.sign_document request (signer, w) = (Return r1, s1) /\
    success r1 = true /\ status r1 = Some VALID /\
    metadata r1 = Some m1 /\
    document_hash m1 = JStr (Py.hex (sha256 content)) /\
    signature = rsa_sign sk (entropy w (draws w)) (Py.encode (Py.hex (sha256 content))) /\
    forall (vrequest : VerificationRequest) (verifier : SignatureVerifier.t)
           (w2 : World) (content2 : list byte),
      SignatureVerifier.locate vrequest =
        (DocumentSigner.signature_file_path_of request, document_path request) ->
      DocumentSigner.signature_file_path_of request <> document_path request ->
      files w2 !! document_path request = Some (File content2) ->
      files w2 !! DocumentSigner.signature_file_path_of request =
        files (snd s1) !! DocumentSigner.signature_file_path_of request ->
      exists r2 s2,
        SignatureVerifier.verify_document vrequest (verifier, w2) = (Return r2, s2) /\
        verified vrequest (verifier, w2) content2 signature m1 r2 s2.
Proof.
  intros Hdoc Htype Hsk Hinfo Hdir.
  pose proof (sign_document_success request signer w content doc_type sk
                Hdoc Htype Hsk Hdir) as Hsign.
  cbv zeta in Hsign.
  do 4 eexists. split; [exact Hsign|].
  split; [reflexivity|]. split; [reflexivity|]. split; [reflexivity|].
  split; [reflexivity|]. split; [reflexivity|].
  intros vrequest verifier w2 content2 Hloc Hne Hdoc2 Hside.
  cbn [snd] in Hside. unfold signed_world in Hside. cbn [files] in Hside.
  rewrite lookup_insert_eq in Hside.
  apply verify_document_parsed.
  - cbn [snd]. destruct (locate_signed vrequest) as [-> | ->]; rewrite Hloc; cbn [fst snd].
    + rewrite Hside. eauto.
    + rewrite Hdoc2. eauto.
  - rewrite Hloc. exact Hdoc2.
  - apply saved_sidecar_parses.
    + apply new_metadata_wf, Hinfo.
    + rewrite Hloc. exact Hside.
Qed.

(** The same, starting from a signature that is known to have succeeded. *)
Lemma verify_after_success (request : SignatureRequest) (signer : DocumentSigner.t)
    (w : World) (r1 : SignatureResult) (s1 : DocumentSigner.t * World) :
  values_wf (req_additional_info request) = true ->
  DocumentSigner.sign_document request (signer, w) = (Return r1, s1) ->
  success r1 = true ->
  exists m1 content sk signature,
    metadata r1 = Some m1 /\
    files w !! document_path request = Some (File content) /\
    document_hash m1 = JStr (Py.hex (sha256 content)) /\
    KeyManager.private_key (DocumentSigner.key_manager signer) = Some sk /\
    signature = rsa_sign sk (entropy w (draws w)) (Py.encode (Py.hex (sha256 content))) /\
    forall (vrequest : VerificationRequest) (verifier : SignatureVerifier.t)
           (w2 : World) (content2 : list byte),
      SignatureVerifier.locate vrequest =
        (DocumentSigner.signature_file_path_of request, document_path request) ->
      DocumentSigner.signature_file_path_of request <> document_path request ->
      files w2 !! document_path request = Some (File content2) ->
      files w2 !! DocumentSigner.signature_file_path_of request =
        files (snd s1) !! DocumentSigner.signature_file_path_of request ->
      exists r2 s2,
        SignatureVerifier.verify_document vrequest (verifier, w2) = (Return r2, s2) /\
        verified vrequest (verifier, w2) content2 signature m1 r2 s2.
Proof.
  intros Hinfo Hsign Hok.
  destruct (sign_document_success_inv request signer w r1 s1 Hsign Hok)
    as (content & doc_type & sk & Hdoc & Htype & Hsk & Hdir).
  destruct (verify_after_sign request signer w content doc_type sk
              Hdoc Htype Hsk Hinfo Hdir)
    as (r1' & s1' & m1 & signature & Hsign' & _ & _ & Hm1 & Hhash & Hsig & Hverify).
  rewrite Hsign in Hsign'. apply run_eq_inv in Hsign' as [<- <-].
  exists m1, content, sk, signature. repeat (split; [assumption|]). exact Hverify.
Qed.

Lemma sidecar_is_not_document (document : string) :
  DocumentSigner._get_signature_file_path document <> document.
Proof.
  unfold DocumentSigner._get_signature_file_path. intros E.
  apply (f_equal (fun x => length (Py.chars x))) in E.
  rewrite chars_append, length_app in E. cbn [Py.chars list_ascii_of_string length] in E.
  lia.
Qed.

(** C1. For every document [D] and signer identity: when [sign_document]
    signed [D] ([success = True]) and [D] is then verified with its content
    unchanged, under the public key of the key that signed,
    [verify_document] returns [success = True] and [status = VALID], and
    the metadata of the result carry the document hash that was computed
    and recorded at sign time, the hex SHA-256 of the content. *)
Theorem C1_sign_then_verify_valid (D signer_name signer_email : string)
    (signer : DocumentSigner.t) (w : World)
    (r1 : SignatureResult) (s1 : DocumentSigner.t * World) :
  DocumentSigner.sign_document (plain_request D signer_name signer_email) (signer, w)
    = (Return r1, s1) ->
  success r1 = true ->
  exists m1 content,
    metadata r1 = Some m1 /\
    files w !! D = Some (File content) /\
    document_hash m1 = JStr (Py.hex (sha256 content)) /\
    forall (verifier : SignatureVerifier.t) (w2 : World) (key_path : option string),
      let vrequest :=
        {| signed_document_path := D;
           original_document_path := None;
           models.public_key_path := key_path |} in
      files w2 !! D = files w !! D ->
      files w2 !! DocumentSigner._get_signature_file_path D =
        files (snd s1) !! DocumentSigner._get_signature_file_path D ->
      resolved_key vrequest (verifier, w2) =
        option_map private_key_public_key
          (KeyManager.private_key (DocumentSigner.key_manager signer)) ->
      exists r2 s2 m2,
        SignatureVerifier.verify_document vrequest (verifier, w2) = (Return r2, s2) /\
        success r2 = true /\
        status r2 = Some VALID /\
        metadata r2 = Some m2 /\
        document_hash m2 = document_hash m1.
Proof.
  intros Hsign Hok.
  destruct (sign_document_success_inv _ _ _ _ _ Hsign Hok)
    as (_ & doc_type & _ & _ & Htype & _ & _).
  destruct (verify_after_success (plain_request D signer_name signer_email)
              signer w r1 s1 eq_refl Hsign Hok)
    as (m1 & content & sk & signature & Hm1 & Hdoc & Hhash & Hsk & Hsig & Hverify).
  exists m1, content. repeat (split; [assumption|]).
  intros verifier w2 key_path vrequest Hdoc2 Hside Hkey.
  cbn [document_path plain_request] in *.
  rewrite Hsk in Hkey. cbn [option_map] in Hkey. rewrite Hdoc in Hdoc2.
  destruct (Hverify vrequest verifier w2 content
              (locate_document D doc_type None key_path Htype)
              (sidecar_is_not_document D) Hdoc2 Hside)
    as (r2 & s2 & Hrun & Hst & Hsu & Hmd & _).
  exists r2, s2, m1. split; [exact Hrun|].
  rewrite Hkey in Hst, Hsu, Hmd.
  assert (Hv : verdict (Some (private_key_public_key sk)) content signature m1 = VALID).
  { unfold verdict. rewrite Hhash. unfold SignatureVerifier.hash_differs.
    rewrite String.eqb_refl. cbn [negb]. subst signature.
    now rewrite rsa_verify_sign. }
  rewrite Hv in Hst, Hsu.
  repeat split; auto.
Qed.

(** C2, as amended. When [sign_document] signed [D] and the content of
    [D] is then modified so that its SHA-256 differs from the recorded hash,
    [verify_document] returns [status = TAMPERED] provided a public key is
    resolved (the key named by the request, else the key the verifier
    holds); with no usable key it returns [KEY_MISMATCH]. In both cases
    [success = False], and the status is neither [VALID] nor [INVALID]. *)
Theorem C2_modified_document_is_tampered (D signer_name signer_email : string)
    (signer : DocumentSigner.t) (w : World)
    (r1 : SignatureResult) (s1 : DocumentSigner.t * World) :
  DocumentSigner.sign_document (plain_request D signer_name signer_email) (signer, w)
    = (Return r1, s1) ->
  success r1 = true ->
  exists content,
    files w !! D = Some (File content) /\
    forall (verifier : SignatureVerifier.t) (w2 : World) (key_path : option string)
           (content2 : list byte),
      let vrequest :=
        {| signed_document_path := D;
           original_document_path := None;
           models.public_key_path := key_path |} in
      files w2 !! D = Some (File content2) ->
      sha256 content2 <> sha256 content ->
      files w2 !! DocumentSigner._get_signature_file_path D =
        files (snd s1) !! DocumentSigner._get_signature_file_path D ->
      exists r2 s2,
        SignatureVerifier.verify_document vrequest (verifier, w2) = (Return r2, s2) /\
        success r2 = false /\
        status r2 = Some (match resolved_key vrequest (verifier, w2) with
                          | Some _ => TAMPERED
                          | None => KEY_MISMATCH
                          end) /\
        status r2 <> Some VALID /\
        status r2 <> Some INVALID.
Proof.
  intros Hsign Hok.
  destruct (sign_document_success_inv _ _ _ _ _ Hsign Hok)
    as (_ & doc_type & _ & _ & Htype & _ & _).
  destruct (verify_after_success (plain_request D signer_name signer_email)
              signer w r1 s1 eq_refl Hsign Hok)
    as (m1 & content & sk & signature & Hm1 & Hdoc & Hhash & Hsk & Hsig & Hverify).
  exists content. split; [exact Hdoc|].
  intros verifier w2 key_path content2 vrequest Hdoc2 Hdiff Hside.
  cbn [document_path plain_request] in *.
  destruct (Hverify vrequest verifier w2 content2
              (locate_document D doc_type None key_path Htype)
              (sidecar_is_not_document D) Hdoc2 Hside)
    as (r2 & s2 & Hrun & Hst & Hsu & _).
  exists r2, s2. split; [exact Hrun|].
  assert (Hv : verdict (resolved_key vrequest (verifier, w2)) content2 signature m1 =
               match resolved_key vrequest (verifier, w2) with
               | Some _ => TAMPERED
               | None => KEY_MISMATCH
               end).
  { unfold verdict. destruct (resolved_key vrequest (verifier, w2)); [|reflexivity].
    rewrite Hhash. unfold SignatureVerifier.hash_differs.
    destruct (String.eqb (Py.hex (sha256 content2)) (Py.hex (sha256 content))) eqn:E;
      [|reflexivity].
    apply String.eqb_eq, hex_inj in E. contradiction. }
  rewrite Hv in Hst, Hsu. rewrite Hst, Hsu.
  destruct (resolved_key vrequest (verifier, w2)); repeat split; congruence.
Qed.

End RoundTripClaims.

Lemma C1_witness :
  exists r1 s1 m1,
    DocumentSigner.sign_document Scenario.request (Scenario.signer, Scenario.world0)
      = (Return r1, s1) /\
    success r1 = true /\
    metadata r1 = Some m1 /\
    document_hash m1 =
      JStr "ba7816bf8f01cfea414140de5dae2223b00361a396177a9cb410ff61f20015ad" /\
    exists r2 s2 m2,
      SignatureVerifier.verify_document Scenario.vrequest (Scenario.verifier, snd s1)
        = (Return r2, s2) /\
      success r2 = true /\ status r2 = Some VALID /\
      metadata r2 = Some m2 /\ document_hash m2 = document_hash m1.
Proof.
  destruct (sign_document_shape (L := Ref.library) Scenario.request
              (Scenario.signer, Scenario.world0)) as (r1 & s1 & Hsign & _).
  assert (Hok : success r1 = true).
  { replace r1 with
      (returned (fst (DocumentSigner.sign_document Scenario.request
                        (Scenario.signer, Scenario.world0))) r1)
      by (rewrite Hsign; reflexivity).
    vm_compute. reflexivity. }
  destruct (@C1_sign_then_verify_valid Ref.library RefFacts.laws
              Scenario.document "Ada" "ada@example.com"
              Scenario.signer Scenario.world0 r1 s1 Hsign Hok)
    as (m1 & content & Hm & Hdoc & Hhash & Hverify).
  exists r1, s1, m1.
  split; [exact Hsign|]. split; [exact Hok|]. split; [exact Hm|].
  assert (Hc : content = Py.encode "abc").
  { assert (Hfile : files Scenario.world0 !! Scenario.document
                    = Some (File (Py.encode "abc"))) by (vm_compute; reflexivity).
    rewrite Hfile in Hdoc. now injection Hdoc as <-. }
  split; [rewrite Hhash, Hc; vm_compute; reflexivity|].
  apply (Hverify Scenario.verifier (snd s1) None).
  - pose proof (f_equal snd Hsign) as E. cbn [snd] in E.
    rewrite <- E. vm_compute. reflexivity.
  - reflexivity.
  - vm_compute. reflexivity.
Defined.

Lemma C2_witness :
  exists r1 s1 r2 s2,
    DocumentSigner.sign_document Scenario.request (Scenario.signer, Scenario.world0)
      = (Return r1, s1) /\
    SignatureVerifier.verify_document Scenario.vrequest
      (Scenario.verifier, Scenario.tampered) = (Return r2, s2) /\
    success r2 = false /\ status r2 = Some TAMPERED.
Proof.
  destruct (sign_document_shape (L := Ref.library) Scenario.request
              (Scenario.signer, Scenario.world0)) as (r1 & s1 & Hsign & _).
  assert (Hok : success r1 = true).
  { replace r1 with
      (returned (fst (DocumentSigner.sign_document Scenario.request
                        (Scenario.signer, Scenario.world0))) r1)
      by (rewrite Hsign; reflexivity).
    vm_compute. reflexivity. }
  destruct (@C2_modified_document_is_tampered Ref.library RefFacts.laws
              Scenario.document "Ada" "ada@example.com"
              Scenario.signer Scenario.world0 r1 s1 Hsign Hok)
    as (content & Hdoc & Hverify).
  assert (Hc : content = Py.encode "abc").
  { assert (Hfile : files Scenario.world0 !! Scenario.document
                    = Some (File (Py.encode "abc"))) by (vm_compute; reflexivity).
    rewrite Hfile in Hdoc. now injection Hdoc as <-. }
  destruct (Hverify Scenario.verifier Scenario.tampered None (Py.encode "abcx"))
    as (r2 & s2 & Hrun & Hfail & Hst & _).
  - vm_compute. reflexivity.
  - rewrite Hc. intros E. apply (f_equal Py.hex) in E. revert E.
    vm_compute. discriminate.
  - pose proof (f_equal snd Hsign) as E. cbn [snd] in E.
    rewrite <- E. vm_compute. reflexivity.
  - exists r1, s1, r2, s2.
    split; [exact Hsign|]. split; [exact Hrun|]. split; [exact Hfail|].
    rewrite Hst. vm_compute. reflexivity.
Defined.

(** C2 as stated fails: Ada signs [abc], [x] is appended, and a verifier
    built without a key is asked: the answer is [KEY_MISMATCH], not
    [TAMPERED], although the SHA-256 of the document differs from the
    recorded hash. *)
Lemma C2_counterexample :
  Py.hex (Ref.sha256 (Py.encode "abcx")) <> Scenario.signed_hash /\
  exists r s,
    SignatureVerifier.verify_document Scenario.vrequest
      (Scenario.keyless, Scenario.tampered) = (Return r, s) /\
    status r = Some KEY_MISMATCH /\
    status r <> Some TAMPERED.
Proof.
  split; [vm_compute; discriminate|].
  destruct (verify_document_shape (L := Ref.library) Scenario.vrequest
              (Scenario.keyless, Scenario.tampered)) as (r & s & Hrun & _).
  exists r, s. split; [exact Hrun|].
  assert (Hst : status r = Some KEY_MISMATCH).
  { rewrite (returned_run _ _ _ Hrun). vm_compute. reflexivity. }
  split; [exact Hst | rewrite Hst; discriminate].
Qed.


(** ** Key resolution and the hash check *)

Section KeepsSelf.
Context `{L : Library}.
Context {Self : Type}.











End KeepsSelf.


Section KeyResolution.
Context `{L : Library}.


(** C3, as amended. In [verify_document] key resolution precedes the hash
    check. For a request whose document and sidecar are located and whose
    sidecar parses: when no usable public key is resolved the result is
    [KEY_MISMATCH], whether or not the document hash matches, and the
    document is not hashed at all; when a key is resolved and the recomputed
    SHA-256 differs from the recorded hash, the result is [TAMPERED] and the
    cryptographic check is skipped. *)
Theorem C3_key_resolution_precedes_hash_check (request : VerificationRequest)
    (s : SignatureVerifier.t * World) (content signature_data : list byte)
    (metadata : SignatureMetadata) :
  is_Some (files (snd s) !! signed_document_path request) ->
  files (snd s) !! snd (SignatureVerifier.locate request) = Some (File content) ->
  parsed_sidecar request (snd s) signature_data metadata ->
  exists r s',
    SignatureVerifier.verify_document request s = (Return r, s') /\
    match resolved_key request s with
    | None =>
        status r = Some KEY_MISMATCH /\
        calls (snd s') = calls (snd s) ++ key_loading_calls request
    | Some _ =>
        SignatureVerifier.hash_differs (Py.hex (sha256 content)) (document_hash metadata)
          = true ->
        status r = Some TAMPERED /\
        calls (snd s') =
          calls (snd s) ++ key_loading_calls request ++
          [EvHash (snd (SignatureVerifier.locate request))]
    end.
Proof.
  intros Hsigned Hdoc Hparsed.
  destruct (verify_document_parsed request content signature_data metadata s
              Hsigned Hdoc Hparsed)
    as (r & s' & Hrun & Hst & _ & _ & _ & _ & Hcalls).
  exists r, s'. split; [exact Hrun|].
  unfold verification_calls, verdict in *.
  destruct (resolved_key request s) as [pk|].
  - intros Hdiff. rewrite Hdiff in Hst, Hcalls. split; assumption.
  - rewrite app_nil_r in Hcalls. split; assumption.
Qed.


End KeyResolution.

(** The sidecar Ada's signature wrote parses as what was signed, in the
    world after the signature and after the tampering alike. *)
Lemma scenario_sidecar_parses (request : VerificationRequest) (w : World) :
  fst (SignatureVerifier.locate request) = Scenario.sidecar ->
  files w !! Scenario.sidecar = files Scenario.world1 !! Scenario.sidecar ->
  parsed_sidecar request w Scenario.signed_signature Scenario.signed_metadata.
Proof.
  intros Hloc Hfile.
  apply (@saved_sidecar_parses Ref.library RefFacts.laws).
  - vm_compute. reflexivity.
  - rewrite Hloc, Hfile. vm_compute. reflexivity.
Qed.

Lemma C3_witness :
  exists r s',
    SignatureVerifier.verify_document Scenario.vrequest
      (Scenario.verifier, Scenario.tampered) = (Return r, s') /\
    status r = Some TAMPERED /\
    calls (snd s') = calls Scenario.tampered ++ [EvHash Scenario.document].
Proof.
  destruct (C3_key_resolution_precedes_hash_check (L := Ref.library)
              Scenario.vrequest (Scenario.verifier, Scenario.tampered)
              (Py.encode "abcx") Scenario.signed_signature Scenario.signed_metadata)
    as (r & s' & Hrun & Hcase).
  - apply (mk_is_Some _ (File (Py.encode "abcx"))). vm_compute. reflexivity.
  - vm_compute. reflexivity.
  - apply scenario_sidecar_parses; vm_compute; reflexivity.
  - exists r, s'. split; [exact Hrun|].
    assert (Hkey : resolved_key Scenario.vrequest (Scenario.verifier, Scenario.tampered)
                   = Some Scenario.key_a) by (vm_compute; reflexivity).
    rewrite Hkey in Hcase. apply Hcase. vm_compute. reflexivity.
Defined.

(** C3 as stated fails: the request names a key file that does not exist,
    the document was tampered with, and the verifier answers [KEY_MISMATCH]
    without hashing the document, although the recomputed SHA-256 differs
    from the recorded hash. *)
Lemma C3_counterexample :
  parsed_sidecar Scenario.vrequest_missing_key Scenario.tampered
    Scenario.signed_signature Scenario.signed_metadata /\
  document_hash Scenario.signed_metadata = JStr Scenario.signed_hash /\
  files Scenario.tampered !! Scenario.document = Some (File (Py.encode "abcx")) /\
  Py.hex (Ref.sha256 (Py.encode "abcx")) <> Scenario.signed_hash /\
  exists r s,
    SignatureVerifier.verify_document Scenario.vrequest_missing_key
      (Scenario.verifier, Scenario.tampered) = (Return r, s) /\
    status r = Some KEY_MISMATCH /\
    status r <> Some TAMPERED /\
    calls (snd s) = calls Scenario.tampered ++ [EvLoadPublicKey "keys/missing.pem"].
Proof.
  split; [apply scenario_sidecar_parses; vm_compute; reflexivity|].
  split; [reflexivity|].
  split; [vm_compute; reflexivity|].
  split; [vm_compute; discriminate|].
  destruct (verify_document_shape (L := Ref.library) Scenario.vrequest_missing_key
              (Scenario.verifier, Scenario.tampered)) as (r & s & Hrun & _).
  exists r, s. split; [exact Hrun|].
  assert (Hst : status r = Some KEY_MISMATCH).
  { rewrite (returned_run _ _ _ Hrun). vm_compute. reflexivity. }
  split; [exact Hst|]. split; [rewrite Hst; discriminate|].
  replace s with (snd (SignatureVerifier.verify_document Scenario.vrequest_missing_key
                         (Scenario.verifier, Scenario.tampered)))
    by (rewrite Hrun; reflexivity).
  vm_compute. reflexivity.
Qed.



(** ** Fingerprints *)

Section Fingerprint.
Context `{L : Library}.

(** C4, as amended. [get_public_key_fingerprint] returns [None] when no
    public key is held, and otherwise the hex SHA-256 digest of the PEM text
    of the SubjectPublicKeyInfo of the key, not of its DER bytes; it changes
    nothing, and the same public key gives the same fingerprint in whatever
    key manager and world. *)
Theorem C4_fingerprint_is_digest_of_pem (k k' : KeyManager.t) (w w' : World)
    (pk : RSAPublicKey) (size : Z) (sk : option RSAPrivateKey) :
  let no_key :=
    {| KeyManager.key_size := size;
       KeyManager.private_key := sk;
       KeyManager.public_key := None |} in
  KeyManager.get_public_key_fingerprint (no_key, w) = (Return None, (no_key, w)) /\
  KeyManager.get_public_key_fingerprint (KeyManager.set_public_key pk k, w)
    = (Return (Some (Py.hex (sha256 (public_bytes PEM pk)))),
       (KeyManager.set_public_key pk k, w)) /\
  fst (KeyManager.get_public_key_fingerprint (KeyManager.set_public_key pk k, w))
    = fst (KeyManager.get_public_key_fingerprint (KeyManager.set_public_key pk k', w')).
Proof.
  cbv zeta. rewrite !get_public_key_fingerprint_run. unfold fingerprint_of.
  repeat split; reflexivity.
Qed.

End Fingerprint.

(** C4 as stated fails: for the 2048-bit key the fingerprint is the digest
    of the PEM text; the digest of the DER bytes is another string. *)
Lemma C4_counterexample :
  fst (KeyManager.get_public_key_fingerprint
         (Scenario.key_manager_2048, Scenario.world0))
    = Return (Some "09557c135e98a7ec03d9836f8cf6ae49edc27f3960800f2988faf1379f7b9015") /\
  Py.hex (Ref.sha256 (Ref.public_bytes DER Scenario.rsa2048))
    = "f30c1089f7b6b14d2df9ed4db7b198a4539edc84495ec83fe443947105813d76" /\
  fst (KeyManager.get_public_key_fingerprint
         (Scenario.key_manager_2048, Scenario.world0))
    <> Return (Some (Py.hex (Ref.sha256 (Ref.public_bytes DER Scenario.rsa2048)))).
Proof.
  assert (Hpem : fst (KeyManager.get_public_key_fingerprint
                        (Scenario.key_manager_2048, Scenario.world0))
                 = Return (Some "09557c135e98a7ec03d9836f8cf6ae49edc27f3960800f2988faf1379f7b9015"))
    by (vm_compute; reflexivity).
  assert (Hder : Py.hex (Ref.sha256 (Ref.public_bytes DER Scenario.rsa2048))
                 = "f30c1089f7b6b14d2df9ed4db7b198a4539edc84495ec83fe443947105813d76")
    by (vm_compute; reflexivity).
  split; [exact Hpem|]. split; [exact Hder|].
  rewrite Hpem, Hder. discriminate.
Qed.

(** ** Results of every call *)

Section Results.
Context `{L : Library}.

Lemma sign_shape_structured (r : SignatureResult) : sign_shape r -> structured r.
Proof.
  intros [(Hok & _) | (_ & _ & Herr & Hmsg)] Hfail; [congruence | auto].
Qed.

Lemma verify_shape_structured (r : SignatureResult) : verify_shape r -> structured r.
Proof.
  intros [(Hok & _) | (_ & Herr & Hmsg & _)] Hfail; [congruence | auto].
Qed.

(** C5. Whatever the request, the objects and the world, [sign_document]
    and [verify_document] return a result and never raise; a result with
    [success = False] carries a message and an error detail. *)
Theorem C5_results_are_structured (request : SignatureRequest)
    (vrequest : VerificationRequest)
    (s : DocumentSigner.t * World) (sv : SignatureVerifier.t * World) :
  (exists r s', DocumentSigner.sign_document request s = (Return r, s') /\ structured r) /\
  (exists r s', SignatureVerifier.verify_document vrequest sv = (Return r, s') /\
                structured r).
Proof.
  split.
  - destruct (sign_document_shape request s) as (r & s' & E & H).
    exists r, s'. split; [exact E | exact (sign_shape_structured r H)].
  - destruct (verify_document_shape vrequest sv) as (r & s' & E & H).
    exists r, s'. split; [exact E | exact (verify_shape_structured r H)].
Qed.

(** C8, as amended. Every result of [verify_document] carries one of the
    statuses [VALID], [INVALID], [TAMPERED], [KEY_MISMATCH]. A result of
    [sign_document] carries [VALID] when it reports success and no status
    at all ([None]) when it reports a failure. *)
Theorem C8_status_of_results (request : SignatureRequest)
    (vrequest : VerificationRequest)
    (s : DocumentSigner.t * World) (sv : SignatureVerifier.t * World) :
  (exists r s', SignatureVerifier.verify_document vrequest sv = (Return r, s') /\
                (status r = Some VALID \/ status r = Some INVALID \/
                 status r = Some TAMPERED \/ status r = Some KEY_MISMATCH)) /\
  (exists r s', DocumentSigner.sign_document request s = (Return r, s') /\
                status r = if success r then Some VALID else None).
Proof.
  split.
  - destruct (verify_document_shape vrequest sv) as (r & s' & E & H).
    exists r, s'. split; [exact E|].
    destruct H as [(_ & H & _) | (_ & _ & _ & H)]; tauto.
  - destruct (sign_document_shape request s) as (r & s' & E & H).
    exists r, s'. split; [exact E|].
    destruct H as [(Hok & H & _) | (Hfail & H & _)]; [rewrite Hok | rewrite Hfail]; exact H.
Qed.

Lemma sign_shape_not_expired (r : SignatureResult) : sign_shape r -> not_expired r.
Proof. intros [(_ & H & _) | (_ & H & _)]; unfold not_expired; congruence. Qed.

Lemma verify_shape_not_expired (r : SignatureResult) : verify_shape r -> not_expired r.
Proof.
  intros [(_ & H & _) | (_ & _ & _ & [H | [H | H]])]; unfold not_expired; congruence.
Qed.

(** The loop of [verify_batch] returns, and its results keep any property
    that every result of [verify_document] has. *)
Lemma verify_loop_returns (P : SignatureResult -> Prop) (paths : list string)
    (acc : list SignatureResult) :
  (forall request, returns (SignatureVerifier.verify_document request) P) ->
  Forall P acc ->
  returns (SignatureVerifier.verify_loop paths acc)
          (fun results => Forall P results /\ length results = length acc + length paths).
Proof.
  intros HP. revert acc. induction paths as [|doc_path rest IH]; intros acc Hacc.
  - apply returns_ret. split; [exact Hacc | cbn; lia].
  - cbn [SignatureVerifier.verify_loop].
    eapply returns_bind; [apply HP|]. intros r Hr. cbn beta.
    eapply returns_weaken.
    + apply IH. apply Forall_app. split; [exact Hacc | now constructor].
    + intros results [H1 H2]. split; [exact H1|].
      rewrite H2, length_app. cbn. lia.
Qed.

(** C9. No operation produces [EXPIRED]: every result of [sign_document],
    [sign_batch], [verify_document] and [verify_batch] has another status,
    or none. *)
Theorem C9_no_result_is_expired (request : SignatureRequest)
    (vrequest : VerificationRequest) (paths vpaths : list string)
    (signer_name signer_email : string)
    (s : DocumentSigner.t * World) (sv : SignatureVerifier.t * World) :
  (exists r s', DocumentSigner.sign_document request s = (Return r, s') /\
                not_expired r) /\
  (exists results s',
     DocumentSigner.sign_batch paths signer_name signer_email s = (Return results, s') /\
     Forall not_expired results) /\
  (exists r s', SignatureVerifier.verify_document vrequest sv = (Return r, s') /\
                not_expired r) /\
  (exists results s',
     SignatureVerifier.verify_batch vpaths sv = (Return results, s') /\
     Forall not_expired results).
Proof.
  assert (Hsign : forall request, returns (DocumentSigner.sign_document request) not_expired).
  { intros q. eapply returns_weaken; [apply sign_document_shape|].
    apply sign_shape_not_expired. }
  assert (Hverify : forall request,
             returns (SignatureVerifier.verify_document request) not_expired).
  { intros q. eapply returns_weaken; [apply verify_document_shape|].
    apply verify_shape_not_expired. }
  split; [apply Hsign|]. split; [|split; [apply Hverify|]].
  - destruct (sign_loop_run paths signer_name signer_email [] s)
      as (results & s' & E & Hrun).
    exists results, s'. split; [exact E|].
    exact (batch_run_shape _ _ _ _ _ _ not_expired Hsign Hrun).
  - destruct (verify_loop_returns not_expired vpaths [] Hverify (Forall_nil_2 _) sv)
      as (results & s' & E & H & _).
    exists results, s'. split; [exact E | exact H].
Qed.



End Results.



(** C8 as stated fails: signing a document that does not exist returns a
    result whose status is [None], outside the set of statuses. *)
Lemma C8_counterexample :
  exists r s,
    DocumentSigner.sign_document Scenario.request_missing
      (Scenario.signer, Scenario.world0) = (Return r, s) /\
    success r = false /\
    status r = None.
Proof.
  destruct (sign_document_shape (L := Ref.library) Scenario.request_missing
              (Scenario.signer, Scenario.world0)) as (r & s & Hrun & _).
  exists r, s. split; [exact Hrun|].
  split; rewrite (returned_run _ _ _ Hrun); vm_compute; reflexivity.
Qed.

(** ** The scenarios of the specification, run *)

(** SHA-256 of [abc] and of the empty message (FIPS 180-4 test vectors). *)
Example sha256_abc :
  Py.hex (Ref.sha256 (Py.encode "abc"))
  = "ba7816bf8f01cfea414140de5dae2223b00361a396177a9cb410ff61f20015ad".
Proof. vm_compute. reflexivity. Qed.

Example sha256_empty :
  Py.hex (Ref.sha256 [])
  = "e3b0c44298fc1c149afbf4c8996fb92427ae41e4649b934ca495991b7852b855".
Proof. vm_compute. reflexivity. Qed.

(** The PEM text of a key parses back to the key. *)
Example pem_of_rsa2048_parses :
  Ref.load_pem_public_key (Ref.public_bytes PEM Scenario.rsa2048) = Some Scenario.rsa2048.
Proof. vm_compute. reflexivity. Qed.

(** Batch independence: of three paths the second does not exist; the first
    and the third are signed, the second fails, in that order. *)
Example sign_batch_of_three :
  exists results s',
    DocumentSigner.sign_batch [Scenario.document; "missing.txt"; "report.pdf"]
      "Ada" "ada@example.com" (Scenario.signer, Scenario.world0) = (Return results, s') /\
    map success results = [true; false; true] /\
    map status results = [Some VALID; None; Some VALID] /\
    map message results =
      ["Documento firmado exitosamente"; "Documento no encontrado";
       "Documento firmado exitosamente"].
Proof.
  destruct (sign_loop_run (L := Ref.library)
              [Scenario.document; "missing.txt"; "report.pdf"]
              "Ada" "ada@example.com" [] (Scenario.signer, Scenario.world0))
    as (results & s' & Hrun & _).
  cbn [app] in Hrun. exists results, s'. split; [exact Hrun|].
  assert (E : results =
              returned (fst (DocumentSigner.sign_batch
                               [Scenario.document; "missing.txt"; "report.pdf"]
                               "Ada" "ada@example.com"
                               (Scenario.signer, Scenario.world0))) results).
  { unfold DocumentSigner.sign_batch. rewrite Hrun. reflexivity. }
  repeat split; rewrite E; vm_compute; reflexivity.
Qed.

(** Key isolation: the genuine document checked under the key of another
    pair is [INVALID], not [TAMPERED]. *)
Example other_key_is_invalid :
  exists r s,
    SignatureVerifier.verify_document Scenario.vrequest_other_key
      (Scenario.keyless, Scenario.world1) = (Return r, s) /\
    status r = Some INVALID.
Proof.
  destruct (verify_document_shape (L := Ref.library) Scenario.vrequest_other_key
              (Scenario.keyless, Scenario.world1)) as (r & s & Hrun & _).
  exists r, s. split; [exact Hrun|].
  rewrite (returned_run _ _ _ Hrun). vm_compute. reflexivity.
Qed.


(** * Further properties of the code *)

(** ** Methods that only read *)

Section ReadsOnly.
Context `{L : Library}.
Context {Self : Type}.

Lemma reads_ret {A} (a : A) : reads_only (ret (Self := Self) a).
Proof. intros s. auto. Qed.

Lemma reads_raise {A} (e : exn) : reads_only (raise (Self := Self) (A := A) e).
Proof. intros s. auto. Qed.

Lemma reads_lift {A} (o : outcome A) : reads_only (lift (Self := Self) o).
Proof. intros s. auto. Qed.

Lemma reads_bind {A B} (m : M Self A) (k : A -> M Self B) :
  reads_only m -> (forall a, reads_only (k a)) -> reads_only (bind m k).
Proof.
  intros Hm Hk s. unfold bind. specialize (Hm s).
  destruct (m s) as [[a|e] s1]; cbn [fst snd] in *; [|exact Hm].
  destruct (Hk a s1) as (Hf & Ht & Hd). destruct Hm as (Hf' & Ht' & Hd').
  repeat split; congruence.
Qed.

Lemma reads_try_except {A} (body : M Self A) (handler : exn -> M Self A) :
  reads_only body -> (forall e, reads_only (handler e)) ->
  reads_only (try_except body handler).
Proof.
  intros Hb Hh s. unfold try_except. specialize (Hb s).
  destruct (body s) as [[a|e] s1]; cbn [fst snd] in *; [exact Hb|].
  destruct (Hh e s1) as (Hf & Ht & Hd). destruct Hb as (Hf' & Ht' & Hd').
  repeat split; congruence.
Qed.

Lemma reads_os_path_exists (path : string) : reads_only (os_path_exists (Self := Self) path).
Proof. intros s. auto. Qed.

Lemma reads_read_file (path : string) : reads_only (read_file (Self := Self) path).
Proof. intros s. unfold read_file. destruct (files (snd s) !! path) as [[?|]|]; auto. Qed.

Lemma reads_record_call (e : event) : reads_only (record_call (Self := Self) e).
Proof. intros s. auto. Qed.

Lemma reads_get_self : reads_only (get_self (Self := Self)).
Proof. intros s. auto. Qed.

Lemma reads_put_self (x : Self) : reads_only (put_self x).
Proof. intros s. auto. Qed.

Lemma reads_on {C A} (get : Self -> C) (set : C -> Self -> Self) (m : M C A) :
  reads_only m -> reads_only (on get set m).
Proof.
  intros Hm s. unfold on. specialize (Hm (get (fst s), snd s)).
  destruct (m (get (fst s), snd s)) as [r [c' w']]. exact Hm.
Qed.

End ReadsOnly.

Ltac reads_step :=
  lazymatch goal with
  | |- reads_only (ret _) => apply reads_ret
  | |- reads_only (raise _) => apply reads_raise
  | |- reads_only (lift _) => apply reads_lift
  | |- reads_only get_self => apply reads_get_self
  | |- reads_only (put_self _) => apply reads_put_self
  | |- reads_only (os_path_exists _) => apply reads_os_path_exists
  | |- reads_only (read_file _) => apply reads_read_file
  | |- reads_only (record_call _) => apply reads_record_call
  | |- reads_only (on _ _ _) => apply reads_on
  | |- reads_only (bind _ _) => apply reads_bind; [|intros ?]
  | |- reads_only (try_except _ _) => apply reads_try_except; [|intros ?]
  | |- reads_only (if ?b then _ else _) => destruct b
  | |- reads_only (match ?x with _ => _ end) => destruct x
  end.

Section ReadsOnlyMethods.
Context `{L : Library}.

Lemma reads_load_public_key (path : string) :
  reads_only (KeyManager.load_public_key path).
Proof. unfold KeyManager.load_public_key. repeat reads_step. Qed.

Lemma reads_load_private_key (path : string) (password : option (list byte)) :
  reads_only (KeyManager.load_private_key path password).
Proof. unfold KeyManager.load_private_key. repeat reads_step. Qed.

Lemma reads_verify_document (request : VerificationRequest) :
  reads_only (SignatureVerifier.verify_document request).
Proof.
  unfold SignatureVerifier.verify_document, SignatureVerifier.resolve_key_and_check,
    SignatureVerifier._load_signature_file, SignatureVerifier.check_hash_and_signature,
    SignatureVerifier._calculate_document_hash, SignatureVerifier._verify_signature,
    SignatureVerifier.on_key_manager, calculate_document_hash.
  repeat first [ apply reads_load_public_key | reads_step ].
Qed.

End ReadsOnlyMethods.

(** ** Methods that see only the files *)

Section SeesFilesOnly.
Context `{L : Library}.
Context {Self : Type}.

Lemma sees_ret {A} (a : A) : sees_files_only (ret (Self := Self) a).
Proof. intros self w w' H. auto. Qed.

Lemma sees_raise {A} (e : exn) : sees_files_only (raise (Self := Self) (A := A) e).
Proof. intros self w w' H. auto. Qed.

Lemma sees_lift {A} (o : outcome A) : sees_files_only (lift (Self := Self) o).
Proof. intros self w w' H. auto. Qed.

Lemma sees_get_self : sees_files_only (get_self (Self := Self)).
Proof. intros self w w' H. auto. Qed.

Lemma sees_put_self (x : Self) : sees_files_only (put_self x).
Proof. intros self w w' H. auto. Qed.

Lemma sees_os_path_exists (path : string) :
  sees_files_only (os_path_exists (Self := Self) path).
Proof. intros self w w' H. unfold os_path_exists. cbn [fst snd]. rewrite H. auto. Qed.

Lemma sees_read_file (path : string) : sees_files_only (read_file (Self := Self) path).
Proof.
  intros self w w' H. unfold read_file. cbn [fst snd]. rewrite H.
  destruct (files w' !! path) as [[?|]|]; auto.
Qed.

Lemma sees_record_call (e : event) : sees_files_only (record_call (Self := Self) e).
Proof. intros self w w' H. auto. Qed.

Lemma sees_bind {A B} (m : M Self A) (k : A -> M Self B) :
  sees_files_only m -> (forall a, sees_files_only (k a)) -> sees_files_only (bind m k).
Proof.
  intros Hm Hk self w w' H. unfold bind. specialize (Hm self w w' H).
  destruct (m (self, w)) as [r1 [self1 w1]], (m (self, w')) as [r2 [self2 w2]].
  cbn [fst snd] in Hm. destruct Hm as (<- & <- & Hf).
  destruct r1 as [a|e]; [exact (Hk a self1 w1 w2 Hf) | auto].
Qed.

Lemma sees_try_except {A} (body : M Self A) (handler : exn -> M Self A) :
  sees_files_only body -> (forall e, sees_files_only (handler e)) ->
  sees_files_only (try_except body handler).
Proof.
  intros Hb Hh self w w' H. unfold try_except. specialize (Hb self w w' H).
  destruct (body (self, w)) as [r1 [self1 w1]], (body (self, w')) as [r2 [self2 w2]].
  cbn [fst snd] in Hb. destruct Hb as (<- & <- & Hf).
  destruct r1 as [a|e]; [auto | exact (Hh e self1 w1 w2 Hf)].
Qed.

Lemma sees_on {C A} (get : Self -> C) (set : C -> Self -> Self) (m : M C A) :
  sees_files_only m -> sees_files_only (on get set m).
Proof.
  intros Hm self w w' H. unfold on. cbn [fst snd]. specialize (Hm (get self) w w' H).
  destruct (m (get self, w)) as [r1 [c1 w1]], (m (get self, w')) as [r2 [c2 w2]].
  cbn [fst snd] in *. destruct Hm as (<- & <- & Hf). auto.
Qed.

End SeesFilesOnly.

Ltac sees_step :=
  lazymatch goal with
  | |- sees_files_only (ret _) => apply sees_ret
  | |- sees_files_only (raise _) => apply sees_raise
  | |- sees_files_only (lift _) => apply sees_lift
  | |- sees_files_only get_self => apply sees_get_self
  | |- sees_files_only (put_self _) => apply sees_put_self
  | |- sees_files_only (os_path_exists _) => apply sees_os_path_exists
  | |- sees_files_only (read_file _) => apply sees_read_file
  | |- sees_files_only (record_call _) => apply sees_record_call
  | |- sees_files_only (on _ _ _) => apply sees_on
  | |- sees_files_only (bind _ _) => apply sees_bind; [|intros ?]
  | |- sees_files_only (try_except _ _) => apply sees_try_except; [|intros ?]
  | |- sees_files_only (if ?b then _ else _) => destruct b
  | |- sees_files_only (match ?x with _ => _ end) => destruct x
  end.

Section VerifierSeesFiles.
Context `{L : Library}.

Lemma sees_verify_document (request : VerificationRequest) :
  sees_files_only (SignatureVerifier.verify_document request).
Proof.
  unfold SignatureVerifier.verify_document, SignatureVerifier.resolve_key_and_check,
    SignatureVerifier._load_signature_file, SignatureVerifier.check_hash_and_signature,
    SignatureVerifier._calculate_document_hash, SignatureVerifier._verify_signature,
    SignatureVerifier.on_key_manager, calculate_document_hash,
    KeyManager.load_public_key.
  repeat sees_step.
Qed.



(** X2. [verify_document] writes nothing: whatever the request, the
    verifier and the world, every file is afterwards as it was, and neither
    the clock nor the entropy was used; and its result depends on the world
    through the files only. *)
Theorem verify_document_only_reads (request : VerificationRequest)
    (verifier : SignatureVerifier.t) (w w' : World) :
  let run := SignatureVerifier.verify_document request (verifier, w) in
  (files (snd (snd run)) = files w /\
   ticks (snd (snd run)) = ticks w /\
   draws (snd (snd run)) = draws w) /\
  (files w' = files w ->
   fst (SignatureVerifier.verify_document request (verifier, w')) = fst run).
Proof.
  cbv zeta. split.
  - exact (reads_verify_document request (verifier, w)).
  - intros H. exact (proj1 (sees_verify_document request verifier w' w H)).
Qed.

End VerifierSeesFiles.

(** ** Hashing and signing *)

Section SigningFrame.
Context `{L : Library}.

(** X3. The hash of a document is the hex SHA-256 of its whole content,
    whatever its length: the loop that reads 8192 bytes at a time feeds the
    hash every byte, in order. Signer and verifier compute the same value,
    and neither changes the object or a file. *)
Theorem document_hash_is_digest_of_whole_file (path : string) (content : list byte)
    (signer : DocumentSigner.t) (verifier : SignatureVerifier.t) (w : World) :
  files w !! path = Some (File content) ->
  (forall fuel, length content < fuel -> read_chunks fuel content [] = content) /\
  DocumentSigner._calculate_document_hash path (signer, w) =
    (Return (Py.hex (sha256 content)),
     (signer, set_calls (calls w ++ [EvHash path]) w)) /\
  SignatureVerifier._calculate_document_hash path (verifier, w) =
    (Return (Py.hex (sha256 content)),
     (verifier, set_calls (calls w ++ [EvHash path]) w)).
Proof.
  intros H. split; [intros fuel Hfuel; exact (read_chunks_all fuel content [] Hfuel)|].
  split.
  - unfold DocumentSigner._calculate_document_hash.
    apply calculate_document_hash_file, H.
  - unfold SignatureVerifier._calculate_document_hash.
    apply calculate_document_hash_file, H.
Qed.

(** A call that reports a success ran the whole method: result and world
    are those of [sign_document_success]. *)
Lemma sign_document_succeeded (request : SignatureRequest) (signer : DocumentSigner.t)
    (w : World) (r : SignatureResult) (s' : DocumentSigner.t * World) :
  DocumentSigner.sign_document request (signer, w) = (Return r, s') ->
  success r = true ->
  exists content doc_type sk,
    files w !! document_path request = Some (File content) /\
    DocumentSigner._detect_document_type (document_path request) = Some doc_type /\
    KeyManager.private_key (DocumentSigner.key_manager signer) = Some sk /\
    let document_hash := Py.hex (sha256 content) in
    let metadata :=
      DocumentSigner.new_metadata request doc_type document_hash (clock w (ticks w))
        (fingerprint_of (DocumentSigner.key_manager signer)) in
    let signature := rsa_sign sk (entropy w (draws w)) (Py.encode document_hash) in
    let path := DocumentSigner.signature_file_path_of request in
    r = {| success := true;
           message := "Documento firmado exitosamente";
           status := Some VALID;
           metadata := Some metadata;
           signature_data := Some signature;
           signed_file_path := Some path;
           error := None |} /\
    s' = (signer, signed_world w (document_path request) document_hash path
                    (json_dump (DocumentSigner.signature_package signature metadata))).
Proof.
  intros E Hok.
  destruct (sign_document_success_inv request signer w r _ E Hok)
    as (content & doc_type & sk & Hdoc & Htype & Hsk & Hdir).
  pose proof (sign_document_success request signer w content doc_type sk
                Hdoc Htype Hsk Hdir) as E'.
  cbv zeta in E'. rewrite E' in E. apply run_eq_inv in E as [<- <-].
  exists content, doc_type, sk. cbv zeta. repeat split; assumption.
Qed.


(** X5. Nothing protects the document from the output of its own
    signature: when the output path of the request is the path of the
    document, a call that succeeds replaces the content of the document by
    the signature package, whose recorded hash is that of the content that
    was there before. *)
Theorem sign_document_output_path_can_replace_the_document (request : SignatureRequest)
    (signer : DocumentSigner.t) (w : World) (r : SignatureResult)
    (s' : DocumentSigner.t * World) :
  output_path request = Some (document_path request) ->
  DocumentSigner.sign_document request (signer, w) = (Return r, s') ->
  success r = true ->
  exists content signature metadata,
    files w !! document_path request = Some (File content) /\
    signature_data r = Some signature /\ models.metadata r = Some metadata /\
    document_hash metadata = JStr (Py.hex (sha256 content)) /\
    files (snd s') !! document_path request =
      Some (File (json_dump (DocumentSigner.signature_package signature metadata))) /\
    files (snd s') !! DocumentSigner._get_signature_file_path (document_path request) =
      files w !! DocumentSigner._get_signature_file_path (document_path request).
Proof.
  intros Hout E Hok.
  destruct (sign_document_success_inv request signer w r _ E Hok)
    as (content & doc_type & sk & Hdoc & Htype & Hsk & Hdir).
  pose proof (sign_document_success request signer w content doc_type sk
                Hdoc Htype Hsk Hdir) as E'.
  cbv zeta in E'. rewrite E' in E. apply run_eq_inv in E as [<- <-].
  assert (Hpath : DocumentSigner.signature_file_path_of request = document_path request).
  { unfold DocumentSigner.signature_file_path_of. rewrite Hout.
    destruct (Py.truthy (Some (document_path request))) eqn:Ht; [reflexivity|].
    cbn [Py.truthy] in Ht. apply negb_false_iff, String.eqb_eq in Ht.
    assert (Hnone : DocumentSigner._detect_document_type (document_path request) = None)
      by (rewrite Ht; reflexivity).
    congruence. }
  exists content. do 2 eexists.
  cbn [signature_data models.metadata snd signed_world files].
  split; [exact Hdoc|]. split; [reflexivity|]. split; [reflexivity|].
  split; [reflexivity|]. rewrite Hpath. split.
  - now rewrite lookup_insert_eq.
  - rewrite lookup_insert_ne; [reflexivity|].
    intros Heq. symmetry in Heq. exact (sidecar_is_not_document _ Heq).
Qed.

End SigningFrame.

(** ** Loading keys and building a verifier *)

Section Loading.
Context `{L : Library}.

(** X6. Loading a key never raises and never touches the world beyond
    reading the file. [load_private_key] returns the key the file holds
    under the password and from then on holds it together with its public
    key; [load_public_key] returns the key the file holds and replaces the
    public key only, whatever private key is held. A load that fails
    (no file, a directory, text that does not parse) returns [None] and
    leaves both keys as they were. *)
Theorem loading_a_key_replaces_or_keeps (path : string) (password : option (list byte))
    (k : KeyManager.t) (w : World) :
  KeyManager.load_private_key path password (k, w) =
    (Return (private_key_at w path password),
     (match private_key_at w path password with
      | Some sk => {| KeyManager.key_size := KeyManager.key_size k;
                      KeyManager.private_key := Some sk;
                      KeyManager.public_key := Some (private_key_public_key sk) |}
      | None => k
      end, w)) /\
  fst (KeyManager.load_public_key path (k, w)) = Return (key_at w path) /\
  fst (snd (KeyManager.load_public_key path (k, w))) =
    match key_at w path with
    | Some pk => {| KeyManager.key_size := KeyManager.key_size k;
                    KeyManager.private_key := KeyManager.private_key k;
                    KeyManager.public_key := Some pk |}
    | None => k
    end /\
  files (snd (snd (KeyManager.load_public_key path (k, w)))) = files w.
Proof.
  split.
  - unfold KeyManager.load_private_key, private_key_at. unfold_monad. simpl_state.
    destruct (files w !! path) as [[data|]|] eqn:E.
    + rewrite bool_decide_eq_true_2 by eauto. simpl_state. rewrite E.
      destruct (load_pem_private_key data password); reflexivity.
    + rewrite bool_decide_eq_true_2 by eauto. simpl_state. rewrite E. reflexivity.
    + rewrite bool_decide_eq_false_2 by (now intros [? ?]). reflexivity.
  - rewrite load_public_key_run. cbn [fst snd files set_calls].
    split; [reflexivity|]. split; [|reflexivity].
    destruct (key_at w path); reflexivity.
Qed.

Lemma verifier_init_run (path : option string) (w : World) :
  exists verifier w',
    SignatureVerifier.__init__ path
      ({| SignatureVerifier.key_manager := KeyManager.default;
          SignatureVerifier.public_key_path := path |}, w) = (Return tt, (verifier, w')) /\
    SignatureVerifier.new path w = (verifier, w') /\
    SignatureVerifier.public_key_path verifier = path /\
    KeyManager.private_key (SignatureVerifier.key_manager verifier) = None /\
    KeyManager.public_key (SignatureVerifier.key_manager verifier) =
      match path with
      | Some p => if Py.truthy (Some p) then key_at w p else None
      | None => None
      end /\
    files w' = files w.
Proof.
  assert (Hinit : exists verifier w',
    SignatureVerifier.__init__ path
      ({| SignatureVerifier.key_manager := KeyManager.default;
          SignatureVerifier.public_key_path := path |}, w) = (Return tt, (verifier, w')) /\
    SignatureVerifier.public_key_path verifier = path /\
    KeyManager.private_key (SignatureVerifier.key_manager verifier) = None /\
    KeyManager.public_key (SignatureVerifier.key_manager verifier) =
      match path with
      | Some p => if Py.truthy (Some p) then key_at w p else None
      | None => None
      end /\
    files w' = files w).
  { unfold SignatureVerifier.__init__.
    destruct path as [p|]; [|do 2 eexists; repeat split].
    destruct (Py.truthy (Some p)); [|do 2 eexists; repeat split].
    unfold bind at 1. unfold os_path_exists. cbn [fst snd].
    destruct (bool_decide (is_Some (files w !! p))) eqn:Hex.
    - unfold bind, SignatureVerifier.on_key_manager, on. cbn [fst snd].
      rewrite load_public_key_run. unfold ret. cbn [fst snd].
      do 2 eexists. split; [reflexivity|].
      simpl_state. destruct (key_at w p); repeat split.
    - unfold ret. do 2 eexists. split; [reflexivity|].
      simpl_state. repeat split.
      apply bool_decide_eq_false in Hex. unfold key_at.
      destruct (files w !! p) as [n|]; [|reflexivity]. exfalso. apply Hex. eauto. }
  destruct Hinit as (verifier & w' & E & H).
  exists verifier, w'. split; [exact E|]. split; [|exact H].
  unfold SignatureVerifier.new. now rewrite E.
Qed.

(** X7. The constructor of a verifier never raises and writes nothing.
    The verifier holds no private key; it holds the public key of the file
    at the path it was given when that file parses, and no key at all when
    no path or an empty one was given, when there is no such file, or when
    the file does not parse: none of these is reported. *)
Theorem verifier_constructor_never_fails (path : option string) (w : World) :
  exists verifier w',
    SignatureVerifier.__init__ path
      ({| SignatureVerifier.key_manager := KeyManager.default;
          SignatureVerifier.public_key_path := path |}, w) = (Return tt, (verifier, w')) /\
    SignatureVerifier.new path w = (verifier, w') /\
    SignatureVerifier.public_key_path verifier = path /\
    KeyManager.private_key (SignatureVerifier.key_manager verifier) = None /\
    KeyManager.public_key (SignatureVerifier.key_manager verifier) =
      match path with
      | Some p => if Py.truthy (Some p) then key_at w p else None
      | None => None
      end /\
    files w' = files w.
Proof. exact (verifier_init_run path w). Qed.

End Loading.

(** ** Verification without a usable sidecar, and of a copy *)

Section Sidecars.
Context `{L : Library}.

(** X8. When the path of the request and the document exist but the
    sidecar cannot be used (it is missing, a directory, not JSON, or an
    empty JSON value), [verify_document] answers [INVALID] with the message
    that the signature file could not be loaded. It does so before it looks
    at any key and before it hashes: the verifier and the world are exactly
    as before, whatever key the verifier holds or the request names. *)
Theorem verify_document_without_usable_sidecar (request : VerificationRequest)
    (verifier : SignatureVerifier.t) (w : World) :
  is_Some (files w !! signed_document_path request) ->
  is_Some (files w !! snd (SignatureVerifier.locate request)) ->
  sidecar_unusable request w ->
  SignatureVerifier.verify_document request (verifier, w) =
    (Return {| success := false;
               message := "No se pudo cargar el archivo de firma";
               status := Some INVALID;
               metadata := None;
               signature_data := None;
               signed_file_path := None;
               error := Some "El archivo de firma es inválido o está corrupto" |},
     (verifier, w)).
Proof.
  intros Hsigned Hdoc Hside. unfold sidecar_unusable in Hside.
  unfold SignatureVerifier.verify_document, SignatureVerifier._load_signature_file.
  destruct (SignatureVerifier.locate request) as [sp D]. cbn [fst snd] in *.
  unfold try_except at 1. unfold bind at 1. unfold os_path_exists at 1. cbn [snd].
  rewrite (bool_decide_eq_true_2 _ Hsigned). cbn [negb].
  unfold bind at 1. unfold os_path_exists at 1. cbn [snd].
  rewrite (bool_decide_eq_true_2 _ Hdoc). cbn [negb].
  unfold bind at 1. unfold try_except at 1. unfold bind at 1.
  unfold os_path_exists at 1. cbn [snd].
  destruct (files w !! sp) as [[text|]|] eqn:E.
  - rewrite bool_decide_eq_true_2 by eauto. cbn [negb].
    unfold bind at 1. unfold read_file. cbn [snd]. rewrite E.
    destruct (json_load text) as [package|].
    + unfold ret at 1. unfold SignatureVerifier.package_missing. rewrite Hside.
      reflexivity.
    + reflexivity.
  - rewrite bool_decide_eq_true_2 by eauto. cbn [negb].
    unfold bind at 1. unfold read_file. cbn [snd]. rewrite E. reflexivity.
  - rewrite bool_decide_eq_false_2 by (now intros [? ?]). reflexivity.
Qed.

End Sidecars.

Section Relocation.
Context `{L : Library} `{!LibraryLaws L}.

(** Verification of the content that was signed, wherever it and the
    signature file are found. *)
Lemma verify_relocated (request : SignatureRequest)
    (signer : DocumentSigner.t) (w : World) (r1 : SignatureResult)
    (s1 : DocumentSigner.t * World) :
  values_wf (req_additional_info request) = true ->
  DocumentSigner.sign_document request (signer, w) = (Return r1, s1) ->
  success r1 = true ->
  exists m1 sk,
    models.metadata r1 = Some m1 /\
    KeyManager.private_key (DocumentSigner.key_manager signer) = Some sk /\
    forall (vrequest : VerificationRequest) (verifier : SignatureVerifier.t) (w2 : World),
      files w2 !! snd (SignatureVerifier.locate vrequest) =
        files w !! document_path request ->
      files w2 !! fst (SignatureVerifier.locate vrequest) =
        files (snd s1) !! DocumentSigner.signature_file_path_of request ->
      resolved_key vrequest (verifier, w2) = Some (private_key_public_key sk) ->
      exists r2 s2,
        SignatureVerifier.verify_document vrequest (verifier, w2) = (Return r2, s2) /\
        success r2 = true /\ status r2 = Some VALID /\ models.metadata r2 = Some m1.
Proof.
  intros Hinfo E Hok.
  destruct (sign_document_succeeded request signer w r1 s1 E Hok)
    as (content & doc_type & sk & Hdoc & Htype & Hsk & Hr).
  cbv zeta in Hr. destruct Hr as [-> ->].
  do 2 eexists. split; [reflexivity|]. split; [exact Hsk|].
  intros vrequest verifier w2 Hcopy Hside Hkey.
  cbn [snd signed_world files] in Hside. rewrite lookup_insert_eq in Hside.
  rewrite Hdoc in Hcopy.
  pose proof (saved_sidecar_parses vrequest w2 _ _
                (new_metadata_wf request _ _ _ _ Hinfo) Hside) as Hparsed.
  assert (Hsigned : is_Some (files w2 !! signed_document_path vrequest)).
  { destruct (locate_signed vrequest) as [-> | ->]; eauto. }
  destruct (verify_document_parsed vrequest content _ _ (verifier, w2)
              Hsigned Hcopy Hparsed)
    as (r2 & s2 & Hrun & Hst & Hsu & Hmd & _).
  exists r2, s2. split; [exact Hrun|].
  rewrite Hkey in Hst, Hsu, Hmd.
  match type of Hst with
  | status r2 = Some ?v => assert (Hv : v = VALID)
  end.
  { unfold verdict. cbn [document_hash DocumentSigner.new_metadata].
    unfold SignatureVerifier.hash_differs.
    rewrite String.eqb_refl. cbn [negb]. now rewrite rsa_verify_sign. }
  rewrite Hv in Hst, Hsu. repeat split; auto.
Qed.

(** X9. A signature is bound to the content of the document, not to
    its name or place. When [sign_document] succeeded, take any request to
    verify and any later world in which the document path that request
    resolves to holds the content that was signed and the sidecar path it
    resolves to holds the signature file that was written (the two files
    copied elsewhere, say, or the signature written to a custom output path
    and named by the request): if the key resolved is the public key of the
    signing key, [verify_document] answers [VALID] with the metadata of the
    signature. *)
Theorem signature_follows_the_content (request : SignatureRequest)
    (signer : DocumentSigner.t) (w : World) (r1 : SignatureResult)
    (s1 : DocumentSigner.t * World) :
  values_wf (req_additional_info request) = true ->
  DocumentSigner.sign_document request (signer, w) = (Return r1, s1) ->
  success r1 = true ->
  exists m1 sk,
    models.metadata r1 = Some m1 /\
    KeyManager.private_key (DocumentSigner.key_manager signer) = Some sk /\
    forall (vrequest : VerificationRequest) (verifier : SignatureVerifier.t) (w2 : World),
      files w2 !! snd (SignatureVerifier.locate vrequest) =
        files w !! document_path request ->
      files w2 !! fst (SignatureVerifier.locate vrequest) =
        files (snd s1) !! DocumentSigner.signature_file_path_of request ->
      resolved_key vrequest (verifier, w2) = Some (private_key_public_key sk) ->
      exists r2 s2,
        SignatureVerifier.verify_document vrequest (verifier, w2) = (Return r2, s2) /\
        success r2 = true /\ status r2 = Some VALID /\ models.metadata r2 = Some m1.
Proof. exact (verify_relocated request signer w r1 s1). Qed.

End Relocation.

(** ** Creating and storing keys *)

Section Directories.

Lemma grown_refl (fs : gmap string node) : grown fs fs.
Proof. intros path. now left. Qed.

Lemma grown_trans (a b c : gmap string node) : grown a b -> grown b c -> grown a c.
Proof.
  intros Hab Hbc path. destruct (Hab path) as [E|[E1 E2]], (Hbc path) as [E'|[E1' E2']].
  - left. congruence.
  - right. split; congruence.
  - right. split; congruence.
  - congruence.
Qed.

Lemma grown_file (fs fs' : gmap string node) (path : string) (data : list byte) :
  grown fs fs' -> (fs' !! path = Some (File data) <-> fs !! path = Some (File data)).
Proof. intros H. destruct (H path) as [E|[E1 E2]]; rewrite ?E, ?E1, ?E2; split; congruence. Qed.

Lemma grown_exists (fs fs' : gmap string node) (path : string) :
  grown fs fs' -> is_Some (fs !! path) -> fs' !! path = fs !! path.
Proof. intros H [n Hn]. destruct (H path) as [E|[E1 E2]]; congruence. Qed.

Lemma mkdir_parents_grown (root : list ascii) (rev_parts : list (list ascii))
    (fs fs' : gmap string node) :
  Pathlib.mkdir_parents root rev_parts fs = Some fs' -> grown fs fs'.
Proof.
  revert fs'. induction rev_parts as [|c above IH]; intros fs' H.
  - cbn in H. injection H as <-. apply grown_refl.
  - cbn [Pathlib.mkdir_parents] in H.
    destruct (fs !! Pathlib.render root (rev (c :: above))) as [[data|]|] eqn:E.
    + discriminate.
    + injection H as <-. apply grown_refl.
    + destruct (Pathlib.mkdir_parents root above fs) as [fs1|]; [|discriminate].
      injection H as <-. specialize (IH fs1 eq_refl). intros path.
      destruct (decide (path = Pathlib.render root (rev (c :: above)))) as [->|Hne].
      * right. split; [exact E | apply lookup_insert_eq].
      * rewrite lookup_insert_ne by (intros Heq; apply Hne; symmetry; exact Heq). apply IH.
Qed.

End Directories.

Section Saving.
Context `{L : Library} `{K : !KeyLibrary L}.

Lemma mkdir_parent_run {Self} (filepath : string) (self : Self) (w : World) :
  Pathlib.mkdir_parent filepath (self, w) = (Return false, (self, w)) \/
  exists fs', Pathlib.mkdir_parent filepath (self, w) = (Return true, (self, set_files fs' w)) /\
              grown (files w) fs'.
Proof.
  unfold Pathlib.mkdir_parent. cbn [fst snd].
  destruct (Pathlib.mkdir_parents _ _ (files w)) as [fs'|] eqn:E; [right | now left].
  exists fs'. split; [reflexivity | exact (mkdir_parents_grown _ _ _ _ E)].
Qed.

Lemma save_public_key_run (filepath : string) (k : KeyManager.t) (w : World)
    (pk : RSAPublicKey) :
  KeyManager.public_key k = Some pk ->
  exists b w',
    KeyStore.save_public_key filepath (k, w) = (Return b, (k, w')) /\
    entropy w' = entropy w /\ draws w' = draws w /\
    (b = true -> stored (files w) (files w') filepath (public_bytes PEM pk)) /\
    (b = false -> grown (files w) (files w')).
Proof.
  intros Hpk. unfold KeyStore.save_public_key.
  unfold bind at 1. unfold get_self. cbn [fst snd]. rewrite Hpk.
  unfold try_except. unfold bind at 1.
  destruct (mkdir_parent_run filepath k w) as [E | (fs' & E & Hg)]; rewrite E.
  - cbn [negb]. unfold ret. exists false, w. repeat split; auto.
    + discriminate.
    + intros _. apply grown_refl.
  - cbn [negb]. unfold bind, write_file, ret. cbn [fst snd files set_files].
    destruct (fs' !! filepath) as [[data|]|] eqn:Hnode.
    + eexists true, _. split; [reflexivity|]. cbn [entropy draws files].
      repeat split; try discriminate.
      intros _. exists fs'. repeat split; [exact Hg | congruence].
    + eexists false, _. split; [reflexivity|]. cbn [entropy draws files].
      repeat split; try discriminate. intros _. exact Hg.
    + eexists true, _. split; [reflexivity|]. cbn [entropy draws files].
      repeat split; try discriminate.
      intros _. exists fs'. repeat split; [exact Hg | congruence].
Qed.

Lemma save_private_key_run (filepath : string) (password : option (list byte))
    (k : KeyManager.t) (w : World) (sk : RSAPrivateKey) :
  KeyManager.private_key k = Some sk ->
  exists b w' salt,
    KeyStore.save_private_key filepath password (k, w) = (Return b, (k, w')) /\
    entropy w' = entropy w /\
    (b = true ->
     stored (files w) (files w') filepath
       (private_bytes sk (encryption_of password) salt)) /\
    (b = false -> grown (files w) (files w')).
Proof.
  intros Hsk. unfold KeyStore.save_private_key, encryption_of.
  unfold bind at 1. unfold get_self. cbn [fst snd]. rewrite Hsk.
  unfold try_except. unfold bind at 1.
  destruct (mkdir_parent_run filepath k w) as [E | (fs' & E & Hg)]; rewrite E.
  - cbn [negb]. unfold ret. exists false, w, []. repeat split; auto.
    + discriminate.
    + intros _. apply grown_refl.
  - cbn [negb].
    destruct (KeyStore.password_given password);
      unfold bind, urandom, write_file, ret; cbn [fst snd files set_files set_draws];
      (destruct (fs' !! filepath) as [[data|]|] eqn:Hnode;
       [ eexists true, _, _; split; [reflexivity|]; cbn [entropy draws files];
         repeat split; try discriminate;
         intros _; exists fs'; repeat split; [exact Hg | congruence]
       | eexists false, _, []; split; [reflexivity|]; cbn [entropy draws files];
         repeat split; try discriminate; intros _; exact Hg
       | eexists true, _, _; split; [reflexivity|]; cbn [entropy draws files];
         repeat split; try discriminate;
         intros _; exists fs'; repeat split; [exact Hg | congruence] ]).
Qed.

(** What [generate_and_save_keys] does: it returns, leaves the caller's
    object alone, and when it answers [True] the key size was a valid one
    and the private key, then the public key, of the generated key were
    stored. *)
Lemma generate_and_save_keys_run {Self} (private_key_path public_key_path : string)
    (key_size : Z) (password : option (list byte)) (self : Self) (w : World) :
  exists b w',
    KeyStore.generate_and_save_keys private_key_path public_key_path key_size password
      (self, w) = (Return b, (self, w')) /\
    (b = true ->
     exists fs1 salt,
       existsb (Z.eqb key_size) [2048; 3072; 4096]%Z = true /\
       stored (files w) fs1 private_key_path
         (private_bytes (generated_key w key_size) (encryption_of password) salt) /\
       stored fs1 (files w') public_key_path
         (public_bytes PEM (private_key_public_key (generated_key w key_size)))).
Proof.
  unfold KeyStore.generate_and_save_keys, KeyManager.__init__.
  unfold try_except. unfold bind at 1. unfold lift.
  destruct (existsb (Z.eqb key_size) [2048; 3072; 4096]%Z) eqn:Hsize;
    [|exists false, w; split; [reflexivity | discriminate]].
  unfold KeyStore.with_object, on. cbn [fst snd].
  unfold bind at 1. unfold KeyStore.generate_key_pair.
  unfold bind at 1. unfold get_self. cbn [fst snd].
  unfold bind at 1. unfold urandom. cbn [fst snd].
  unfold bind at 1. unfold put_self. cbn [fst snd]. unfold ret at 1.
  cbn [KeyManager.key_size].
  fold (generated_key w key_size).
  set (sk := generated_key w key_size).
  set (k := KeyManager.set_key_pair sk _).
  set (w1 := set_draws (S (draws w)) w).
  destruct (save_private_key_run private_key_path password k w1 sk eq_refl)
    as (b1 & w2 & salt & E1 & He1 & Hs1 & _).
  unfold bind at 1. rewrite E1.
  destruct b1; cbn [negb]; [|exists false, w2; split; [reflexivity | discriminate]].
  destruct (save_public_key_run public_key_path k w2 (private_key_public_key sk) eq_refl)
    as (b2 & w3 & E2 & He2 & _ & Hs2 & _).
  unfold bind at 1. rewrite E2.
  destruct b2; cbn [negb]; [|exists false, w3; split; [reflexivity | discriminate]].
  exists true, w3. split; [reflexivity|]. intros _.
  exists (files w2), salt. split; [reflexivity|]. split; [exact (Hs1 eq_refl)|].
  exact (Hs2 eq_refl).
Qed.

End Saving.

Section Constructor.
Context `{L : Library} `{K : !KeyLibrary L}.

Lemma load_private_key_at (path : string) (password : option (list byte))
    (k : KeyManager.t) (w : World) :
  KeyManager.load_private_key path password (k, w) =
    (Return (private_key_at w path password),
     (match private_key_at w path password with
      | Some sk => KeyManager.set_key_pair sk k
      | None => k
      end, w)).
Proof.
  unfold KeyManager.load_private_key, private_key_at. unfold_monad. simpl_state.
  destruct (files w !! path) as [[data|]|] eqn:E.
  - rewrite bool_decide_eq_true_2 by eauto. simpl_state. rewrite E.
    destruct (load_pem_private_key data password); reflexivity.
  - rewrite bool_decide_eq_true_2 by eauto. simpl_state. rewrite E. reflexivity.
  - rewrite bool_decide_eq_false_2 by (now intros [? ?]). reflexivity.
Qed.

Lemma verify_key_files_exist_run {Self} (a b : string) (self : Self) (w : World) :
  KeyManager.verify_key_files_exist a b (self, w) =
    (Return (bool_decide (is_Some (files w !! a)) && bool_decide (is_Some (files w !! b))),
     (self, w)).
Proof.
  unfold KeyManager.verify_key_files_exist, bind, os_path_exists, ret. cbn [fst snd].
  destruct (bool_decide (is_Some (files w !! a))); reflexivity.
Qed.

(** The body of the constructor when both key files are there: nothing is
    generated, the private key file is read. *)
Lemma init_with_key_files (password : option (list byte)) (self : DocumentSigner.t)
    (w : World) :
  is_Some (files w !! DocumentSigner.private_key_path self) ->
  is_Some (files w !! DocumentSigner.public_key_path self) ->
  SignerSetup.__init__ password (self, w) =
    match private_key_at w (DocumentSigner.private_key_path self) password with
    | Some sk =>
        (Return tt,
         (DocumentSigner.set_key_manager
            (KeyManager.set_key_pair sk (DocumentSigner.key_manager self)) self, w))
    | None => (Raise (ValueError "No se pudieron cargar las claves de firma"), (self, w))
    end.
Proof.
  intros Ha Hb. unfold SignerSetup.__init__, SignerSetup._load_keys.
  unfold bind at 1. unfold bind at 1. unfold get_self. cbn [fst snd].
  unfold bind at 1. rewrite verify_key_files_exist_run.
  rewrite (bool_decide_eq_true_2 _ Ha), (bool_decide_eq_true_2 _ Hb). cbn [andb negb].
  unfold bind at 1. unfold ret at 1. cbn [negb].
  unfold bind at 1. unfold DocumentSigner.on_key_manager, on. cbn [fst snd].
  rewrite load_private_key_at.
  destruct (private_key_at w (DocumentSigner.private_key_path self) password);
    [reflexivity|].
  unfold ret, raise. cbn [negb]. destruct self; reflexivity.
Qed.

(** The body of the constructor when a key file is missing: a key pair is
    generated and stored first, and the private key file is read after
    that. *)
Lemma init_without_key_files (password : option (list byte)) (self : DocumentSigner.t)
    (w : World) :
  files w !! DocumentSigner.private_key_path self = None \/
  files w !! DocumentSigner.public_key_path self = None ->
  exists b w',
    (b = true ->
     exists fs1 salt,
       stored (files w) fs1 (DocumentSigner.private_key_path self)
         (private_bytes (generated_key w 2048) (encryption_of password) salt) /\
       stored fs1 (files w') (DocumentSigner.public_key_path self)
         (public_bytes PEM (private_key_public_key (generated_key w 2048)))) /\
    SignerSetup.__init__ password (self, w) =
      if b then
        match private_key_at w' (DocumentSigner.private_key_path self) password with
        | Some sk =>
            (Return tt,
             (DocumentSigner.set_key_manager
                (KeyManager.set_key_pair sk (DocumentSigner.key_manager self)) self, w'))
        | None =>
            (Raise (ValueError "No se pudieron cargar las claves de firma"), (self, w'))
        end
      else (Raise (ValueError "No se pudieron cargar las claves de firma"), (self, w')).
Proof.
  intros Hmissing. unfold SignerSetup.__init__, SignerSetup._load_keys.
  unfold bind at 1. unfold bind at 1. unfold get_self. cbn [fst snd].
  unfold bind at 1. rewrite verify_key_files_exist_run.
  assert (Hfound :
            bool_decide (is_Some (files w !! DocumentSigner.private_key_path self)) &&
            bool_decide (is_Some (files w !! DocumentSigner.public_key_path self)) = false).
  { destruct Hmissing as [H|H]; rewrite H;
      rewrite (bool_decide_eq_false_2 (is_Some None)) by (now intros [? ?]);
      [reflexivity | apply andb_false_r]. }
  rewrite Hfound. cbn [negb].
  unfold bind at 1.
  destruct (generate_and_save_keys_run (DocumentSigner.private_key_path self)
              (DocumentSigner.public_key_path self) 2048 password self w)
    as (b & w' & E & Hb).
  rewrite E. exists b, w'. split.
  { intros ->. destruct (Hb eq_refl) as (fs1 & salt & _ & H1 & H2). eauto. }
  destruct b; cbn [negb]; [|reflexivity].
  unfold bind at 1. unfold DocumentSigner.on_key_manager, on. cbn [fst snd].
  rewrite load_private_key_at.
  destruct (private_key_at w' (DocumentSigner.private_key_path self) password);
    [reflexivity|].
  unfold ret, raise. cbn [negb]. destruct self; reflexivity.
Qed.

End Constructor.

Section ConstructorProperties.
Context `{L : Library} `{K : !KeyLibrary L}.

Lemma stored_lookup (fs fs' : gmap string node) (path : string) (data : list byte) :
  stored fs fs' path data -> fs' !! path = Some (File data).
Proof. intros (fs1 & _ & _ & ->). apply lookup_insert_eq. Qed.

Lemma stored_other_file (fs fs' : gmap string node) (path other : string)
    (data x : list byte) :
  stored fs fs' path data -> other <> path ->
  (fs' !! other = Some (File x) <-> fs !! other = Some (File x)).
Proof.
  intros (fs1 & Hg & _ & ->) Hne. rewrite lookup_insert_ne by congruence.
  apply grown_file, Hg.
Qed.

Lemma new_of_init (private_key_path public_key_path : string)
    (password : option (list byte)) (w : World) (r : outcome unit)
    (self : DocumentSigner.t) (w' : World) :
  SignerSetup.__init__ password
    ({| DocumentSigner.key_manager := KeyManager.default;
        DocumentSigner.private_key_path := private_key_path;
        DocumentSigner.public_key_path := public_key_path |}, w) = (r, (self, w')) ->
  SignerSetup.new private_key_path public_key_path password w =
    (match r with Return _ => Return self | Raise e => Raise e end, w').
Proof. intros E. unfold SignerSetup.new. cbv zeta. rewrite E. reflexivity. Qed.

(** X10. When both key files exist, the constructor of a signer
    generates nothing and leaves the world as it is. It reads the private
    key file only (the public key file is tested for existence, never
    opened): the signer holds the key of that file with the public key
    derived from it, and [ValueError] is raised when the file holds no key
    that loads under the password. *)
Theorem signer_constructor_reads_the_private_key_file
    (private_key_path public_key_path : string) (password : option (list byte))
    (w : World) :
  is_Some (files w !! private_key_path) ->
  is_Some (files w !! public_key_path) ->
  SignerSetup.new private_key_path public_key_path password w =
    (match private_key_at w private_key_path password with
     | Some sk => Return (signer_with sk private_key_path public_key_path)
     | None => Raise (ValueError "No se pudieron cargar las claves de firma")
     end, w).
Proof.
  intros Ha Hb. unfold SignerSetup.new. cbv zeta.
  rewrite init_with_key_files by assumption.
  cbn [DocumentSigner.private_key_path].
  destruct (private_key_at w private_key_path password); reflexivity.
Qed.

(** Whatever the paths, the password and the world, the constructor
    returns a signer that holds a private key with its public key, or
    raises [ValueError]. *)
Lemma new_cases (private_key_path public_key_path : string)
    (password : option (list byte)) (w : World) :
  exists w1,
    (exists sk, SignerSetup.new private_key_path public_key_path password w =
                  (Return (signer_with sk private_key_path public_key_path), w1)) \/
    SignerSetup.new private_key_path public_key_path password w =
      (Raise (ValueError "No se pudieron cargar las claves de firma"), w1).
Proof.
  unfold SignerSetup.new. cbv zeta.
  set (self := {| DocumentSigner.key_manager := KeyManager.default;
                  DocumentSigner.private_key_path := private_key_path;
                  DocumentSigner.public_key_path := public_key_path |}).
  destruct (files w !! private_key_path) as [a|] eqn:Ha;
    [destruct (files w !! public_key_path) as [b|] eqn:Hb|].
  - rewrite init_with_key_files by (cbn; rewrite ?Ha, ?Hb; eauto).
    exists w. destruct (private_key_at w _ password) as [sk|]; [left; exists sk|right];
      reflexivity.
  - destruct (init_without_key_files password self w (or_intror Hb))
      as (b & w' & _ & E).
    rewrite E. exists w'.
    destruct b; [|right; reflexivity].
    destruct (private_key_at w' _ password) as [sk|]; [left; exists sk|right]; reflexivity.
  - destruct (init_without_key_files password self w (or_introl Ha))
      as (b & w' & _ & E).
    rewrite E. exists w'.
    destruct b; [|right; reflexivity].
    destruct (private_key_at w' _ password) as [sk|]; [left; exists sk|right]; reflexivity.
Qed.

Lemma encryption_of_password (password : option (list byte)) :
  password <> Some [] -> encryption_of password = password.
Proof.
  intros H. unfold encryption_of, KeyStore.password_given.
  destruct password as [[|b l]|]; congruence.
Qed.

Section WithLaws.
Context `{!KeyLibraryLaws L K}.

(** The constructor when a key file is missing, once it returned: the
    signer holds the generated key, and both key files hold that key. *)
Lemma new_generated (private_key_path public_key_path : string)
    (password : option (list byte)) (w : World) (signer : DocumentSigner.t) (w1 : World) :
  files w !! private_key_path = None \/ files w !! public_key_path = None ->
  private_key_path <> public_key_path ->
  password <> Some [] ->
  SignerSetup.new private_key_path public_key_path password w = (Return signer, w1) ->
  signer = signer_with (generated_key w 2048) private_key_path public_key_path /\
  private_key_at w1 private_key_path password = Some (generated_key w 2048) /\
  key_at w1 public_key_path = Some (private_key_public_key (generated_key w 2048)) /\
  forall path data,
    path <> private_key_path -> path <> public_key_path ->
    (files w1 !! path = Some (File data) <-> files w !! path = Some (File data)).
Proof.
  intros Hmissing Hne Hpw. unfold SignerSetup.new. cbv zeta.
  set (self := {| DocumentSigner.key_manager := KeyManager.default;
                  DocumentSigner.private_key_path := private_key_path;
                  DocumentSigner.public_key_path := public_key_path |}).
  destruct (init_without_key_files password self w Hmissing) as (b & w' & Hb & E).
  rewrite E. destruct b; [|discriminate].
  destruct (Hb eq_refl) as (fs1 & salt & H1 & H2).
  cbn [DocumentSigner.private_key_path DocumentSigner.public_key_path self] in *.
  rewrite (encryption_of_password _ Hpw) in H1.
  assert (Hpriv : private_key_at w' private_key_path password
                  = Some (generated_key w 2048)).
  { unfold private_key_at.
    rewrite (proj2 (stored_other_file _ _ _ _ _ _ H2 Hne) (stored_lookup _ _ _ _ H1)).
    apply load_private_bytes, Hpw. }
  rewrite Hpriv. cbn [fst snd]. intros Hrun. injection Hrun as <- <-.
  split; [reflexivity|]. split; [exact Hpriv|]. split.
  - unfold key_at. rewrite (stored_lookup _ _ _ _ H2). apply load_public_bytes.
  - intros path data Ha Hb'.
    rewrite (stored_other_file _ _ _ _ _ data H2 Hb').
    exact (stored_other_file _ _ _ _ _ data H1 Ha).
Qed.

End WithLaws.

End ConstructorProperties.

Section KeyStoreProperties.
Context `{L : Library} `{K : !KeyLibrary L}.



End KeyStoreProperties.

Section Bootstrap.
Context `{L : Library} `{K : !KeyLibrary L}.
Context `{!LibraryLaws L} `{!KeyLibraryLaws L K}.


(** X14. A signer and a verifier set up as the servers do agree. When a
    key file was missing and [DocumentSigner(private, public, password)]
    returned, the verifier that [SignatureVerifier(public)] builds next
    holds the public key of the signer's key; so whenever that signer later
    signs a document, that verifier finds the signature [VALID] in the
    world the signature left. *)
Theorem fresh_signer_and_verifier_agree
    (private_key_path public_key_path : string) (password : option (list byte))
    (w : World) (signer : DocumentSigner.t) (w1 : World) :
  files w !! private_key_path = None \/ files w !! public_key_path = None ->
  private_key_path <> public_key_path ->
  public_key_path <> "" ->
  password <> Some [] ->
  SignerSetup.new private_key_path public_key_path password w = (Return signer, w1) ->
  let verifier := fst (SignatureVerifier.new (Some public_key_path) w1) in
  KeyManager.public_key (SignatureVerifier.key_manager verifier) =
    KeyManager.public_key (DocumentSigner.key_manager signer) /\
  forall (D signer_name signer_email : string) (w2 : World) (r1 : SignatureResult)
         (s1 : DocumentSigner.t * World),
    DocumentSigner.sign_document (plain_request D signer_name signer_email) (signer, w2)
      = (Return r1, s1) ->
    success r1 = true ->
    exists r2 s2,
      SignatureVerifier.verify_document (plain_vrequest D) (verifier, snd s1)
        = (Return r2, s2) /\
      success r2 = true /\ status r2 = Some VALID /\ metadata r2 = metadata r1.
Proof.
  intros Hmissing Hne Hpub Hpw E verifier.
  destruct (new_generated private_key_path public_key_path password w signer w1
              Hmissing Hne Hpw E) as (-> & _ & Hkey & _).
  destruct (verifier_init_run (Some public_key_path) w1)
    as (v & w1' & _ & Hnew & _ & _ & Hheld & _).
  assert (Hv : verifier = v) by (unfold verifier; now rewrite Hnew).
  assert (Ht : Py.truthy (Some public_key_path) = true).
  { cbn [Py.truthy]. apply negb_true_iff, String.eqb_neq, Hpub. }
  rewrite Ht, Hkey in Hheld. rewrite Hv.
  split; [exact Hheld|].
  intros D signer_name signer_email w2 r1 s1 Hsign Hok.
  destruct (verify_relocated (plain_request D signer_name signer_email) _ _ _ _
              eq_refl Hsign Hok)
    as (m1 & sk & Hm1 & Hsk & Hverify).
  cbn [signer_with DocumentSigner.key_manager KeyManager.private_key] in Hsk.
  injection Hsk as <-.
  specialize (Hverify (plain_vrequest D) v (snd s1)).
  destruct (sign_document_succeeded _ _ _ _ _ Hsign Hok)
    as (content & doc_type & sk' & Hdoc & Htype & _ & Hr).
  cbv zeta in Hr. destruct Hr as [_ Hs1].
  cbn [document_path plain_request] in *.
  rewrite (locate_document D doc_type None None Htype : SignatureVerifier.locate (plain_vrequest D) = _)
    in Hverify.
  cbn [fst snd] in Hverify.
  destruct Hverify as (r2 & s2 & Hrun & Hsu & Hst & Hmd).
  - rewrite Hs1. cbn [snd signed_world files].
    rewrite lookup_insert_ne; [reflexivity|].
    exact (sidecar_is_not_document D).
  - reflexivity.
  - exact Hheld.
  - exists r2, s2. rewrite Hm1. auto.
Qed.

End Bootstrap.

(** ** Reading a signature file without verifying *)

Section Info.
Context `{L : Library}.

Lemma extract_metadata_run {Self} (path : string) (self : Self) (w : World) :
  SignatureInfo.extract_metadata_from_signature path (self, w) =
    (Return (sidecar_metadata w path), (self, w)).
Proof.
  unfold SignatureInfo.extract_metadata_from_signature, sidecar_metadata.
  unfold try_except, bind, read_file, lift, raise, ret. cbn [fst snd].
  destruct (files w !! path) as [[text|]|]; try reflexivity.
  destruct (json_load text) as [package|]; [|reflexivity].
  destruct (subscript package "metadata") as [md|e]; [|reflexivity].
  cbn [obind]. destruct (from_dict md); reflexivity.
Qed.

Lemma get_signature_info_run {Self} (document_path : string) (self : Self) (w : World) :
  SignatureInfo.get_signature_info document_path (self, w) =
    (signature_info w document_path, (self, w)).
Proof.
  unfold SignatureInfo.get_signature_info, signature_info.
  unfold bind at 1. unfold os_path_exists. cbn [fst snd].
  destruct (files w !! (document_path +:+ ".sig")) as [n|] eqn:E.
  - rewrite bool_decide_eq_true_2 by eauto. cbn [negb].
    unfold bind. rewrite extract_metadata_run.
    destruct (sidecar_metadata w (document_path +:+ ".sig")); reflexivity.
  - rewrite bool_decide_eq_false_2 by (now intros [? ?]). reflexivity.
Qed.

(** X15. [extract_metadata_from_signature] and [get_signature_info] look
    at the signature file and at nothing else. They leave the world and the
    object exactly as they were, so no key is loaded and nothing is hashed
    or checked; and what they answer is the same in any two worlds that
    agree on that one file, whether or not the document is still there or
    still has the content that was signed. [extract_metadata_from_signature]
    never raises. *)
Theorem signature_info_reads_only_the_signature_file {Self : Type}
    (document_path : string) (self self' : Self) (w w' : World) :
  snd (SignatureInfo.get_signature_info document_path (self, w)) = (self, w) /\
  (exists metadata,
     SignatureInfo.extract_metadata_from_signature (document_path +:+ ".sig") (self, w)
     = (Return metadata, (self, w))) /\
  (files w' !! (document_path +:+ ".sig") = files w !! (document_path +:+ ".sig") ->
   fst (SignatureInfo.get_signature_info document_path (self', w')) =
     fst (SignatureInfo.get_signature_info document_path (self, w)) /\
   fst (SignatureInfo.extract_metadata_from_signature (document_path +:+ ".sig") (self', w'))
     = fst (SignatureInfo.extract_metadata_from_signature (document_path +:+ ".sig")
              (self, w))).
Proof.
  rewrite !get_signature_info_run, !extract_metadata_run. cbn [fst snd].
  split; [reflexivity|]. split; [eauto|].
  intros H. unfold signature_info, sidecar_metadata. rewrite H. split; reflexivity.
Qed.

(** X16. What [get_signature_info] answers when no signature can be
    read. With no file at [<document>.sig] it answers that there is no
    signature. With something there that is not a signature file (a
    directory, text that is not JSON, JSON without a [metadata] entry, or
    metadata that [from_dict] rejects) it answers that the file is
    corrupt, [is_valid] being false. *)
Theorem signature_info_without_a_signature {Self : Type} (document_path : string)
    (self : Self) (w : World) :
  let path := document_path +:+ ".sig" in
  let answer := fst (SignatureInfo.get_signature_info document_path (self, w)) in
  let corrupt := Return (JDict [ ("has_signature", JBool true);
                                 ("is_valid", JBool false);
                                 ("message", JStr "Archivo de firma corrupto") ]) in
  (files w !! path = None ->
   answer = Return (JDict [ ("has_signature", JBool false);
                            ("message", JStr "No se encontró archivo de firma") ])) /\
  (files w !! path = Some Dir -> answer = corrupt) /\
  (forall text, files w !! path = Some (File text) ->
     (json_load text = None -> answer = corrupt) /\
     (forall package e,
        json_load text = Some package ->
        subscript package "metadata" = Raise e -> answer = corrupt) /\
     (forall package metadata_dict e,
        json_load text = Some package ->
        subscript package "metadata" = Return metadata_dict ->
        from_dict metadata_dict = Raise e -> answer = corrupt)).
Proof.
  cbv zeta. rewrite get_signature_info_run. cbn [fst].
  unfold signature_info, sidecar_metadata.
  split; [|split].
  - intros ->. reflexivity.
  - intros ->. reflexivity.
  - intros text ->. split; [|split].
    + intros ->. reflexivity.
    + intros package e -> ->. reflexivity.
    + intros package md e -> ->. cbn [obind]. intros ->. reflexivity.
Qed.

(** X17. [get_signature_info] raises in exactly one case: the signature
    file is read and its metadata are accepted, but the [document_hash]
    they hold is not a string, so that it cannot be cut and joined to
    ['...']. Nothing in the method catches the exception. *)
Theorem signature_info_raises_on_a_hash_that_is_no_string {Self : Type}
    (document_path : string) (self : Self) (w : World) :
  (exists e, fst (SignatureInfo.get_signature_info document_path (self, w)) = Raise e) <->
  (exists metadata,
     sidecar_metadata w (document_path +:+ ".sig") = Some metadata /\
     forall s, document_hash metadata <> JStr s).
Proof.
  rewrite get_signature_info_run. cbn [fst]. unfold signature_info.
  destruct (files w !! (document_path +:+ ".sig")) as [n|] eqn:E.
  - destruct (sidecar_metadata w (document_path +:+ ".sig")) as [m|] eqn:Em.
    + unfold SignatureInfo.summary, SignatureInfo.hash_preview. split.
      * intros [e He]. exists m. split; [reflexivity|].
        intros s Hs. rewrite Hs in He. discriminate.
      * intros (m' & Hm' & Hno). injection Hm' as <-.
        destruct (document_hash m) as [| | |s| |]; try (eexists; reflexivity).
        now destruct (Hno s).
    + split; [intros [e He]; discriminate | intros (m & Hm & _); discriminate].
  - split; [intros [e He]; discriminate|].
    intros (m & Hm & _). unfold sidecar_metadata in Hm. rewrite E in Hm. discriminate.
Qed.

End Info.

Section InfoAfterSigning.
Context `{L : Library} `{!LibraryLaws L}.

Lemma hex_digit_is_no_continuation (b : byte) :
  SignatureInfo.is_continuation (Py.hex_hi b) = false /\
  SignatureInfo.is_continuation (Py.hex_lo b) = false.
Proof. destruct b; split; reflexivity. Qed.

(** The first [2 n] characters of a hex text are the hex text of the first
    [n] bytes. *)
Lemma take_chars_hex (n : nat) (bs : list byte) :
  SignatureInfo.take_chars (2 * n) (Py.hex bs) = Py.hex (firstn n bs).
Proof.
  revert bs. induction n as [|n IH]; intros [|b bs]; try reflexivity.
  - cbn [Py.hex SignatureInfo.take_chars Nat.mul firstn].
    now rewrite (proj1 (hex_digit_is_no_continuation b)).
  - replace (2 * S n) with (S (S (2 * n))) by lia.
    cbn [Py.hex SignatureInfo.take_chars firstn].
    destruct (hex_digit_is_no_continuation b) as [-> ->].
    now rewrite IH.
Qed.

Lemma written_sidecar_metadata (w : World) (path : string) (signature : list byte)
    (m : SignatureMetadata) :
  metadata_wf m = true ->
  files w !! path = Some (File (json_dump (DocumentSigner.signature_package signature m))) ->
  sidecar_metadata w path = Some m.
Proof.
  intros Hwf Hfile. unfold sidecar_metadata. rewrite Hfile.
  rewrite json_load_dump by (apply signature_package_wf, Hwf).
  unfold DocumentSigner.signature_package. cbn [subscript dict_get String.eqb Ascii.eqb
    Bool.eqb obind].
  now rewrite from_dict_to_dict.
Qed.

(** X18. What was signed can be read back without any key. After
    [sign_document] succeeded, [extract_metadata_from_signature] on the
    signature file of the result returns exactly the metadata of the
    result, wherever the signature was written; and when it was written to
    the default place, [get_signature_info] on the document answers with
    the name and the address of the signer, the date of the signature, the
    algorithm, the entries of [additional_info], and of the document hash
    the first sixteen hex digits (the first eight bytes of the SHA-256 of
    the content) followed by three dots. *)
Theorem signed_document_shows_its_metadata {Self : Type} (request : SignatureRequest)
    (signer : DocumentSigner.t) (w : World) (r1 : SignatureResult)
    (s1 : DocumentSigner.t * World) :
  values_wf (req_additional_info request) = true ->
  DocumentSigner.sign_document request (signer, w) = (Return r1, s1) ->
  success r1 = true ->
  exists m1 path content,
    metadata r1 = Some m1 /\ signed_file_path r1 = Some path /\
    files w !! document_path request = Some (File content) /\
    forall (self : Self) (w2 : World),
      files w2 !! path = files (snd s1) !! path ->
      SignatureInfo.extract_metadata_from_signature path (self, w2)
        = (Return (Some m1), (self, w2)) /\
      (path = document_path request +:+ ".sig" ->
       SignatureInfo.get_signature_info (document_path request) (self, w2) =
         (Return
            (JDict [ ("has_signature", JBool true);
                     ("signer_name", JStr (req_signer_name request));
                     ("signer_email", JStr (req_signer_email request));
                     ("signature_date", JStr (isoformat (clock w (ticks w))));
                     ("algorithm", JStr "RSA-PSS with SHA-256");
                     ("document_hash",
                      JStr (Py.hex (firstn 8 (sha256 content)) +:+ "..."));
                     ("additional_info", additional_info m1) ]),
          (self, w2))).
Proof.
  intros Hinfo E Hok.
  destruct (sign_document_succeeded request signer w r1 s1 E Hok)
    as (content & doc_type & sk & Hdoc & Htype & Hsk & Hr).
  cbv zeta in Hr. destruct Hr as [-> ->].
  do 3 eexists. split; [reflexivity|]. split; [reflexivity|]. split; [exact Hdoc|].
  intros self w2 Hfile.
  cbn [snd signed_world files] in Hfile. rewrite lookup_insert_eq in Hfile.
  pose proof (written_sidecar_metadata w2 _ _ _
                (new_metadata_wf request _ _ _ _ Hinfo) Hfile) as Hm.
  split.
  - rewrite extract_metadata_run, Hm. reflexivity.
  - intros Hpath. rewrite get_signature_info_run. unfold signature_info.
    rewrite <- Hpath, Hfile, Hm.
    unfold SignatureInfo.summary, SignatureInfo.hash_preview.
    cbn [document_hash signer_name signer_email signature_date signature_algorithm
         DocumentSigner.new_metadata obind].
    rewrite (take_chars_hex 8). reflexivity.
Qed.

End InfoAfterSigning.

(** ** Metadata read from a dictionary *)

Section FromDict.
Context `{L : Library}.

(** X19. [SignatureMetadata.from_dict] accepts a value exactly when it
    is a dictionary that has the four keys [signer_name], [signer_email],
    [signature_date] and [document_hash], the date being a string in ISO
    format. Nothing else is checked: name, address and hash are taken as
    they are, whatever their type; the three other fields default to the
    algorithm name, [None] and the empty dictionary. A dictionary without
    [signer_name] raises [KeyError]. *)
Theorem from_dict_checks_keys_and_date_only (data : json) (m : SignatureMetadata) :
  (from_dict data = Return m <->
   exists d text,
     data = JDict d /\
     dict_get "signer_name" d = Some (signer_name m) /\
     dict_get "signer_email" d = Some (signer_email m) /\
     dict_get "signature_date" d = Some (JStr text) /\
     fromisoformat text = Some (signature_date m) /\
     dict_get "document_hash" d = Some (document_hash m) /\
     signature_algorithm m =
       dict_get_default "signature_algorithm" d (JStr "RSA-PSS with SHA-256") /\
     key_fingerprint m = dict_get_default "key_fingerprint" d JNull /\
     additional_info m = dict_get_default "additional_info" d (JDict [])) /\
  (forall d, dict_get "signer_name" d = None ->
             from_dict (JDict d) = Raise (KeyError "signer_name")).
Proof.
  split.
  - unfold from_dict, dict_get_default, default_signature_algorithm. split.
    + intros H. destruct data as [| | | | |d]; try discriminate.
      cbn [subscript get_default] in H.
      destruct (dict_get "signer_name" d) as [name|] eqn:Hn; [|discriminate].
      destruct (dict_get "signer_email" d) as [email|] eqn:He; [|discriminate].
      destruct (dict_get "signature_date" d) as [date|] eqn:Hd; [|discriminate].
      cbn [obind] in H. unfold datetime_fromisoformat in H.
      destruct date as [| | |text| |]; try discriminate.
      destruct (fromisoformat text) as [dt|] eqn:Hiso; [|discriminate].
      destruct (dict_get "document_hash" d) as [hash|] eqn:Hh; [|discriminate].
      cbn [obind] in H.
      destruct (dict_get "signature_algorithm" d) eqn:Ha,
        (dict_get "key_fingerprint" d) eqn:Hf,
        (dict_get "additional_info" d) eqn:Hi; cbn [obind] in H;
        injection H as <-; exists d, text;
        cbn [signer_name signer_email signature_date document_hash signature_algorithm
             key_fingerprint additional_info];
        rewrite ?Ha, ?Hf, ?Hi; repeat split; assumption.
    + intros (d & text & -> & Hn & He & Hd & Hiso & Hh & Ha & Hf & Hi).
      cbn [subscript get_default]. rewrite Hn, He, Hd, Hh. cbn [obind].
      unfold datetime_fromisoformat. rewrite Hiso. cbn [obind].
      destruct m. cbn in *. subst.
      destruct (dict_get "signature_algorithm" d), (dict_get "key_fingerprint" d),
        (dict_get "additional_info" d); reflexivity.
  - intros d H. unfold from_dict. cbn [subscript]. now rewrite H.
Qed.

End FromDict.

(** ** The type of a document and the place of its signature *)

Section LetterCase.

Lemma lower_ascii_sep (c : ascii) : Py.is_sep (Py.lower_ascii c) = Py.is_sep c.
Proof. destruct c as [[] [] [] [] [] [] [] []]; reflexivity. Qed.

Lemma lower_ascii_dot (c : ascii) :
  Ascii.eqb (Py.lower_ascii c) "." = Ascii.eqb c ".".
Proof. destruct c as [[] [] [] [] [] [] [] []]; reflexivity. Qed.

Lemma lower_ascii_twice (c : ascii) : Py.lower_ascii (Py.lower_ascii c) = Py.lower_ascii c.
Proof. destruct c as [[] [] [] [] [] [] [] []]; reflexivity. Qed.

Lemma split_sep_lower (l : list ascii) :
  Py.split_sep (map Py.lower_ascii l) = map (map Py.lower_ascii) (Py.split_sep l).
Proof.
  induction l as [|c r IH]; [reflexivity|].
  cbn [map Py.split_sep]. rewrite lower_ascii_sep, IH.
  destruct (Py.is_sep c); [reflexivity|].
  destruct (Py.split_sep r); reflexivity.
Qed.

Lemma kept_component_lower (x : list ascii) :
  Py.kept_component (map Py.lower_ascii x) = Py.kept_component x.
Proof.
  destruct x as [|c [|d x]]; try reflexivity.
  cbn [map Py.kept_component]. now rewrite lower_ascii_dot.
Qed.

Lemma filter_kept_lower (l : list (list ascii)) :
  List.filter Py.kept_component (map (map Py.lower_ascii) l) =
  map (map Py.lower_ascii) (List.filter Py.kept_component l).
Proof.
  induction l as [|x l IH]; [reflexivity|].
  cbn [map List.filter]. rewrite kept_component_lower, IH.
  destruct (Py.kept_component x); reflexivity.
Qed.

Lemma last_lower (l : list (list ascii)) :
  List.last (map (map Py.lower_ascii) l) [] = map Py.lower_ascii (List.last l []).
Proof.
  induction l as [|x [|y l] IH]; try reflexivity.
  exact IH.
Qed.

Lemma name_chars_lower (p : list ascii) :
  Py.name_chars (map Py.lower_ascii p) = map Py.lower_ascii (Py.name_chars p).
Proof.
  unfold Py.name_chars. now rewrite split_sep_lower, filter_kept_lower, last_lower.
Qed.

Lemma break_dot_lower (l : list ascii) :
  Py.break_dot (map Py.lower_ascii l) =
  match Py.break_dot l with
  | Some (e, s) => Some (map Py.lower_ascii e, map Py.lower_ascii s)
  | None => None
  end.
Proof.
  induction l as [|c r IH]; [reflexivity|].
  cbn [map Py.break_dot]. rewrite lower_ascii_dot, IH.
  destruct (Ascii.eqb c "."); [reflexivity|].
  destruct (Py.break_dot r) as [[e s]|]; reflexivity.
Qed.

Lemma suffix_chars_lower (nm : list ascii) :
  Py.suffix_chars (map Py.lower_ascii nm) = map Py.lower_ascii (Py.suffix_chars nm).
Proof.
  unfold Py.suffix_chars. rewrite <- List.map_rev, break_dot_lower.
  destruct (Py.break_dot (List.rev nm)) as [[[|e e'] [|s s']]|]; try reflexivity.
  cbn [map]. rewrite List.map_rev. reflexivity.
Qed.

Lemma path_suffix_lower (p : string) :
  Py.path_suffix (Py.lower p) = Py.lower (Py.path_suffix p).
Proof.
  unfold Py.path_suffix, Py.lower.
  now rewrite !chars_str, name_chars_lower, suffix_chars_lower.
Qed.

Lemma lower_twice (p : string) : Py.lower (Py.lower p) = Py.lower p.
Proof.
  unfold Py.lower. rewrite chars_str, List.map_map.
  f_equal. apply List.map_ext, lower_ascii_twice.
Qed.

(** X20. The type of a document does not depend on the case of the
    letters of its path: a path and its lower-case form have the same
    type, and so have any two paths that differ by the case of letters
    only ([REPORT.PDF], [Report.Pdf] and [report.pdf] are all PDF). *)
Theorem document_type_ignores_letter_case (p q : string) :
  DocumentSigner._detect_document_type (Py.lower p) =
    DocumentSigner._detect_document_type p /\
  (Py.lower p = Py.lower q ->
   DocumentSigner._detect_document_type p = DocumentSigner._detect_document_type q).
Proof.
  assert (H : forall x, DocumentSigner._detect_document_type (Py.lower x) =
                        DocumentSigner._detect_document_type x).
  { intros x. unfold DocumentSigner._detect_document_type.
    now rewrite path_suffix_lower, lower_twice. }
  split; [apply H|].
  intros E. rewrite <- (H p), <- (H q), E. reflexivity.
Qed.

End LetterCase.

Section SidecarPath.
Context `{L : Library}.

(** X21. A document can be verified under its own path or under the
    path of its signature file, with the same result: when the document
    [D] (whose name does not end in [.sig]) and [D.sig] both exist, the
    request that names [D.sig] and gives no original path runs exactly as
    the request that names [D]. *)
Theorem sidecar_path_verifies_like_the_document (D : string) (key : option string)
    (s : SignatureVerifier.t * World) :
  Py.endswith D ".sig" = false ->
  is_Some (files (snd s) !! D) ->
  is_Some (files (snd s) !! (D +:+ ".sig")) ->
  SignatureVerifier.verify_document
    {| signed_document_path := D +:+ ".sig";
       original_document_path := None;
       models.public_key_path := key |} s =
  SignatureVerifier.verify_document
    {| signed_document_path := D;
       original_document_path := None;
       models.public_key_path := key |} s.
Proof.
  intros Hends Hdoc Hside.
  unfold SignatureVerifier.verify_document.
  pose proof (locate_sidecar D key) as H1.
  unfold DocumentSigner._get_signature_file_path in H1. rewrite H1.
  assert (H2 : SignatureVerifier.locate
                 {| signed_document_path := D;
                    original_document_path := None;
                    models.public_key_path := key |} = (D +:+ ".sig", D)).
  { unfold SignatureVerifier.locate. cbn [signed_document_path]. now rewrite Hends. }
  rewrite H2. cbn [signed_document_path].
  unfold try_except, bind, os_path_exists. cbn [fst snd].
  rewrite (bool_decide_eq_true_2 _ Hdoc), (bool_decide_eq_true_2 _ Hside).
  reflexivity.
Qed.

End SidecarPath.

(** ** The stored keys of the instance meet the laws *)

Module RefKeysFacts.

#[export] Instance key_laws : KeyLibraryLaws Ref.library RefKeys.key_library.
Proof.
  split.
  - intros sk password salt _. destruct sk; reflexivity.
  - intros sk. destruct sk; vm_compute; reflexivity.
Qed.

End RefKeysFacts.

(** ** The properties on the scenario *)

Lemma document_hash_is_digest_of_whole_file_witness :
  DocumentSigner._calculate_document_hash Scenario.document
    (Scenario.signer, Scenario.world0) =
  (Return "ba7816bf8f01cfea414140de5dae2223b00361a396177a9cb410ff61f20015ad",
   (Scenario.signer,
    set_calls (calls Scenario.world0 ++ [EvHash Scenario.document]) Scenario.world0)).
Proof.
  assert (Hfile : files Scenario.world0 !! Scenario.document
                  = Some (File (Py.encode "abc"))) by (vm_compute; reflexivity).
  destruct (document_hash_is_digest_of_whole_file (L := Ref.library)
              Scenario.document (Py.encode "abc") Scenario.signer Scenario.keyless
              Scenario.world0 Hfile) as (_ & -> & _).
  assert (Hhash : Py.hex (sha256 (Library := Ref.library) (Py.encode "abc"))
                  = "ba7816bf8f01cfea414140de5dae2223b00361a396177a9cb410ff61f20015ad")
    by (vm_compute; reflexivity).
  rewrite Hhash. reflexivity.
Defined.

Lemma sign_document_output_path_can_replace_the_document_witness :
  exists r s' signature (metadata : SignatureMetadata (L := Ref.library)),
    DocumentSigner.sign_document Setup.request_over_document
      (Scenario.signer, Scenario.world0) = (Return r, s') /\
    success r = true /\
    files Scenario.world0 !! Scenario.document = Some (File (Py.encode "abc")) /\
    files (snd s') !! Scenario.document =
      Some (File (Ref.json_dump (DocumentSigner.signature_package signature metadata))).
Proof.
  destruct (sign_document_shape (L := Ref.library) Setup.request_over_document
              (Scenario.signer, Scenario.world0)) as (r & s' & Hsign & _).
  assert (Hok : success r = true).
  { rewrite (returned_run _ _ _ Hsign). vm_compute. reflexivity. }
  destruct (sign_document_output_path_can_replace_the_document (L := Ref.library)
              Setup.request_over_document Scenario.signer Scenario.world0 r s'
              eq_refl Hsign Hok)
    as (content & signature & metadata & Hdoc & _ & _ & _ & Hnew & _).
  exists r, s', signature, metadata.
  split; [exact Hsign|]. split; [exact Hok|]. split; [|exact Hnew].
  vm_compute. reflexivity.
Defined.

Lemma verify_document_without_usable_sidecar_witness :
  exists r,
    SignatureVerifier.verify_document Scenario.vrequest
      (Scenario.keyless, Scenario.world0) = (Return r, (Scenario.keyless, Scenario.world0)) /\
    status r = Some INVALID /\
    message r = "No se pudo cargar el archivo de firma".
Proof.
  eexists. split.
  - apply (verify_document_without_usable_sidecar (L := Ref.library)).
    + eexists. vm_compute. reflexivity.
    + eexists. vm_compute. reflexivity.
    + vm_compute. exact I.
  - split; reflexivity.
Defined.

Lemma signature_follows_the_content_witness :
  exists r1 s1 r2 s2,
    DocumentSigner.sign_document Scenario.request (Scenario.signer, Scenario.world0)
      = (Return r1, s1) /\
    SignatureVerifier.verify_document
      {| signed_document_path := Setup.copy;
         original_document_path := None;
         models.public_key_path := Some Scenario.key_file |}
      (Scenario.keyless, Setup.copied) = (Return r2, s2) /\
    success r2 = true /\ status r2 = Some VALID /\ metadata r2 = metadata r1.
Proof.
  destruct (sign_document_shape (L := Ref.library) Scenario.request
              (Scenario.signer, Scenario.world0)) as (r1 & s1 & Hsign & _).
  assert (Hok : success r1 = true).
  { rewrite (returned_run _ _ _ Hsign). vm_compute. reflexivity. }
  destruct (@signature_follows_the_content Ref.library RefFacts.laws
              Scenario.request Scenario.signer Scenario.world0 r1 s1
              eq_refl Hsign Hok)
    as (m1 & sk & Hm1 & Hsk & Hverify).
  assert (Hkey : sk = Ref.KeyA).
  { cbn in Hsk. now injection Hsk as <-. }
  subst sk.
  destruct (Hverify {| signed_document_path := Setup.copy;
                       original_document_path := None;
                       models.public_key_path := Some Scenario.key_file |}
              Scenario.keyless Setup.copied)
    as (r2 & s2 & Hrun & Hsu & Hst & Hmd).
  - vm_compute. reflexivity.
  - pose proof (f_equal snd Hsign) as E. cbn [snd] in E.
    rewrite <- E. vm_compute. reflexivity.
  - vm_compute. reflexivity.
  - exists r1, s1, r2, s2. rewrite Hm1. auto.
Defined.

Lemma sidecar_path_verifies_like_the_document_witness :
  SignatureVerifier.verify_document
    {| signed_document_path := Scenario.sidecar;
       original_document_path := None;
       models.public_key_path := None |}
    (Scenario.verifier, Scenario.world1) =
  SignatureVerifier.verify_document Scenario.vrequest (Scenario.verifier, Scenario.world1).
Proof.
  apply (sidecar_path_verifies_like_the_document (L := Ref.library)
           Scenario.document None (Scenario.verifier, Scenario.world1)).
  - reflexivity.
  - eexists. vm_compute. reflexivity.
  - eexists. vm_compute. reflexivity.
Defined.

Lemma signer_constructor_reads_the_private_key_file_witness :
  SignerSetup.new (K := RefKeys.key_library)
    Setup.private_key_file Setup.public_key_file None Setup.warm =
  (Return (signer_with (L := Ref.library) Ref.KeyA
             Setup.private_key_file Setup.public_key_file), Setup.warm) /\
  key_at Setup.warm Setup.public_key_file = Some Scenario.key_b.
Proof.
  split; [|vm_compute; reflexivity].
  rewrite (signer_constructor_reads_the_private_key_file (K := RefKeys.key_library)
             Setup.private_key_file Setup.public_key_file None Setup.warm).
  - replace (private_key_at Setup.warm Setup.private_key_file None) with (Some Ref.KeyA)
      by (vm_compute; reflexivity).
    reflexivity.
  - eexists. vm_compute. reflexivity.
  - eexists. vm_compute. reflexivity.
Defined.


Lemma fresh_signer_and_verifier_agree_witness :
  exists signer w1 r1 s1 r2 s2,
    SignerSetup.new (K := RefKeys.key_library)
      Setup.private_key_file Setup.public_key_file None Setup.cold = (Return signer, w1) /\
    DocumentSigner.sign_document (plain_request Scenario.document "Ada" "ada@example.com")
      (signer, w1) = (Return r1, s1) /\
    success r1 = true /\
    SignatureVerifier.verify_document (plain_vrequest Scenario.document)
      (fst (SignatureVerifier.new (Some Setup.public_key_file) w1), snd s1)
      = (Return r2, s2) /\
    success r2 = true /\ status r2 = Some VALID.
Proof.
  destruct (new_cases (K := RefKeys.key_library)
              Setup.private_key_file Setup.public_key_file None Setup.cold)
    as (w1 & [(sk & E) | E]).
  - assert (Hmissing : files Setup.cold !! Setup.private_key_file = None \/
                       files Setup.cold !! Setup.public_key_file = None)
      by (right; vm_compute; reflexivity).
    assert (Hne : Setup.private_key_file <> Setup.public_key_file)
      by (vm_compute; discriminate).
    assert (Hpub : Setup.public_key_file <> "") by (vm_compute; discriminate).
    assert (Hpw : @None (list byte) <> Some []) by discriminate.
    destruct (@fresh_signer_and_verifier_agree
                Ref.library RefKeys.key_library RefFacts.laws RefKeysFacts.key_laws
                Setup.private_key_file Setup.public_key_file None Setup.cold _ w1
                Hmissing Hne Hpub Hpw E) as (_ & Hverify).
    destruct (sign_document_shape (L := Ref.library)
                (plain_request Scenario.document "Ada" "ada@example.com")
                (signer_with sk Setup.private_key_file Setup.public_key_file, w1))
      as (r1 & s1 & Hsign & _).
    assert (Hsk : sk = Ref.KeyB).
    { destruct (@new_generated Ref.library RefKeys.key_library RefKeysFacts.key_laws
                  _ _ _ _ _ _ Hmissing Hne Hpw E)
        as (Hs & _).
      apply (f_equal (fun s => KeyManager.private_key (DocumentSigner.key_manager s)))
        in Hs.
      cbn [signer_with DocumentSigner.key_manager KeyManager.private_key] in Hs.
      injection Hs as ->. vm_compute. reflexivity. }
    assert (Hok : success r1 = true).
    { rewrite (returned_run _ _ _ Hsign).
      pose proof (f_equal snd E) as Ew. cbn [snd] in Ew. rewrite <- Ew, Hsk.
      vm_compute. reflexivity. }
    destruct (Hverify Scenario.document "Ada" "ada@example.com" w1 r1 s1 Hsign Hok)
      as (r2 & s2 & Hrun & Hsu & Hst & _).
    do 6 eexists. split; [exact E|]. split; [exact Hsign|]. split; [exact Hok|].
    split; [exact Hrun|]. split; [exact Hsu | exact Hst].
  - assert (H : Setup.constructed
                  (SignerSetup.new (K := RefKeys.key_library)
                     Setup.private_key_file Setup.public_key_file None Setup.cold)
                = true) by (vm_compute; reflexivity).
    rewrite E in H. discriminate.
Defined.

Lemma signed_document_shows_its_metadata_witness :
  exists r1 s1 m1,
    DocumentSigner.sign_document Scenario.request (Scenario.signer, Scenario.world0)
      = (Return r1, s1) /\
    metadata r1 = Some m1 /\
    SignatureInfo.extract_metadata_from_signature Scenario.sidecar (tt, snd s1)
      = (Return (Some m1), (tt, snd s1)) /\
    SignatureInfo.get_signature_info Scenario.document (tt, snd s1) =
      (Return
         (JDict [ ("has_signature", JBool true);
                  ("signer_name", JStr "Ada");
                  ("signer_email", JStr "ada@example.com");
                  ("signature_date", JStr "2025-11-19T10:00:00");
                  ("algorithm", JStr "RSA-PSS with SHA-256");
                  ("document_hash", JStr "ba7816bf8f01cfea...");
                  ("additional_info", additional_info m1) ]),
       (tt, snd s1)).
Proof.
  destruct (sign_document_shape (L := Ref.library) Scenario.request
              (Scenario.signer, Scenario.world0)) as (r1 & s1 & Hsign & _).
  assert (Hok : success r1 = true).
  { rewrite (returned_run _ _ _ Hsign). vm_compute. reflexivity. }
  destruct (@signed_document_shows_its_metadata Ref.library RefFacts.laws unit
              Scenario.request Scenario.signer Scenario.world0 r1 s1
              eq_refl Hsign Hok)
    as (m1 & path & content & Hm1 & Hpath & Hdoc & Hinfo).
  assert (Hp : path = Scenario.sidecar).
  { assert (H : signed_file_path r1 = Some Scenario.sidecar).
    { rewrite (returned_run _ _ _ Hsign). vm_compute. reflexivity. }
    congruence. }
  assert (Hc : content = Py.encode "abc").
  { assert (Hfile : files Scenario.world0 !! document_path Scenario.request
                    = Some (File (Py.encode "abc"))) by (vm_compute; reflexivity).
    rewrite Hfile in Hdoc. now injection Hdoc as <-. }
  subst path content.
  destruct (Hinfo tt (snd s1) eq_refl) as (Hextract & Hsummary).
  exists r1, s1, m1. split; [exact Hsign|]. split; [exact Hm1|].
  split; [exact Hextract|].
  change Scenario.document with (document_path Scenario.request) at 1.
  rewrite (Hsummary eq_refl).
  assert (Hhash : Py.hex (firstn 8 (sha256 (Library := Ref.library) (Py.encode "abc")))
                  = "ba7816bf8f01cfea") by (vm_compute; reflexivity).
  rewrite Hhash. reflexivity.
Defined.

(** A signature file that records a number as the hash: the metadata are
    accepted, [verify_document] answers that the document was modified, and
    [get_signature_info] raises. *)
Example signature_info_raises_on_a_number :
  (exists m, sidecar_metadata Setup.odd Scenario.sidecar = Some m /\
             document_hash m = JNum 7) /\
  (exists e, fst (SignatureInfo.get_signature_info Scenario.document (tt, Setup.odd))
             = Raise e) /\
  status (Scenario.result_of
            (SignatureVerifier.verify_document Scenario.vrequest
               (Scenario.verifier, Setup.odd))) = Some TAMPERED.
Proof.
  assert (Hm : exists m, sidecar_metadata Setup.odd Scenario.sidecar = Some m /\
                         document_hash m = JNum 7).
  { destruct (sidecar_metadata (L := Ref.library) Setup.odd Scenario.sidecar)
      as [m|] eqn:E.
    - exists m. split; [reflexivity|].
      apply (f_equal (fun o => match o with
                               | Some x => document_hash x
                               | None => JNull
                               end)) in E.
      rewrite <- E. vm_compute. reflexivity.
    - exfalso.
      apply (f_equal (fun o => match o with Some _ => true | None => false end)) in E.
      revert E. vm_compute. discriminate. }
  split; [exact Hm|]. split.
  - apply (signature_info_raises_on_a_hash_that_is_no_string (L := Ref.library)).
    destruct Hm as (m & Hm & Hhash). exists m. split; [exact Hm|].
    intros s. rewrite Hhash. discriminate.
  - vm_compute. reflexivity.
Qed.

(** Generating and storing a pair in the cold world succeeds. *)
Example generate_and_save_keys_in_the_cold_world :
  fst (KeyStore.generate_and_save_keys (K := RefKeys.key_library)
         Setup.private_key_file Setup.public_key_file 2048 None (tt, Setup.cold))
    = Return true /\
  fst (KeyStore.generate_and_save_keys (K := RefKeys.key_library)
         Setup.private_key_file Setup.public_key_file 1024 None (tt, Setup.cold))
    = Return false /\
  fst (KeyStore.generate_and_save_keys (K := RefKeys.key_library)
         (Scenario.document +:+ "/private.pem") Setup.public_key_file 2048 None
         (tt, Setup.cold))
    = Return false.
Proof. split; [|split]; vm_compute; reflexivity. Qed.
